(** * Simplex UI: the item models of [scripts/SimplexUI/interfaceModel.py]

    A shallow embedding of the tree model, its change brackets, the
    selection helpers, the filter proxies and the falloff list model,
    followed by the properties of the specification that concern them.

    Python objects live in a heap: an object is a reference into a finite
    map, so that two holders of the same slider see the same progression.
    Exceptions are values of [Res]; code that writes to the heap or emits
    Qt signals runs in the state monad [M]. *)

From Stdlib Require Import ZArith Ascii String.
From stdpp Require Import base option list gmap strings.

Local Open Scope Z_scope.

(** ** The Python runtime the module relies on *)

Inductive Exn :=
| IndexError
| ValueError
| AttributeError
| TypeError
| KeyError
| ReError (msg : string).

Inductive Res (A : Type) :=
| Ok (a : A)
| Raise (e : Exn).
Arguments Ok {A} a.
Arguments Raise {A} e.

Global Instance Res_ret : MRet Res := λ A a, Ok a.
Global Instance Res_bind : MBind Res := λ A B k r,
  match r with
  | Ok a => k a
  | Raise e => Raise e
  end.
Global Instance Res_fmap : FMap Res := λ A B f r,
  match r with
  | Ok a => Ok (f a)
  | Raise e => Raise e
  end.

(** References to Python objects; [None] of [option Ref] is Python's [None]. *)
Abbreviation Ref := positive (only parsing).

(** [l[i]] on a Python list: negative subscripts count from the end. *)
Definition py_getitem {A} (l : list A) (i : Z) : Res A :=
  let n := Z.of_nat (length l) in
  let j := if decide (i < 0) then n + i else i in
  if decide (0 ≤ j < n)
  then from_option Ok (Raise IndexError) (l !! Z.to_nat j)
  else Raise IndexError.

(** [l.index(x)]: the first position holding [x], [ValueError] otherwise. *)
Fixpoint py_index `{EqDecision A} (l : list A) (x : A) : Res Z :=
  match l with
  | [] => Raise ValueError
  | y :: l' =>
      if decide (y = x) then Ok 0
      else i ← py_index l' x; Ok (1 + i)
  end.

(** [len(l)] *)
Definition len {A} (l : list A) : Z := Z.of_nat (length l).

(** [range(n)] *)
Definition range (n : Z) : list Z := Z.of_nat <$> seq 0 (Z.to_nat n).

(** [list(set(l))]: the elements of [l] once each.  Python leaves the order
    of a set unspecified; statements about the result are made up to
    permutation. *)
Definition list_set `{EqDecision A} (l : list A) : list A := remove_dups l.

(** A value handed over by a view: text or a number (check states and
    weights are numbers). *)
Inductive Variant :=
| VStr (s : string)
| VNum (n : Z).

Global Instance Variant_eq_dec : EqDecision Variant.
Proof. solve_decision. Defined.

(** ** The items of [interfaceItems]

    The classes themselves are defined in [interfaceItems]; the records below
    carry the attributes the models read and write. *)

Inductive Kind :=
| KSimplex | KGroup | KSlider | KCombo | KTraversal
| KComboPair | KTravPair | KProgression | KProgPair
| KShape | KFalloff.

Global Instance Kind_eq_dec : EqDecision Kind.
Proof. solve_decision. Defined.

Module Simplex.
Record t := mk {
  name : Variant;
  sliderGroups : list Ref;
  comboGroups : list Ref;
  traversalGroups : list Ref;
  falloffs : list Ref }.
End Simplex.

Module Group.
Record t := mk {
  name : Variant;
  groupType : Kind;
  simplex : option Ref;
  items : list Ref }.
End Group.

Module Slider.
Record t := mk {
  name : Variant;
  group : option Ref;
  prog : option Ref;
  value : Variant;
  enabled : bool }.
End Slider.

Module Combo.
Record t := mk {
  name : Variant;
  group : option Ref;
  pairs : list Ref;
  prog : option Ref;
  enabled : bool }.
End Combo.

Module Traversal.
Record t := mk {
  name : Variant;
  group : option Ref;
  progressCtrl : option Ref;
  multiplierCtrl : option Ref;
  prog : option Ref;
  enabled : bool }.
End Traversal.

Module ComboPair.
Record t := mk {
  name : Variant;
  slider : option Ref;
  combo : option Ref;
  value : Variant }.
End ComboPair.

Module TravPair.
Record t := mk {
  name : Variant;
  slider : option Ref;
  traversal : option Ref;
  value : Variant;
  usage : string }.
End TravPair.

Module Progression.
Record t := mk {
  name : Variant;
  controller : option Ref;
  pairs : list Ref;
  falloffs : list Ref }.
End Progression.

Module ProgPair.
Record t := mk {
  name : Variant;
  shape : option Ref;
  prog : option Ref;
  value : Variant }.
End ProgPair.

Module Shape.
Record t := mk {
  name : Variant;
  isRest : bool }.
End Shape.

Module Falloff.
Record t := mk { name : string }.
End Falloff.

Inductive Obj :=
| OSimplex (o : Simplex.t)
| OGroup (o : Group.t)
| OSlider (o : Slider.t)
| OCombo (o : Combo.t)
| OTraversal (o : Traversal.t)
| OComboPair (o : ComboPair.t)
| OTravPair (o : TravPair.t)
| OProgression (o : Progression.t)
| OProgPair (o : ProgPair.t)
| OShape (o : Shape.t)
| OFalloff (o : Falloff.t).

Abbreviation Heap := (gmap positive Obj).

(** The class of an object, as [isinstance] sees it. *)
Definition kindOf (o : Obj) : Kind :=
  match o with
  | OSimplex _ => KSimplex
  | OGroup _ => KGroup
  | OSlider _ => KSlider
  | OCombo _ => KCombo
  | OTraversal _ => KTraversal
  | OComboPair _ => KComboPair
  | OTravPair _ => KTravPair
  | OProgression _ => KProgression
  | OProgPair _ => KProgPair
  | OShape _ => KShape
  | OFalloff _ => KFalloff
  end.

(** What a variable holds: nothing ([None]) or an object of the heap. *)
Definition deref (h : Heap) (x : option Ref) : option Obj := x ≫= (h !!.).

Definition isinstance (h : Heap) (x : option Ref) (ks : list Kind) : bool :=
  match deref h x with
  | Some o => bool_decide (kindOf o ∈ ks)
  | None => false
  end.

(** The parts of [interfaceItems] the models call and that are not part of
    this module: the class attribute [classDepth] of every item class and
    the method [TravPair.usageIndex]. *)
Class InterfaceItems := {
  classDepth : Kind → Z;
  usageIndex : TravPair.t → Z }.

(** *** Attribute access through a reference

    [x.attr] raises [AttributeError] when [x] is [None] or an object
    without that attribute. *)

Definition attr_pairs (h : Heap) (x : option Ref) : Res (list Ref) :=
  match deref h x with
  | Some (OCombo c) => Ok (Combo.pairs c)
  | Some (OProgression p) => Ok (Progression.pairs p)
  | _ => Raise AttributeError
  end.

Definition attr_items (h : Heap) (x : option Ref) : Res (list Ref) :=
  match deref h x with
  | Some (OGroup g) => Ok (Group.items g)
  | _ => Raise AttributeError
  end.

Definition attr_controller (h : Heap) (x : option Ref) : Res (option Ref) :=
  match deref h x with
  | Some (OProgression p) => Ok (Progression.controller p)
  | _ => Raise AttributeError
  end.

Definition attr_prog (h : Heap) (x : option Ref) : Res (option Ref) :=
  match deref h x with
  | Some (OSlider s) => Ok (Slider.prog s)
  | Some (OCombo c) => Ok (Combo.prog c)
  | Some (OTraversal t) => Ok (Traversal.prog t)
  | Some (OProgPair p) => Ok (ProgPair.prog p)
  | _ => Raise AttributeError
  end.

Definition attr_falloffs (h : Heap) (x : option Ref) : Res (list Ref) :=
  match deref h x with
  | Some (OProgression p) => Ok (Progression.falloffs p)
  | Some (OSimplex s) => Ok (Simplex.falloffs s)
  | _ => Raise AttributeError
  end.

Definition attr_slider (h : Heap) (x : option Ref) : Res (option Ref) :=
  match deref h x with
  | Some (OComboPair p) => Ok (ComboPair.slider p)
  | Some (OTravPair p) => Ok (TravPair.slider p)
  | _ => Raise AttributeError
  end.

Definition attr_isRest (h : Heap) (x : option Ref) : Res bool :=
  match deref h x with
  | Some (OShape s) => Ok (Shape.isRest s)
  | _ => Raise AttributeError
  end.

Definition attr_name (h : Heap) (x : option Ref) : Res Variant :=
  match deref h x with
  | Some (OSimplex o) => Ok (Simplex.name o)
  | Some (OGroup o) => Ok (Group.name o)
  | Some (OSlider o) => Ok (Slider.name o)
  | Some (OCombo o) => Ok (Combo.name o)
  | Some (OTraversal o) => Ok (Traversal.name o)
  | Some (OComboPair o) => Ok (ComboPair.name o)
  | Some (OTravPair o) => Ok (TravPair.name o)
  | Some (OProgression o) => Ok (Progression.name o)
  | Some (OProgPair o) => Ok (ProgPair.name o)
  | Some (OShape o) => Ok (Shape.name o)
  | Some (OFalloff o) => Ok (VStr (Falloff.name o))
  | None => Raise AttributeError
  end.

(** [simplex.sliderGroups + simplex.comboGroups + simplex.traversalGroups] *)
Definition allGroups (s : Simplex.t) : list Ref :=
  Simplex.sliderGroups s ++ Simplex.comboGroups s ++ Simplex.traversalGroups s.

Definition attr_allGroups (h : Heap) (x : option Ref) : Res (list Ref) :=
  match deref h x with
  | Some (OSimplex s) => Ok (allGroups s)
  | _ => Raise AttributeError
  end.

(** ** Model indexes, signals and the state the models act on *)

Record QModelIndex := mkIndex {
  row : Z;
  column : Z;
  internalPointer : option Ref;
  hasModel : bool }.

Global Instance QModelIndex_eq_dec : EqDecision QModelIndex.
Proof. solve_decision. Defined.

(** [QModelIndex()] *)
Definition invalidIndex : QModelIndex := mkIndex (-1) (-1) None false.

(** [self.createIndex(row, column, item)] *)
Definition createIndex (r c : Z) (item : option Ref) : QModelIndex :=
  mkIndex r c item true.

Definition isValid (i : QModelIndex) : bool :=
  bool_decide (0 ≤ row i) && bool_decide (0 ≤ column i) && hasModel i.

Inductive Role := DisplayRole | EditRole | CheckStateRole | OtherRole (n : Z).

Global Instance Role_eq_dec : EqDecision Role.
Proof. solve_decision. Defined.

(** [Qt.Unchecked], [Qt.PartiallyChecked], [Qt.Checked] *)
Definition Unchecked : Z := 0.
Definition PartiallyChecked : Z := 1.
Definition Checked : Z := 2.

(** The calls a model makes into the view framework. *)
Inductive Signal :=
| dataChanged (topLeft bottomRight : QModelIndex)
| beginInsertRows (parent : QModelIndex) (first last : Z)
| endInsertRows
| beginRemoveRows (parent : QModelIndex) (first last : Z)
| endRemoveRows
| beginMoveRows (srcParent : QModelIndex) (first last : Z)
    (destParent : QModelIndex) (destRow : Z)
| endMoveRows
| beginResetModel
| endResetModel.

Record World := mkWorld {
  heap : Heap;
  signals : list Signal }.

(** Code with effects: it may change its state and may raise; the state
    reached when an exception is raised is kept. *)
Definition StateExn (S A : Type) : Type := S → Res A * S.

Global Instance StateExn_ret {S} : MRet (StateExn S) := λ A a w, (Ok a, w).
Global Instance StateExn_bind {S} : MBind (StateExn S) := λ A B k m w,
  match m w with
  | (Ok a, w') => k a w'
  | (Raise e, w') => (Raise e, w')
  end.

(** The effects of a model on the item heap and on its views. *)
Abbreviation M := (StateExn World).

Definition emit (s : Signal) : M () :=
  λ w, (Ok (), mkWorld (heap w) (signals w ++ [s])).

Definition getHeap : M Heap := λ w, (Ok (heap w), w).

Definition setHeap (h : Heap) : M () :=
  λ w, (Ok (), mkWorld h (signals w)).

(** A computation that only reads the heap. *)
Definition liftRes {A} (f : Heap → Res A) : M A := λ w, (f (heap w), w).

(** [try: body finally: fin]: [fin] runs however [body] ends; the outcome
    is that of [body] unless [fin] itself raises. *)
Definition try_finally {S A} (body : StateExn S A) (fin : StateExn S ())
  : StateExn S A :=
  λ w,
    let '(r, w1) := body w in
    match fin w1 with
    | (Ok _, w2) => (r, w2)
    | (Raise e, w2) => (Raise e, w2)
    end.

(** [when c: m] *)
Definition when {S} (c : bool) (m : StateExn S ()) : StateExn S () :=
  if c then m else mret ().

(** ** [ContextModel]: the change brackets shared by all item models

    A concrete model supplies [getItemRow], [getItemAppendRow] and [parent];
    [indexFromItem] and the four context managers are inherited. *)

Module ContextModel.

Class Ops (Self : Type) := {
  getItemRow : Self → Heap → option Ref → Res (option Z);
  getItemAppendRow : Self → Heap → option Ref → Res Z;
  parent : Self → Heap → QModelIndex → Res QModelIndex }.

Section Managers.
Context `{Ops Self}.
Variable self : Self.

Definition indexFromItem (h : Heap) (item : option Ref) (column : Z)
  : Res QModelIndex :=
  r ← getItemRow self h item;
  match r with
  | None => Ok invalidIndex
  | Some r => Ok (createIndex r column item)
  end.

Definition itemFromIndex (index : QModelIndex) : option Ref :=
  internalPointer index.

(** A context manager written as a generator: the code up to [yield] runs on
    entry and leaves the generator's local variables, the [with] body runs
    next, and the [finally] block runs on the way out, also when the body
    raised. *)
Definition contextmanager {C A} (enter : M C) (exit : C → M ()) (body : M A)
  : M A :=
  c ← enter; try_finally body (exit c).

Definition insertItemManager_enter (parent : option Ref) (row : Z)
  : M QModelIndex :=
  parIdx ← liftRes (λ h, indexFromItem h parent 0);
  (if isValid parIdx then
     row ← (if decide (row = -1)
            then liftRes (λ h, getItemAppendRow self h parent)
            else mret row);
     emit (beginInsertRows parIdx row row)
   else mret ());;
  mret parIdx.

Definition insertItemManager_exit (parIdx : QModelIndex) : M () :=
  when (isValid parIdx) (emit endInsertRows).

Definition insertItemManager {A} (parent : option Ref) (row : Z) (body : M A)
  : M A :=
  contextmanager (insertItemManager_enter parent row)
    insertItemManager_exit body.

Definition removeItemManager_enter (item : option Ref) : M QModelIndex :=
  idx ← liftRes (λ h, indexFromItem h item 0);
  (if isValid idx then
     parIdx ← liftRes (λ h, ContextModel.parent self h idx);
     emit (beginRemoveRows parIdx (row idx) (row idx))
   else mret ());;
  mret idx.

Definition removeItemManager_exit (idx : QModelIndex) : M () :=
  when (isValid idx) (emit endRemoveRows).

Definition removeItemManager {A} (item : option Ref) (body : M A) : M A :=
  contextmanager (removeItemManager_enter item) removeItemManager_exit body.

Definition moveItemManager_enter (item destPar : option Ref) (destRow : Z)
  : M bool :=
  itemIdx ← liftRes (λ h, indexFromItem h item 0);
  destParIdx ← liftRes (λ h, indexFromItem h destPar 0);
  if isValid itemIdx && isValid destParIdx then
    srcParIdx ← liftRes (λ h, ContextModel.parent self h itemIdx);
    let row := row itemIdx in
    destRow ← (if decide (destRow = -1)
               then liftRes (λ h, getItemAppendRow self h destPar)
               else mret destRow);
    emit (beginMoveRows srcParIdx row row destParIdx destRow);;
    mret true
  else mret false.

Definition moveItemManager_exit (handled : bool) : M () :=
  when handled (emit endMoveRows).

Definition moveItemManager {A} (item destPar : option Ref) (destRow : Z)
  (body : M A) : M A :=
  contextmanager (moveItemManager_enter item destPar destRow)
    moveItemManager_exit body.

Definition resetModelManager_enter : M () := emit beginResetModel.

Definition resetModelManager_exit (_ : ()) : M () := emit endResetModel.

Definition resetModelManager {A} (body : M A) : M A :=
  contextmanager resetModelManager_enter resetModelManager_exit body.

End Managers.

End ContextModel.

(** ** [SimplexModel]: the tree model *)

Module SimplexModel.

Record t := mk { simplex : option Ref }.

Section Items.
Context `{InterfaceItems}.
Variable self : t.
Variable h : Heap.

(** [except IndexError: pass] around the body of [getChildItem] *)
Definition except_IndexError (r : Res (option Ref)) : Res (option Ref) :=
  match r with
  | Raise IndexError => Ok None
  | _ => r
  end.

Definition getChildItem (parent : option Ref) (row : Z) : Res (option Ref) :=
  except_IndexError
    match parent with
    | None => if decide (row = 0) then Ok (simplex self) else Ok None
    | Some p =>
        match h !! p with
        | Some (OSimplex s) => Some <$> py_getitem (allGroups s) row
        | Some (OGroup g) => Some <$> py_getitem (Group.items g) row
        | Some (OSlider s) =>
            ps ← attr_pairs h (Slider.prog s); Some <$> py_getitem ps row
        | Some (OCombo c) =>
            if decide (row = len (Combo.pairs c)) then Ok (Combo.prog c)
            else Some <$> py_getitem (Combo.pairs c) row
        | Some (OTraversal t) =>
            if decide (row = 0) then Ok (Traversal.progressCtrl t)
            else if decide (row = 1) then Ok (Traversal.multiplierCtrl t)
            else if decide (row = 2) then Ok (Traversal.prog t)
            else Ok None
        | Some (OProgression p) => Some <$> py_getitem (Progression.pairs p) row
        | _ => Ok None
        end
    end.

(** [except (ValueError, AttributeError)] around the body of [getItemRow];
    the handler prints the error and the row stays [None]. *)
Definition except_Value_Attribute (r : Res (option Z)) : Res (option Z) :=
  match r with
  | Raise ValueError | Raise AttributeError => Ok None
  | _ => r
  end.

Definition getItemRow (item : option Ref) : Res (option Z) :=
  except_Value_Attribute
    match item with
    | None => Ok None
    | Some i =>
        match h !! i with
        | Some (OGroup g) =>
            groups ← attr_allGroups h (Group.simplex g);
            Some <$> py_index groups i
        | Some (OSlider s) =>
            its ← attr_items h (Slider.group s); Some <$> py_index its i
        | Some (OProgPair p) =>
            ps ← attr_pairs h (ProgPair.prog p); Some <$> py_index ps i
        | Some (OCombo c) =>
            its ← attr_items h (Combo.group c); Some <$> py_index its i
        | Some (OComboPair p) =>
            ps ← attr_pairs h (ComboPair.combo p); Some <$> py_index ps i
        | Some (OTraversal t) =>
            its ← attr_items h (Traversal.group t); Some <$> py_index its i
        | Some (OTravPair p) => Ok (Some (usageIndex p))
        | Some (OProgression p) =>
            let ctrl := Progression.controller p in
            if isinstance h ctrl [KSlider] then Ok (Some (len (Progression.pairs p)))
            else if isinstance h ctrl [KCombo] then Ok (Some (len (Progression.pairs p)))
            else if isinstance h ctrl [KTraversal] then Ok (Some 2)
            else Ok None
        | Some (OSimplex _) => Ok (Some 0)
        | _ => Ok None
        end
    end.

Definition getParentItem (item : option Ref) : Res (option Ref) :=
  match deref h item with
  | Some (OGroup g) => Ok (Group.simplex g)
  | Some (OSlider s) => Ok (Slider.group s)
  | Some (OProgression p) => Ok (Progression.controller p)
  | Some (OCombo c) => Ok (Combo.group c)
  | Some (OComboPair p) => Ok (ComboPair.combo p)
  | Some (OTravPair p) => Ok (TravPair.traversal p)
  | Some (OTraversal t) => Ok (Traversal.group t)
  | Some (OProgPair p) =>
      let par := ProgPair.prog p in
      ctrl ← attr_controller h par;
      if isinstance h ctrl [KSlider] then Ok ctrl else Ok par
  | _ => Ok None
  end.

Definition getItemRowCount (item : option Ref) : Res Z :=
  match item with
  | None => Ok 1
  | Some i =>
      match h !! i with
      | Some (OSimplex s) =>
          Ok (len (Simplex.sliderGroups s) + len (Simplex.comboGroups s)
              + len (Simplex.traversalGroups s))
      | Some (OGroup g) => Ok (len (Group.items g))
      | Some (OSlider s) => len <$> attr_pairs h (Slider.prog s)
      | Some (OCombo c) => Ok (len (Combo.pairs c) + 1)
      | Some (OTraversal _) => Ok 3
      | Some (OTravPair _) => Ok 0
      | Some (OProgression p) => Ok (len (Progression.pairs p))
      | _ => Ok 0
      end
  end.

Definition getItemAppendRow (item : option Ref) : Res Z :=
  match deref h item with
  | Some (OCombo c) => Ok (len (Combo.pairs c))
  | _ => getItemRowCount item
  end.

Definition index (row column : Z) (parIndex : QModelIndex) : Res QModelIndex :=
  let par := internalPointer parIndex in
  child ← getChildItem par row;
  match child with
  | None => Ok invalidIndex
  | Some _ => Ok (createIndex row column child)
  end.

Definition parent (index : QModelIndex) : Res QModelIndex :=
  if negb (isValid index) then Ok invalidIndex
  else
    let item := internalPointer index in
    match item with
    | None => Ok invalidIndex
    | Some _ =>
        par ← getParentItem item;
        r ← getItemRow par;
        match r with
        | None => Ok invalidIndex
        | Some r => Ok (createIndex r 0 par)
        end
    end.

Definition rowCount (parIndex : QModelIndex) : Res Z :=
  getItemRowCount (internalPointer parIndex).

End Items.

Global Instance contextModel `{InterfaceItems} : ContextModel.Ops t := {|
  ContextModel.getItemRow := λ _, getItemRow;
  ContextModel.getItemAppendRow := λ _, getItemAppendRow;
  ContextModel.parent := λ _, parent |}.

(** *** Attribute writes *)

Definition set_enabled (b : bool) (o : Obj) : Obj :=
  match o with
  | OSlider s => OSlider (Slider.mk (Slider.name s) (Slider.group s)
                            (Slider.prog s) (Slider.value s) b)
  | OCombo c => OCombo (Combo.mk (Combo.name c) (Combo.group c)
                          (Combo.pairs c) (Combo.prog c) b)
  | OTraversal t => OTraversal (Traversal.mk (Traversal.name t)
                          (Traversal.group t) (Traversal.progressCtrl t)
                          (Traversal.multiplierCtrl t) (Traversal.prog t) b)
  | _ => o
  end.

Definition set_name (v : Variant) (o : Obj) : Obj :=
  match o with
  | OSlider s => OSlider (Slider.mk v (Slider.group s) (Slider.prog s)
                            (Slider.value s) (Slider.enabled s))
  | OCombo c => OCombo (Combo.mk v (Combo.group c) (Combo.pairs c)
                          (Combo.prog c) (Combo.enabled c))
  | OTraversal t => OTraversal (Traversal.mk v (Traversal.group t)
                          (Traversal.progressCtrl t) (Traversal.multiplierCtrl t)
                          (Traversal.prog t) (Traversal.enabled t))
  | OProgPair p => OProgPair (ProgPair.mk v (ProgPair.shape p)
                          (ProgPair.prog p) (ProgPair.value p))
  | _ => o
  end.

Definition set_value (v : Variant) (o : Obj) : Obj :=
  match o with
  | OSlider s => OSlider (Slider.mk (Slider.name s) (Slider.group s)
                            (Slider.prog s) v (Slider.enabled s))
  | OComboPair p => OComboPair (ComboPair.mk (ComboPair.name p)
                          (ComboPair.slider p) (ComboPair.combo p) v)
  | OTravPair p => OTravPair (TravPair.mk (TravPair.name p) (TravPair.slider p)
                          (TravPair.traversal p) v (TravPair.usage p))
  | OProgPair p => OProgPair (ProgPair.mk (ProgPair.name p) (ProgPair.shape p)
                          (ProgPair.prog p) v)
  | _ => o
  end.

(** [item.attr = v] for an item that has the attribute *)
Definition assign (f : Obj → Obj) (item : option Ref) : M () :=
  λ w,
    match item with
    | Some i => (Ok (), mkWorld (alter f i (heap w)) (signals w))
    | None => (Ok (), w)
    end.

Definition setData (index : QModelIndex) (value : Variant) (role : Role)
  : M bool :=
  if negb (isValid index) then mret false
  else
    h ← getHeap;
    let item := internalPointer index in
    match role with
    | CheckStateRole =>
        if decide (column index = 0) then
          if isinstance h item [KSlider; KCombo; KTraversal] then
            assign (set_enabled (bool_decide (value = VNum Checked))) item;;
            emit (dataChanged index index);;
            mret true
          else mret false
        else mret false
    | EditRole =>
        if decide (column index = 0) then
          if isinstance h item [KSlider; KCombo; KTraversal; KProgPair] then
            assign (set_name value) item;;
            emit (dataChanged index index);;
            mret true
          else mret false
        else if decide (column index = 1) then
          (if isinstance h item [KSlider] then assign (set_value value) item
           else if isinstance h item [KComboPair] then assign (set_value value) item
           else if isinstance h item [KTravPair] then assign (set_value value) item
           else mret ());;
          mret false
        else if decide (column index = 2) then
          (if isinstance h item [KProgPair] then assign (set_value value) item
           else mret ());;
          mret false
        else mret false
    | _ => mret false
    end.

End SimplexModel.

(** ** Hierarchy helpers: coercing a selection to one item type

    The [while] loops walk the heap, which may be cyclic, so they take fuel:
    [None] stands for a loop that has not finished within it. *)

Section Coerce.
Context `{InterfaceItems}.
Variable model : SimplexModel.t.
Variable h : Heap.

(** [idx.model().itemFromIndex(idx)]: a null index has no model. *)
Definition itemOf (idx : QModelIndex) : Res (option Ref) :=
  if hasModel idx then Ok (ContextModel.itemFromIndex idx)
  else Raise AttributeError.

(** [item.classDepth] *)
Definition depthOf (item : option Ref) : Res Z :=
  match deref h item with
  | Some o => Ok (classDepth (kindOf o))
  | None => Raise AttributeError
  end.

(** [idx.parent()] *)
Definition parentOf (idx : QModelIndex) : Res QModelIndex :=
  if hasModel idx then SimplexModel.parent h idx else Ok invalidIndex.

(** [[model.index(row, 0, idx) for row in range(model.rowCount(idx))]] *)
Definition childIndexes (idx : QModelIndex) : Res (list QModelIndex) :=
  n ← SimplexModel.rowCount h idx;
  mapM (λ row, SimplexModel.index model h row 0 idx) (range n).

(** [idx.model().itemFromIndex(idx).classDepth] *)
Definition indexDepth (idx : QModelIndex) : Res Z :=
  item ← itemOf idx; depthOf item.

(** One turn of [while queue:] in [coerceIndexToChildType], after
    [checkIdx = queue.pop()]. *)
Definition descendStep (targetDepth : Z) (queue depthIdxs : list QModelIndex)
  (checkIdx : QModelIndex) : Res (list QModelIndex * list QModelIndex) :=
  d ← indexDepth checkIdx;
  if decide (d < targetDepth) then
    cs ← childIndexes checkIdx; Ok (queue ++ cs, depthIdxs)
  else if decide (d = targetDepth) then Ok (queue, depthIdxs ++ [checkIdx])
  else Ok (queue, depthIdxs).

Fixpoint descendLoop (fuel : nat) (targetDepth : Z)
  (queue depthIdxs : list QModelIndex) : option (Res (list QModelIndex)) :=
  match reverse queue with
  | [] => Some (Ok depthIdxs)
  | checkIdx :: rest =>
      match fuel with
      | O => None
      | S fuel =>
          match descendStep targetDepth (reverse rest) depthIdxs checkIdx with
          | Raise e => Some (Raise e)
          | Ok (queue, depthIdxs) => descendLoop fuel targetDepth queue depthIdxs
          end
      end
  end.

Fixpoint coerceIndexToChildType_loop (fuel : nat) (targetDepth : Z)
  (indexes out : list QModelIndex) : option (Res (list QModelIndex)) :=
  match indexes with
  | [] => Some (Ok out)
  | idx :: indexes =>
      match indexDepth idx with
      | Raise e => Some (Raise e)
      | Ok d =>
          if decide (d < targetDepth) then
            match descendLoop fuel targetDepth [idx] [] with
            | None => None
            | Some (Raise e) => Some (Raise e)
            | Some (Ok depthIdxs) =>
                coerceIndexToChildType_loop fuel targetDepth indexes
                  (out ++ depthIdxs)
            end
          else if decide (d = targetDepth) then
            coerceIndexToChildType_loop fuel targetDepth indexes (out ++ [idx])
          else coerceIndexToChildType_loop fuel targetDepth indexes out
      end
  end.

Definition coerceIndexToChildType (fuel : nat) (indexes : list QModelIndex)
  (typ : Kind) : option (Res (list QModelIndex)) :=
  let targetDepth := classDepth typ in
  match coerceIndexToChildType_loop fuel targetDepth indexes [] with
  | None => None
  | Some (Raise e) => Some (Raise e)
  | Some (Ok out) => Some (Ok (list_set out))
  end.

(** [while parItem.classDepth > targetDepth:] in [coerceIndexToParentType];
    the result is the index the climb stops at, and its depth. *)
Fixpoint climbLoop (fuel : nat) (targetDepth : Z) (parIdx : QModelIndex)
  : option (Res (QModelIndex * Z)) :=
  match indexDepth parIdx with
  | Raise e => Some (Raise e)
  | Ok d =>
      if decide (d > targetDepth) then
        match fuel with
        | O => None
        | S fuel =>
            match parentOf parIdx with
            | Raise e => Some (Raise e)
            | Ok parIdx => climbLoop fuel targetDepth parIdx
            end
        end
      else Some (Ok (parIdx, d))
  end.

Fixpoint coerceIndexToParentType_loop (fuel : nat) (targetDepth : Z)
  (indexes out : list QModelIndex) : option (Res (list QModelIndex)) :=
  match indexes with
  | [] => Some (Ok out)
  | idx :: indexes =>
      match indexDepth idx with
      | Raise e => Some (Raise e)
      | Ok d =>
          if decide (d > targetDepth) then
            match climbLoop fuel targetDepth idx with
            | None => None
            | Some (Raise e) => Some (Raise e)
            | Some (Ok (parIdx, pd)) =>
                coerceIndexToParentType_loop fuel targetDepth indexes
                  (if decide (pd = targetDepth) then out ++ [parIdx] else out)
            end
          else if decide (d = targetDepth) then
            coerceIndexToParentType_loop fuel targetDepth indexes (out ++ [idx])
          else coerceIndexToParentType_loop fuel targetDepth indexes out
      end
  end.

Definition coerceIndexToParentType (fuel : nat) (indexes : list QModelIndex)
  (typ : Kind) : option (Res (list QModelIndex)) :=
  let targetDepth := classDepth typ in
  match coerceIndexToParentType_loop fuel targetDepth indexes [] with
  | None => None
  | Some (Raise e) => Some (Raise e)
  | Some (Ok out) => Some (Ok (list_set out))
  end.

(** The first loop of [coerceIndexToType]: sort the indexes into those
    above, below and at the target depth. *)
Fixpoint classify (targetDepth : Z) (indexes children parents out : list QModelIndex)
  : Res (list QModelIndex * list QModelIndex * list QModelIndex) :=
  match indexes with
  | [] => Ok (children, parents, out)
  | idx :: indexes =>
      depth ← indexDepth idx;
      if decide (depth < targetDepth) then
        classify targetDepth indexes children (parents ++ [idx]) out
      else if decide (depth > targetDepth) then
        classify targetDepth indexes (children ++ [idx]) parents out
      else classify targetDepth indexes children parents (out ++ [idx])
  end.

Definition coerceIndexToType (fuel : nat) (indexes : list QModelIndex)
  (typ : Kind) : option (Res (list QModelIndex)) :=
  let targetDepth := classDepth typ in
  match classify targetDepth indexes [] [] [] with
  | Raise e => Some (Raise e)
  | Ok (children, parents, out) =>
      match coerceIndexToChildType fuel parents typ with
      | None => None
      | Some (Raise e) => Some (Raise e)
      | Some (Ok down) =>
          match coerceIndexToParentType fuel children typ with
          | None => None
          | Some (Raise e) => Some (Raise e)
          | Some (Ok up) => Some (Ok (list_set ((out ++ down) ++ up)))
          end
      end
  end.

(** The child indexes of an index, none when they cannot be listed. *)
Definition kids (idx : QModelIndex) : list QModelIndex :=
  match childIndexes idx with
  | Ok cs => cs
  | Raise _ => []
  end.

(** Is the item of the index at the given depth? *)
Definition atDepth (targetDepth : Z) (idx : QModelIndex) : bool :=
  match indexDepth idx with
  | Ok d => bool_decide (d = targetDepth)
  | Raise _ => false
  end.

(** An index whose item lies at the target depth or below it: the loop of
    [coerceIndexToChildType] does not look at its children. *)
Definition settled (targetDepth : Z) (x : QModelIndex) : Prop :=
  ∃ d, indexDepth x = Ok d ∧ targetDepth ≤ d.

(** An index above the target depth whose children are all settled. *)
Definition lastStep (targetDepth : Z) (x : QModelIndex) : Prop :=
  (∃ d, indexDepth x = Ok d ∧ d < targetDepth)
  ∧ ∃ cs, childIndexes x = Ok cs ∧ Forall (settled targetDepth) cs.

End Coerce.

(** ** The fragment of Python's [re] and [str] the name filter uses

    Patterns are read the way [sre_parse] reads them.  The fragment covers
    literal characters, [.] and the repeats [*], [+] and [?], each with its
    lazy form; a pattern that uses any other special character is outside
    it and [compile] answers [None]. *)

Module re.

Inductive Atom := ALit (c : ascii) | AAny.
Inductive Quant := QOne | QStar | QPlus | QOpt.

Record Item := mkItem {
  atom : Atom;
  quant : Quant;
  lazy : bool }.

Record Regex := mkRegex {
  items : list Item;
  ignorecase : bool }.

Definition repeat_of (c : ascii) : option Quant :=
  if decide (c = "*"%char) then Some QStar
  else if decide (c = "+"%char) then Some QPlus
  else if decide (c = "?"%char) then Some QOpt
  else None.

Definition is_repeat (it : Item) : bool :=
  match quant it with
  | QOne => false
  | _ => true
  end.

(** The special characters left out of the fragment. *)
Definition unsupported (c : ascii) : bool :=
  bool_decide (c ∈ ["\"; "["; "{"; "("; ")"; "^"; "$"; "|"]%char).

(** [acc] holds the items read so far, last one first. *)
Fixpoint parse (src : list ascii) (acc : list Item) : option (Res (list Item)) :=
  match src with
  | [] => Some (Ok (reverse acc))
  | this :: rest =>
      match repeat_of this with
      | Some q =>
          match acc with
          | [] => Some (Raise (ReError "nothing to repeat"))
          | it :: acc' =>
              if is_repeat it then Some (Raise (ReError "multiple repeat"))
              else
                match rest with
                | c :: rest' =>
                    if decide (c = "?"%char)
                    then parse rest' (mkItem (atom it) q true :: acc')
                    else parse rest (mkItem (atom it) q false :: acc')
                | [] => parse rest (mkItem (atom it) q false :: acc')
                end
          end
      | None =>
          if decide (this = "."%char) then parse rest (mkItem AAny QOne false :: acc)
          else if unsupported this then None
          else parse rest (mkItem (ALit this) QOne false :: acc)
      end
  end.

(** [re.compile(pattern, flags=re.I)] *)
Definition compile (pattern : string) (ignorecase : bool) : option (Res Regex) :=
  match parse (list_ascii_of_string pattern) [] with
  | None => None
  | Some (Raise e) => Some (Raise e)
  | Some (Ok its) => Some (Ok (mkRegex its ignorecase))
  end.

Definition lower (c : ascii) : ascii :=
  let n := N_of_ascii c in
  if ((65 <=? n) && (n <=? 90))%N then ascii_of_N (n + 32) else c.

Definition atom_matches (ic : bool) (a : Atom) (c : ascii) : bool :=
  match a with
  | ALit x =>
      if ic then bool_decide (lower x = lower c) else bool_decide (x = c)
  | AAny => negb (bool_decide (c = "010"%char))
  end.

(** Does the pattern match a prefix of the text?  Greedy and lazy repeats
    accept the same texts, they differ in the span a match reports. *)
Fixpoint match_here (ic : bool) (p : list Item) : list ascii → bool :=
  match p with
  | [] => λ _, true
  | it :: p' =>
      let rest := match_here ic p' in
      let one (k : list ascii → bool) (s : list ascii) :=
        match s with
        | c :: s' => atom_matches ic (atom it) c && k s'
        | [] => false
        end in
      let star :=
        fix star (s : list ascii) : bool :=
          rest s ||
          match s with
          | c :: s' => atom_matches ic (atom it) c && star s'
          | [] => false
          end in
      match quant it with
      | QOne => one rest
      | QOpt => λ s, rest s || one rest s
      | QStar => star
      | QPlus => one star
      end
  end.

Fixpoint search_from (ic : bool) (p : list Item) (s : list ascii) : bool :=
  match_here ic p s ||
  match s with
  | _ :: s' => search_from ic p s'
  | [] => false
  end.

(** The truth value of [reg.search(text)]: is there a match anywhere? *)
Definition search (reg : Regex) (text : string) : bool :=
  search_from (ignorecase reg) (items reg) (list_ascii_of_string text).

End re.

(** [c.isspace()] *)
Definition isspace (c : ascii) : bool :=
  bool_decide (c ∈ [" "; "009"; "010"; "011"; "012"; "013"]%char).

(** [val.split()]: the maximal runs of characters that are not white space.
    [cur] holds the run being read, last character first. *)
Fixpoint split_go (s : list ascii) (cur : list ascii) : list string :=
  let flush (k : list string) :=
    match cur with
    | [] => k
    | _ => string_of_list_ascii (reverse cur) :: k
    end in
  match s with
  | [] => flush []
  | c :: s' =>
      if isspace c then flush (split_go s' [])
      else split_go s' (c :: cur)
  end.

Definition py_split (val : string) : list string :=
  split_go (list_ascii_of_string val) [].

(** [sep.join(parts)] *)
Fixpoint py_join (sep : string) (parts : list string) : string :=
  match parts with
  | [] => ""
  | [p] => p
  | p :: ps => p +:+ sep +:+ py_join sep ps
  end.

(** The characters of a string, each as a string of its own. *)
Definition chars (s : string) : list string :=
  (λ c, String c EmptyString) <$> list_ascii_of_string s.

(** ** The filter proxies *)

(** What a proxy asks of [self.sourceModel()]. *)
Record SourceModel := mkSource {
  source_index : Heap → Z → Z → QModelIndex → Res QModelIndex;
  source_itemFromIndex : QModelIndex → option Ref }.

(** A [SimplexModel] as the source of a proxy. *)
Definition simplexSource `{InterfaceItems} (m : SimplexModel.t) : SourceModel :=
  mkSource (SimplexModel.index m) ContextModel.itemFromIndex.

Module SimplexFilterModel.

Record t := mk {
  _filterString : list string;
  _filterReg : list re.Regex;
  isolateList : list Variant }.

(** [__init__] *)
Definition init : t := mk [] [] [].

(** The [filterString] property *)
Definition filterString (self : t) : string := py_join " " (_filterString self).

(** The pattern a token is compiled from. *)
Definition tokenPattern (sp : string) : Res string :=
  match sp with
  | EmptyString => Raise IndexError
  | String c _ =>
      if decide (c = "*"%char) then Ok sp else Ok (py_join ".*?" (chars sp))
  end.

(** The loop of the [filterString] setter; an exception leaves the
    expressions compiled so far. *)
Fixpoint compileTokens (tokens : list string) (regs : list re.Regex)
  : option (Res () * list re.Regex) :=
  match tokens with
  | [] => Some (Ok (), regs)
  | sp :: tokens =>
      match tokenPattern sp with
      | Raise e => Some (Raise e, regs)
      | Ok pattern =>
          match re.compile pattern true with
          | None => None
          | Some (Raise e) => Some (Raise e, regs)
          | Some (Ok reg) => compileTokens tokens (regs ++ [reg])
          end
      end
  end.

(** The [filterString] setter: the outcome and the proxy it leaves. *)
Definition set_filterString (self : t) (val : string) : option (Res () * t) :=
  let tokens := py_split val in
  match compileTokens tokens [] with
  | None => None
  | Some (r, regs) => Some (r, mk tokens regs (isolateList self))
  end.

Fixpoint searchAny (regs : list re.Regex) (itemString : Variant) : Res bool :=
  match regs with
  | [] => Ok false
  | reg :: regs =>
      match itemString with
      | VStr s => if re.search reg s then Ok true else searchAny regs itemString
      | VNum _ => Raise TypeError
      end
  end.

Definition matchFilterString (self : t) (itemString : Variant) : Res bool :=
  match _filterString self with
  | [] => Ok true
  | _ => searchAny (_filterReg self) itemString
  end.

Definition matchIsolation (self : t) (itemString : Variant) : bool :=
  match isolateList self with
  | [] => true
  | l => bool_decide (itemString ∈ l)
  end.

Section Rows.
Context `{InterfaceItems}.
Variable source : SourceModel.
Variable base : SimplexModel.t.
Variable qt_filterAcceptsRow : Z → QModelIndex → bool.
Variable h : Heap.
Variable self : t.

(** The first child of [sourceItem] that is not [None], over
    [xrange(getItemRowCount(sourceItem))]. *)
Fixpoint firstChild (sourceItem : option Ref) (rows : list Z) : Res (option Ref) :=
  match rows with
  | [] => Ok None
  | row :: rows =>
      childItem ← SimplexModel.getChildItem base h sourceItem row;
      match childItem with
      | Some _ => Ok childItem
      | None => firstChild sourceItem rows
      end
  end.

Fixpoint checkChildren (fuel : nat) (sourceItem : option Ref)
  : option (Res bool) :=
  match fuel with
  | O => None
  | S fuel =>
      match
        (itemString ← attr_name h sourceItem;
         m ← matchFilterString self itemString;
         Ok (m && matchIsolation self itemString))
      with
      | Raise e => Some (Raise e)
      | Ok true => Some (Ok true)
      | Ok false =>
          match
            (n ← SimplexModel.getItemRowCount h sourceItem;
             firstChild sourceItem (range n))
          with
          | Raise e => Some (Raise e)
          | Ok (Some childItem) => checkChildren fuel (Some childItem)
          | Ok None => Some (Ok false)
          end
      end
  end.

Definition filterAcceptsRow (fuel : nat) (sourceRow : Z)
  (sourceParent : QModelIndex) : option (Res bool) :=
  let column := 0 in
  match source_index source h sourceRow column sourceParent with
  | Raise e => Some (Raise e)
  | Ok sourceIndex =>
      let super := Some (Ok (qt_filterAcceptsRow sourceRow sourceParent)) in
      if isValid sourceIndex then
        if bool_decide (filterString self ≠ "") || bool_decide (isolateList self ≠ [])
        then
          let sourceItem := source_itemFromIndex source sourceIndex in
          if isinstance h sourceItem
               [KProgPair; KSlider; KCombo; KComboPair; KProgression]
          then
            match checkChildren fuel sourceItem with
            | None => None
            | Some (Raise e) => Some (Raise e)
            | Some (Ok false) => Some (Ok false)
            | Some (Ok true) => super
            end
          else super
        else super
      else super
  end.

End Rows.

End SimplexFilterModel.

Module ComboFilterModel.

Record t := mk {
  filter : SimplexFilterModel.t;
  requires : list Ref;
  filterRequiresAll : bool;
  filterRequiresAny : bool;
  filterRequiresOnly : bool;
  filterShapes : bool }.

(** [__init__] *)
Definition init : t := mk SimplexFilterModel.init [] false false false true.

Section Rows.
Context `{InterfaceItems}.
Variable source : SourceModel.
Variable base : SimplexModel.t.
Variable qt_filterAcceptsRow : Z → QModelIndex → bool.
Variable h : Heap.
Variable self : t.

(** The [filterShapes] block: does it hide the row? *)
Definition hidesShape (data : option Ref) : Res bool :=
  match deref h data with
  | Some (OProgression p) => Ok (bool_decide (len (Progression.pairs p) ≤ 2))
  | Some (OProgPair p) =>
      ps ← attr_pairs h (ProgPair.prog p);
      if decide (len ps ≤ 2) then Ok true
      else attr_isRest h (ProgPair.shape p)
  | _ => Ok false
  end.

(** [all(r in sliders for r in self.requires)] *)
Definition requiresAll (sliders : list (option Ref)) : bool :=
  forallb (λ r, bool_decide (Some r ∈ sliders)) (requires self).

(** [any(r in sliders for r in self.requires)] *)
Definition requiresAny (sliders : list (option Ref)) : bool :=
  existsb (λ r, bool_decide (Some r ∈ sliders)) (requires self).

(** [all(r in self.requires for r in sliders)] *)
Definition requiresOnly (sliders : list (option Ref)) : bool :=
  forallb (λ r, bool_decide (r ∈ (Some <$> requires self))) sliders.

(** The dependency block: does it hide the row? *)
Definition hidesCombo (data : option Ref) : Res bool :=
  if (filterRequiresAny self || filterRequiresAll self || filterRequiresOnly self)
     && bool_decide (requires self ≠ [])
  then
    match deref h data with
    | Some (OCombo c) =>
        sliders ← mapM (λ i, attr_slider h (Some i)) (Combo.pairs c);
        if filterRequiresAll self then Ok (negb (requiresAll sliders))
        else if filterRequiresAny self then Ok (negb (requiresAny sliders))
        else if filterRequiresOnly self then Ok (negb (requiresOnly sliders))
        else Ok false
    | _ => Ok false
    end
  else Ok false.

Definition filterAcceptsRow (fuel : nat) (sourceRow : Z)
  (sourceParent : QModelIndex) : option (Res bool) :=
  let column := 0 in
  match source_index source h sourceRow column sourceParent with
  | Raise e => Some (Raise e)
  | Ok sourceIndex =>
      let super :=
        SimplexFilterModel.filterAcceptsRow source base qt_filterAcceptsRow h
          (filter self) fuel sourceRow sourceParent in
      if isValid sourceIndex then
        let data := source_itemFromIndex source sourceIndex in
        match (if filterShapes self then hidesShape data else Ok false) with
        | Raise e => Some (Raise e)
        | Ok true => Some (Ok false)
        | Ok false =>
            match hidesCombo data with
            | Raise e => Some (Raise e)
            | Ok true => Some (Ok false)
            | Ok false => super
            end
        end
      else super
  end.

End Rows.

End ComboFilterModel.

(** ** [FalloffModel]: the falloffs of the selected sliders *)

(** [for x in l: f(x)] *)
Fixpoint forEach {S A} (l : list A) (f : A → StateExn S ()) : StateExn S () :=
  match l with
  | [] => mret ()
  | x :: l => f x;; forEach l f
  end.

(** [l.remove(x)]: drop the first occurrence. *)
Fixpoint py_remove `{EqDecision A} (x : A) (l : list A) : Res (list A) :=
  match l with
  | [] => Raise ValueError
  | y :: l' => if decide (y = x) then Ok l' else (y ::.) <$> py_remove x l'
  end.

(** [sep.join(names)] on attribute values: only text can be joined. *)
Fixpoint strings_of (names : list Variant) : Res (list string) :=
  match names with
  | [] => Ok []
  | VStr s :: names => (s ::.) <$> strings_of names
  | VNum _ :: _ => Raise TypeError
  end.

Definition join_names (sep : string) (names : list Variant) : Res string :=
  py_join sep <$> strings_of names.

Module Progression_methods.

(** Modelled from the spec: [Progression.addFalloff] of [interfaceItems],
    which is not part of this module.  Adding a falloff to a progression
    makes it the last of the progression's falloffs. *)
Definition withFalloff (p : Progression.t) (fo : Ref) : Progression.t :=
  Progression.mk (Progression.name p) (Progression.controller p)
    (Progression.pairs p) (Progression.falloffs p ++ [fo]).

Definition addFalloff (prog : option Ref) (fo : Ref) : M () :=
  λ w,
    match prog, deref (heap w) prog with
    | Some r, Some (OProgression p) =>
        (Ok (), mkWorld (<[r := OProgression (withFalloff p fo)]> (heap w))
                  (signals w))
    | _, _ => (Raise AttributeError, w)
    end.

(** Modelled from the spec: [Progression.removeFalloff] of [interfaceItems],
    which is not part of this module.  Removing a falloff takes it out of
    the progression's falloffs. *)
Definition removeFalloff (prog : option Ref) (fo : Ref) : M () :=
  λ w,
    match prog, deref (heap w) prog with
    | Some r, Some (OProgression p) =>
        match py_remove fo (Progression.falloffs p) with
        | Ok fos =>
            let p' := Progression.mk (Progression.name p)
                        (Progression.controller p) (Progression.pairs p) fos in
            (Ok (), mkWorld (<[r := OProgression p']> (heap w)) (signals w))
        | Raise e => (Raise e, w)
        end
    | _, _ => (Raise AttributeError, w)
    end.

End Progression_methods.

Module FalloffModel.

Record t := mk {
  simplex : option Ref;
  sliders : list Ref;
  _checks : gmap positive (list Ref);
  line : string }.

(** [__init__] *)
Definition init (simplex : option Ref) : t := mk simplex [] ∅ "".

(** The model together with the world it acts on. *)
Record State := mkState {
  self : t;
  world : World }.

Abbreviation F := (StateExn State).

Definition liftW {A} (m : M A) : F A :=
  λ s, let '(r, w) := m (world s) in (r, mkState (self s) w).

Definition getSelf : F t := λ s, (Ok (self s), s).

Definition modify (f : t → t) : F () :=
  λ s, (Ok (), mkState (f (self s)) (world s)).

Definition raise {A} (r : Res A) : F A := λ s, (r, s).

(** [self._checks.setdefault(fo, []).append(slider)] *)
Definition checks_append (fo slider : Ref) (m : t) : t :=
  mk (simplex m) (sliders m)
     (<[fo := default [] (_checks m !! fo) ++ [slider]]> (_checks m)) (line m).

(** [slider.prog] and [slider.prog.falloffs] *)
Definition sliderFalloffs (h : Heap) (slider : Ref)
  : Res (option Ref * list Ref) :=
  prog ← attr_prog h (Some slider);
  fos ← attr_falloffs h prog;
  Ok (prog, fos).

Definition slider_falloffs (slider : Ref) : F (option Ref * list Ref) :=
  liftW (liftRes (λ h, sliderFalloffs h slider)).

(** The progression stored at a reference, if there is one. *)
Definition progressionAt (h : Heap) (r : Ref) : option Progression.t :=
  match h !! r with
  | Some (OProgression p) => Some p
  | _ => None
  end.

(** [slider.prog], when it is an object *)
Definition progOf (h : Heap) (slider : Ref) : option Ref :=
  match attr_prog h (Some slider) with
  | Ok prog => prog
  | Raise _ => None
  end.

(** [fo in slider.prog.falloffs], for a slider that has a progression *)
Definition references (h : Heap) (fo slider : Ref) : bool :=
  match sliderFalloffs h slider with
  | Ok (_, fos) => bool_decide (fo ∈ fos)
  | Raise _ => false
  end.

Definition _getCheckState (m : t) (fo : Ref) : Z :=
  let sli := default [] (_checks m !! fo) in
  if decide (len sli = len (sliders m)) then Checked
  else if decide (len sli = 0) then Unchecked
  else PartiallyChecked.

(** The loop of [buildLine]: the names of the fully and of the partially
    checked falloffs. *)
Fixpoint buildLine_loop (h : Heap) (m : t) (fos : list Ref)
  (fulls partials : list Variant) : Res (list Variant * list Variant) :=
  match fos with
  | [] => Ok (fulls, partials)
  | fo :: fos =>
      let cs := _getCheckState m fo in
      if decide (cs = Checked) then
        n ← attr_name h (Some fo);
        buildLine_loop h m fos (fulls ++ [n]) partials
      else if decide (cs = PartiallyChecked) then
        n ← attr_name h (Some fo);
        buildLine_loop h m fos fulls (partials ++ [n])
      else buildLine_loop h m fos fulls partials
  end.

Definition set_line (title : string) (m : t) : t :=
  mk (simplex m) (sliders m) (_checks m) title.

Definition buildLine : F () :=
  m ← getSelf;
  match sliders m with
  | [] => modify (set_line "")
  | _ =>
      title ← liftW (liftRes (λ h,
        fos ← attr_falloffs h (simplex m);
        '(fulls, partials) ← buildLine_loop h m fos [] [];
        match partials with
        | [] => join_names "," fulls
        | _ =>
            f ← join_names "," fulls;
            p ← join_names "," partials;
            Ok (f +:+ " <<" +:+ p +:+ ">>")
        end));
      modify (set_line title)
  end.

(** The body of [for slider in self.sliders:] in [setSliders] *)
Definition setSliders_body (slider : Ref) : F () :=
  '(_, fos) ← slider_falloffs slider;
  forEach fos (λ fo, modify (checks_append fo slider)).

Definition setSliders (sliders : list Ref) : F () :=
  liftW (emit beginResetModel);;
  modify (λ m, mk (simplex m) sliders ∅ (line m));;
  forEach sliders setSliders_body;;
  liftW (emit endResetModel);;
  buildLine.

(** [self._checks[fo].remove(s)] when [s in self._checks[fo]] *)
Definition checks_remove (fo s : Ref) : F () :=
  m ← getSelf;
  match _checks m !! fo with
  | None => raise (Raise KeyError)
  | Some l =>
      if bool_decide (s ∈ l) then
        l' ← raise (py_remove s l);
        modify (λ m, mk (simplex m) (sliders m) (<[fo := l']> (_checks m)) (line m))
      else mret ()
  end.

(** The body of [for s in self.sliders:] under [value == Qt.Checked] *)
Definition check_body (fo s : Ref) : F () :=
  '(prog, fos) ← slider_falloffs s;
  if bool_decide (fo ∉ fos) then
    liftW (Progression_methods.addFalloff prog fo);;
    modify (checks_append fo s)
  else mret ().

(** The body of [for s in self.sliders:] under [value == Qt.Unchecked] *)
Definition uncheck_body (fo s : Ref) : F () :=
  '(prog, fos) ← slider_falloffs s;
  if bool_decide (fo ∈ fos) then
    liftW (Progression_methods.removeFalloff prog fo);;
    checks_remove fo s
  else mret ().

Definition setData (index : QModelIndex) (value : Variant) (role : Role)
  : F (option bool) :=
  match role with
  | CheckStateRole =>
      match internalPointer index with
      | None => mret None
      | Some fo =>
          m ← getSelf;
          (if decide (value = VNum Checked) then
             forEach (sliders m) (check_body fo)
           else if decide (value = VNum Unchecked) then
             forEach (sliders m) (uncheck_body fo)
           else mret ());;
          buildLine;;
          liftW (emit (dataChanged index index));;
          mret (Some true)
      end
  | _ => mret (Some false)
  end.

End FalloffModel.

(** ** The brackets as one family

    The four managers, addressed by the edit they surround. *)

Inductive Bracket :=
| Insert (parent : option Ref) (row : Z)
| Remove (item : option Ref)
| Move (item destPar : option Ref) (destRow : Z)
| Reset.

Section Brackets.
Context `{ContextModel.Ops Self}.
Variable self : Self.

Definition runBracket {A} (b : Bracket) (body : M A) : M A :=
  match b with
  | Insert parent row => ContextModel.insertItemManager self parent row body
  | Remove item => ContextModel.removeItemManager self item body
  | Move item destPar destRow =>
      ContextModel.moveItemManager self item destPar destRow body
  | Reset => ContextModel.resetModelManager body
  end.

(** The part of a manager that runs before the body. *)
Definition enterBracket (b : Bracket) : M () :=
  match b with
  | Insert parent row => ContextModel.insertItemManager_enter self parent row;; mret ()
  | Remove item => ContextModel.removeItemManager_enter self item;; mret ()
  | Move item destPar destRow =>
      ContextModel.moveItemManager_enter self item destPar destRow;; mret ()
  | Reset => ContextModel.resetModelManager_enter
  end.

(** An insert whose parent has no valid index, or a move one of whose two
    ends has none. *)
Definition unresolved (b : Bracket) (h : Heap) : Prop :=
  match b with
  | Insert parent _ =>
      ∃ parIdx, ContextModel.indexFromItem self h parent 0 = Ok parIdx
                ∧ isValid parIdx = false
  | Move item destPar _ =>
      ∃ itemIdx destParIdx,
        ContextModel.indexFromItem self h item 0 = Ok itemIdx
        ∧ ContextModel.indexFromItem self h destPar 0 = Ok destParIdx
        ∧ (isValid itemIdx = false ∨ isValid destParIdx = false)
  | _ => False
  end.

End Brackets.

Definition isBegin (b : Bracket) (s : Signal) : Prop :=
  match b, s with
  | Insert _ _, beginInsertRows _ _ _ => True
  | Remove _, beginRemoveRows _ _ _ => True
  | Move _ _ _, beginMoveRows _ _ _ _ _ => True
  | Reset, beginResetModel => True
  | _, _ => False
  end.

Definition endSignal (b : Bracket) : Signal :=
  match b with
  | Insert _ _ => endInsertRows
  | Remove _ => endRemoveRows
  | Move _ _ _ => endMoveRows
  | Reset => endResetModel
  end.

(** The numeric attribute of an item that has one. *)
Definition value_of (o : Obj) : option Variant :=
  match o with
  | OSlider s => Some (Slider.value s)
  | OComboPair p => Some (ComboPair.value p)
  | OTravPair p => Some (TravPair.value p)
  | OProgPair p => Some (ProgPair.value p)
  | _ => None
  end.

(** ** A small rig for worked examples *)

Module Rig.

(** Sample values for the parts of [interfaceItems] the models call. *)
Local Instance items : InterfaceItems := {|
  classDepth k :=
    match k with
    | KSimplex => 0 | KGroup => 1 | KCombo => 2 | KTraversal => 3
    | KSlider => 4 | KComboPair => 5 | KTravPair => 6
    | KProgression => 7 | KProgPair => 8 | KFalloff => 9 | KShape => 10
    end;
  usageIndex p :=
    if decide (TravPair.usage p = "progress") then 0 else 1 |}.

Definition n (s : string) : Variant := VStr s.

(** A slider group [2] with the sliders [3] (three shape targets) and [4]
    (two), a second one with the slider [14], one combo group with the combo [21] over three sliders whose
    progression [25] has two shape targets, a detached group [40], and the
    falloffs [12] and [13]. *)
Definition heap : Heap :=
  list_to_map [
    (1%positive, OSimplex (Simplex.mk (n "Face") [2%positive; 30%positive] [20%positive] [] [12%positive; 13%positive]));
    (2%positive, OGroup (Group.mk (n "Sliders") KSlider (Some 1%positive) [3%positive; 4%positive]));
    (3%positive, OSlider (Slider.mk (n "slider") (Some 2%positive) (Some 5%positive) (VNum 0) true));
    (4%positive, OSlider (Slider.mk (n "jaw") (Some 2%positive) (Some 9%positive) (VNum 0) true));
    (5%positive, OProgression (Progression.mk (n "slider") (Some 3%positive) [6%positive; 7%positive; 8%positive] [12%positive]));
    (6%positive, OProgPair (ProgPair.mk (n "Rest") None (Some 5%positive) (VNum 0)));
    (7%positive, OProgPair (ProgPair.mk (n "half") None (Some 5%positive) (VNum 1)));
    (8%positive, OProgPair (ProgPair.mk (n "full") None (Some 5%positive) (VNum 2)));
    (9%positive, OProgression (Progression.mk (n "jaw") (Some 4%positive) [10%positive; 11%positive] []));
    (10%positive, OProgPair (ProgPair.mk (n "Rest") None (Some 9%positive) (VNum 0)));
    (11%positive, OProgPair (ProgPair.mk (n "open") None (Some 9%positive) (VNum 1)));
    (12%positive, OFalloff (Falloff.mk "left"));
    (13%positive, OFalloff (Falloff.mk "right"));
    (14%positive, OSlider (Slider.mk (n "brow") (Some 30%positive) (Some 15%positive) (VNum 0) true));
    (15%positive, OProgression (Progression.mk (n "brow") (Some 14%positive) [] [12%positive]));
    (20%positive, OGroup (Group.mk (n "Combos") KCombo (Some 1%positive) [21%positive]));
    (21%positive, OCombo (Combo.mk (n "smile") (Some 20%positive) [22%positive; 23%positive; 24%positive] (Some 25%positive) true));
    (22%positive, OComboPair (ComboPair.mk (n "slider") (Some 3%positive) (Some 21%positive) (VNum 1)));
    (23%positive, OComboPair (ComboPair.mk (n "jaw") (Some 4%positive) (Some 21%positive) (VNum 1)));
    (24%positive, OComboPair (ComboPair.mk (n "brow") (Some 14%positive) (Some 21%positive) (VNum 1)));
    (25%positive, OProgression (Progression.mk (n "smile") (Some 21%positive) [26%positive; 27%positive] []));
    (26%positive, OProgPair (ProgPair.mk (n "Rest") None (Some 25%positive) (VNum 0)));
    (27%positive, OProgPair (ProgPair.mk (n "smile") None (Some 25%positive) (VNum 1)));
    (30%positive, OGroup (Group.mk (n "Brows") KSlider (Some 1%positive) [14%positive]));
    (40%positive, OGroup (Group.mk (n "Loose") KSlider None []))
  ].

Definition model : SimplexModel.t := SimplexModel.mk (Some 1%positive).

Definition world : World := mkWorld heap [].

(** A body that changes nothing and fails. *)
Definition failing : M () := λ w, (Raise ValueError, w).

(** Qt's own row filter with no pattern set: every row passes. *)
Definition qt_accepts (sourceRow : Z) (sourceParent : QModelIndex) : bool := true.

(** The index of the slider [3], parent of its shape targets. *)
Definition sliderIndex : QModelIndex := createIndex 0 0 (Some 3%positive).

(** The index of the combo group [20], parent of the combo [21]. *)
Definition comboGroupIndex : QModelIndex := createIndex 2 0 (Some 20%positive).

(** A name filter with the filter string "full" and the isolate list
    ["half"]. *)
Definition nameFilter : SimplexFilterModel.t :=
  SimplexFilterModel.mk ["full"]
    [re.mkRegex
       [re.mkItem (re.ALit "f") re.QOne false; re.mkItem re.AAny re.QStar true;
        re.mkItem (re.ALit "u") re.QOne false; re.mkItem re.AAny re.QStar true;
        re.mkItem (re.ALit "l") re.QOne false; re.mkItem re.AAny re.QStar true;
        re.mkItem (re.ALit "l") re.QOne false] true]
    [VStr "half"].

(** A dependency filter that requires the sliders [3] and [4] and a slider
    [60] the combo [21] does not use, with the ANY and the ALL flag both
    set. *)
Definition comboFilter : ComboFilterModel.t :=
  ComboFilterModel.mk SimplexFilterModel.init
    [3%positive; 60%positive] true true false true.

End Rig.

(** ** The wording of the specification, for comparison with the code *)

Module Spec.

(** "A row is accepted if the item's name matches any compiled token, or if
    the item's name is present in the isolate list." *)
Definition nameAccepted (self : SimplexFilterModel.t) (name : string) : bool :=
  existsb (λ reg, re.search reg name) (SimplexFilterModel._filterReg self)
  || bool_decide (VStr name ∈ SimplexFilterModel.isolateList self).

(** "ANY overrides ALL overrides ONLY": the test that decides about a combo
    when several mode flags are set. *)
Definition dependencyTest (self : ComboFilterModel.t)
  (sliders : list (option Ref)) : bool :=
  if ComboFilterModel.filterRequiresAny self
  then ComboFilterModel.requiresAny self sliders
  else if ComboFilterModel.filterRequiresAll self
  then ComboFilterModel.requiresAll self sliders
  else ComboFilterModel.requiresOnly self sliders.

End Spec.

(** ** [SimplexModel]: cells, flags and headers *)

(** [Qt.ItemFlag] *)
Definition ItemIsSelectable : Z := 1.
Definition ItemIsEditable : Z := 2.
Definition ItemIsUserCheckable : Z := 16.
Definition ItemIsEnabled : Z := 32.

Inductive Orientation := Horizontal | Vertical.

(** [s.upper()] *)
Definition upper_char (c : ascii) : ascii :=
  let n := N_of_ascii c in
  if ((97 <=? n) && (n <=? 122))%N then ascii_of_N (n - 32) else c.

Fixpoint upper (s : string) : string :=
  match s with
  | EmptyString => EmptyString
  | String c s => String (upper_char c) (upper s)
  end.

(** The calls [updateTickValues] makes on the simplex object. *)
Inductive SimplexCall :=
| setShapesValues (progPairs : list (option Ref)) (values : list Variant)
| setSlidersWeights (sliders : list (option Ref)) (values : list Variant)
| setCombosValues (comboPairs : list (option Ref)) (values : list Variant).

Module SimplexModelCells.

Definition columnCount (parIndex : QModelIndex) : Z := 3.

(** The attribute [usage] of a traversal pair. *)
Definition usage_of (o : Obj) : option string :=
  match o with
  | OTravPair p => Some (TravPair.usage p)
  | _ => None
  end.

Definition enabled_of (o : Obj) : option bool :=
  match o with
  | OSlider s => Some (Slider.enabled s)
  | OCombo c => Some (Combo.enabled c)
  | OTraversal t => Some (Traversal.enabled t)
  | _ => None
  end.

Definition getItemData (h : Heap) (item : option Ref) (column : Z) (role : Role)
  : option Variant :=
  match role with
  | DisplayRole | EditRole =>
      if decide (column = 0) then
        if isinstance h item [KSimplex; KGroup; KSlider; KProgPair; KCombo;
                              KTraversal; KComboPair; KProgPair; KTravPair]
        then match attr_name h item with Ok n => Some n | Raise _ => None end
        else if isinstance h item [KProgression] then Some (VStr "SHAPES")
        else if isinstance h item [KTravPair]
        then VStr ∘ upper <$> (deref h item ≫= usage_of)
        else None
      else if decide (column = 1) then
        if isinstance h item [KSlider; KComboPair; KTravPair]
        then deref h item ≫= value_of
        else None
      else if decide (column = 2) then
        if isinstance h item [KProgPair] then deref h item ≫= value_of
        else if isinstance h item [KTravPair]
        then VStr <$> (deref h item ≫= usage_of)
        else None
      else None
  | CheckStateRole =>
      if decide (column = 0) then
        if isinstance h item [KSlider; KCombo; KTraversal] then
          (λ e : bool, VNum (if e then Checked else Unchecked))
            <$> (deref h item ≫= enabled_of)
        else None
      else None
  | _ => None
  end.

Definition data (h : Heap) (index : QModelIndex) (role : Role) : option Variant :=
  if negb (isValid index) then None
  else getItemData h (internalPointer index) (column index) role.

Definition flags (h : Heap) (index : QModelIndex) : Z :=
  if negb (isValid index) then ItemIsEnabled
  else if bool_decide (column index = 0)
          && isinstance h (internalPointer index) [KSlider; KCombo; KTraversal]
  then Z.lor (Z.lor (Z.lor ItemIsEnabled ItemIsSelectable) ItemIsEditable)
         ItemIsUserCheckable
  else Z.lor (Z.lor ItemIsEnabled ItemIsSelectable) ItemIsEditable.

Definition headerData (section : Z) (orientation : Orientation) (role : Role)
  : Res (option string) :=
  match orientation, role with
  | Horizontal, DisplayRole =>
      Some <$> py_getitem ["Items"; "Slide"; "Value"] section
  | _, _ => Ok None
  end.

(** The first loop of [updateTickValues]: the pairs sorted by the class of
    their item. *)
Fixpoint sortPairs (h : Heap) (updatePairs : list (option Ref * Variant))
  (sliderList progs comboList : list (option Ref * Variant))
  : list (option Ref * Variant) * list (option Ref * Variant)
    * list (option Ref * Variant) :=
  match updatePairs with
  | [] => (sliderList, progs, comboList)
  | i :: updatePairs =>
      if isinstance h i.1 [KSlider]
      then sortPairs h updatePairs (sliderList ++ [i]) progs comboList
      else if isinstance h i.1 [KProgPair]
      then sortPairs h updatePairs sliderList (progs ++ [i]) comboList
      else if isinstance h i.1 [KComboPair]
      then sortPairs h updatePairs sliderList progs (comboList ++ [i])
      else sortPairs h updatePairs sliderList progs comboList
  end.

(** [zip] over the unpacked pairs: the items and the values *)
Definition unzip (pairs : list (option Ref * Variant))
  : list (option Ref) * list Variant :=
  (fst <$> pairs, snd <$> pairs).

(** [updateTickValues], as the calls it makes on [self.simplex], in
    order. *)
Definition updateTickValues (h : Heap) (updatePairs : list (option Ref * Variant))
  : list SimplexCall :=
  let '(sliderList, progs, comboList) := sortPairs h updatePairs [] [] [] in
  (match progs with
   | [] => []
   | _ => [setShapesValues (unzip progs).1 (unzip progs).2]
   end)
  ++ (match sliderList with
      | [] => []
      | _ => [setSlidersWeights (unzip sliderList).1 (unzip sliderList).2]
      end)
  ++ (match comboList with
      | [] => []
      | _ => [setCombosValues (unzip comboList).1 (unzip comboList).2]
      end).

Definition itemDataChanged `{InterfaceItems} (self : SimplexModel.t)
  (item : option Ref) : M () :=
  idx ← liftRes (λ h, ContextModel.indexFromItem self h item 0);
  when (isValid idx) (emit (dataChanged idx idx)).

End SimplexModelCells.

(** ** The proxies that show one kind of group *)

Section KindProxy.
Variable source : SourceModel.
Variable qt_filterAcceptsRow : Z → QModelIndex → bool.
Variable h : Heap.

Definition groupType_of (o : Obj) : option Kind :=
  match o with
  | OGroup g => Some (Group.groupType g)
  | _ => None
  end.

(** The body the three proxies share, for the class [kind] of the proxy. *)
Definition kindProxy_filterAcceptsRow (kind : Kind) (sourceRow : Z)
  (sourceParent : QModelIndex) : Res bool :=
  sourceIndex ← source_index source h sourceRow 0 sourceParent;
  let super := Ok (qt_filterAcceptsRow sourceRow sourceParent) in
  if isValid sourceIndex then
    let item := source_itemFromIndex source sourceIndex in
    match deref h item ≫= groupType_of with
    | Some gt => if decide (gt ≠ kind) then Ok false else super
    | None => super
    end
  else super.

End KindProxy.

Module SliderModel.
Definition filterAcceptsRow := λ source qt h,
  kindProxy_filterAcceptsRow source qt h KSlider.
End SliderModel.

Module ComboModel.
Definition filterAcceptsRow := λ source qt h,
  kindProxy_filterAcceptsRow source qt h KCombo.
End ComboModel.

Module TraversalModel.
Definition filterAcceptsRow := λ source qt h,
  kindProxy_filterAcceptsRow source qt h KTraversal.
End TraversalModel.

(** ** [SliderFilterModel] and [TraversalFilterModel]: hide single shapes *)

Module SliderFilterModel.

Record t := mk {
  filter : SimplexFilterModel.t;
  doFilter : bool }.

Definition init : t := mk SimplexFilterModel.init true.

Section Rows.
Context `{InterfaceItems}.
Variable source : SourceModel.
Variable base : SimplexModel.t.
Variable qt_filterAcceptsRow : Z → QModelIndex → bool.
Variable h : Heap.
Variable self : t.

(** The [doFilter] block: does it hide the row? *)
Definition hidesShape (data : option Ref) : Res bool :=
  match deref h data with
  | Some (OProgPair p) =>
      ps ← attr_pairs h (ProgPair.prog p);
      if decide (len ps ≤ 2) then Ok true
      else attr_isRest h (ProgPair.shape p)
  | _ => Ok false
  end.

Definition filterAcceptsRow (fuel : nat) (sourceRow : Z)
  (sourceParent : QModelIndex) : option (Res bool) :=
  let column := 0 in
  match source_index source h sourceRow column sourceParent with
  | Raise e => Some (Raise e)
  | Ok sourceIndex =>
      let super :=
        SimplexFilterModel.filterAcceptsRow source base qt_filterAcceptsRow h
          (filter self) fuel sourceRow sourceParent in
      if isValid sourceIndex && doFilter self then
        match hidesShape (source_itemFromIndex source sourceIndex) with
        | Raise e => Some (Raise e)
        | Ok true => Some (Ok false)
        | Ok false => super
        end
      else super
  end.

End Rows.

End SliderFilterModel.

(** [TraversalFilterModel] repeats the code of [SliderFilterModel]. *)
Module TraversalFilterModel.
Definition t := SliderFilterModel.t.
Definition init : t := SliderFilterModel.init.
Definition filterAcceptsRow `{InterfaceItems} := SliderFilterModel.filterAcceptsRow.
End TraversalFilterModel.

(** ** The flat models: slider groups and falloffs *)

Definition attr_sliderGroups (h : Heap) (x : option Ref) : Res (list Ref) :=
  match deref h x with
  | Some (OSimplex s) => Ok (Simplex.sliderGroups s)
  | _ => Raise AttributeError
  end.

(** [except E: return fallback] around a computation *)
Definition except {A} (catches : Exn → bool) (fallback : A) (r : Res A) : Res A :=
  match r with
  | Raise e => if catches e then Ok fallback else Raise e
  | Ok a => Ok a
  end.

Definition isIndexError (e : Exn) : bool :=
  match e with IndexError => true | _ => false end.
Definition isValueError (e : Exn) : bool :=
  match e with ValueError => true | _ => false end.
Definition isAttributeError (e : Exn) : bool :=
  match e with AttributeError => true | _ => false end.

Module SliderGroupModel.

Record t := mk { simplex : option Ref }.

Definition getItemRow (self : t) (h : Heap) (item : option Ref)
  : Res (option Z) :=
  except isValueError None
    (groups ← attr_sliderGroups h (simplex self);
     match item with
     | Some i => idx ← py_index groups i; Ok (Some (idx + 1))
     | None => Raise ValueError
     end).

Definition getItemAppendRow (self : t) (h : Heap) (item : option Ref) : Res Z :=
  groups ← attr_sliderGroups h (simplex self); Ok (len groups + 1).

Definition index (self : t) (h : Heap) (row column : Z) (parIndex : QModelIndex)
  : Res QModelIndex :=
  if decide (row ≤ 0) then Ok (createIndex row column None)
  else
    except isIndexError invalidIndex
      (groups ← attr_sliderGroups h (simplex self);
       group ← py_getitem groups (row - 1);
       Ok (createIndex row column (Some group))).

Definition parent (self : t) (h : Heap) (index : QModelIndex) : Res QModelIndex :=
  Ok invalidIndex.

Definition rowCount (self : t) (h : Heap) (parent : QModelIndex) : Res Z :=
  groups ← attr_sliderGroups h (simplex self); Ok (len groups + 1).

Definition columnCount (parent : QModelIndex) : Z := 1.

Definition data (h : Heap) (index : QModelIndex) (role : Role)
  : Res (option Variant) :=
  if negb (isValid index) then Ok None
  else
    match internalPointer index, role with
    | Some group, (DisplayRole | EditRole) => Some <$> attr_name h (Some group)
    | _, _ => Ok None
    end.

Definition flags (index : QModelIndex) : Z := Z.lor ItemIsEnabled ItemIsSelectable.

Global Instance contextModel : ContextModel.Ops t := {|
  ContextModel.getItemRow := getItemRow;
  ContextModel.getItemAppendRow := getItemAppendRow;
  ContextModel.parent := parent |}.

End SliderGroupModel.

Module FalloffModelRows.

Definition getItemRow (self : FalloffModel.t) (h : Heap) (item : option Ref)
  : Res (option Z) :=
  except (λ e, isValueError e || isAttributeError e) None
    (fos ← attr_falloffs h (FalloffModel.simplex self);
     match item with
     | Some i => idx ← py_index fos i; Ok (Some (idx + 1))
     | None => Raise ValueError
     end).

Definition getItemAppendRow (self : FalloffModel.t) (h : Heap)
  (item : option Ref) : Res Z :=
  except isAttributeError 0 (len <$> attr_falloffs h (FalloffModel.simplex self)).

Definition index (self : FalloffModel.t) (h : Heap) (row column : Z)
  (parIndex : QModelIndex) : Res QModelIndex :=
  if decide (row ≤ 0) then Ok (createIndex row column None)
  else
    except (λ e, isIndexError e || isAttributeError e) invalidIndex
      (fos ← attr_falloffs h (FalloffModel.simplex self);
       falloff ← py_getitem fos (row - 1);
       Ok (createIndex row column (Some falloff))).

Definition parent (self : FalloffModel.t) (h : Heap) (index : QModelIndex)
  : Res QModelIndex :=
  Ok invalidIndex.

Definition rowCount (self : FalloffModel.t) (h : Heap) (parent : QModelIndex)
  : Res Z :=
  except isAttributeError 0
    ((λ fos, len fos + 1) <$> attr_falloffs h (FalloffModel.simplex self)).

Definition columnCount (parent : QModelIndex) : Z := 1.

Definition data (self : FalloffModel.t) (h : Heap) (index : QModelIndex)
  (role : Role) : Res (option Variant) :=
  if negb (isValid index) then Ok None
  else
    match internalPointer index with
    | None => Ok None
    | Some falloff =>
        match role with
        | DisplayRole | EditRole => Some <$> attr_name h (Some falloff)
        | CheckStateRole =>
            Ok (Some (VNum (FalloffModel._getCheckState self falloff)))
        | _ => Ok None
        end
    end.

Definition flags (index : QModelIndex) : Z :=
  Z.lor (Z.lor ItemIsEnabled ItemIsEditable) ItemIsUserCheckable.

Global Instance contextModel : ContextModel.Ops FalloffModel.t := {|
  ContextModel.getItemRow := getItemRow;
  ContextModel.getItemAppendRow := getItemAppendRow;
  ContextModel.parent := parent |}.

End FalloffModelRows.

Module FalloffDataModel.

Record t := mk { simplex : option Ref }.

Definition getItemRow (self : t) (h : Heap) (item : option Ref)
  : Res (option Z) :=
  except (λ e, isValueError e || isAttributeError e) None
    (fos ← attr_falloffs h (simplex self);
     match item with
     | Some i => Some <$> py_index fos i
     | None => Raise ValueError
     end).

Definition getItemAppendRow (self : t) (h : Heap) (item : option Ref) : Res Z :=
  except isAttributeError 0 (len <$> attr_falloffs h (simplex self)).

Definition index (self : t) (h : Heap) (row column : Z) (parIndex : QModelIndex)
  : Res QModelIndex :=
  if decide (row < 0) then Ok invalidIndex
  else
    except (λ e, isIndexError e || isAttributeError e) invalidIndex
      (fos ← attr_falloffs h (simplex self);
       falloff ← py_getitem fos row;
       Ok (createIndex row column (Some falloff))).

Definition parent (self : t) (h : Heap) (index : QModelIndex) : Res QModelIndex :=
  Ok invalidIndex.

Definition rowCount (self : t) (h : Heap) (parent : QModelIndex) : Res Z :=
  except isAttributeError 0 (len <$> attr_falloffs h (simplex self)).

Definition columnCount (parent : QModelIndex) : Z := 8.

Global Instance contextModel : ContextModel.Ops t := {|
  ContextModel.getItemRow := getItemRow;
  ContextModel.getItemAppendRow := getItemAppendRow;
  ContextModel.parent := parent |}.

End FalloffDataModel.

(** ** Hierarchy helpers: the topmost indexes of a selection *)

Section Roots.
Context `{InterfaceItems}.
Variable h : Heap.

(** [sorted(indexes, key=item, reverse=True)]: the order of the items is that
    of [interfaceItems]; here it is any rearrangement of the list. *)
Variable sorted : list QModelIndex → list QModelIndex.

(** The [while par.isValid():] loop of [coerceIndexToRoots]: is [par] or one
    of its ancestors in the selection? *)
Fixpoint ancestorSelected (fuel : nat) (indexes : list QModelIndex)
  (par : QModelIndex) : option (Res bool) :=
  if isValid par then
    if bool_decide (par ∈ indexes) then Some (Ok true)
    else
      match fuel with
      | O => None
      | S fuel =>
          match parentOf h par with
          | Raise e => Some (Raise e)
          | Ok par => ancestorSelected fuel indexes par
          end
      end
  else Some (Ok false).

Fixpoint roots_loop (fuel : nat) (indexes todo roots : list QModelIndex)
  : option (Res (list QModelIndex)) :=
  match todo with
  | [] => Some (Ok roots)
  | idx :: todo =>
      match parentOf h idx with
      | Raise e => Some (Raise e)
      | Ok par =>
          match ancestorSelected fuel indexes par with
          | None => None
          | Some (Raise e) => Some (Raise e)
          | Some (Ok true) => roots_loop fuel indexes todo roots
          | Some (Ok false) => roots_loop fuel indexes todo (roots ++ [idx])
          end
      end
  end.

Definition coerceIndexToRoots (fuel : nat) (indexes : list QModelIndex)
  : option (Res (list QModelIndex)) :=
  let indexes := filter (λ i, column i = 0) indexes in
  match mapM itemOf indexes with
  | Raise e => Some (Raise e)
  | Ok _ =>
      let indexes := sorted indexes in
      roots_loop fuel indexes indexes []
  end.

End Roots.

(** ** Notions used to state the properties of the tree model *)

(** The list an item keeps its children in, for the items whose children
    are the elements of one list. *)
Definition childList (h : Heap) (parent : Ref) : option (list Ref) :=
  match h !! parent with
  | Some (OSimplex s) => Some (allGroups s)
  | Some (OGroup g) => Some (Group.items g)
  | Some (OProgression p) => Some (Progression.pairs p)
  | _ => None
  end.

(** The element a Python subscript addresses, [None] out of range. *)
Definition subscript {A} (l : list A) (i : Z) : option A :=
  if decide (0 ≤ i < len l) then l !! Z.to_nat i
  else if decide (- len l ≤ i < 0) then l !! Z.to_nat (len l + i)
  else None.

(** The attribute [group] of a slider, combo or traversal. *)
Definition group_of (o : Obj) : option (option Ref) :=
  match o with
  | OSlider s => Some (Slider.group s)
  | OCombo c => Some (Combo.group c)
  | OTraversal t => Some (Traversal.group t)
  | _ => None
  end.

(** ** Notions used to state the properties of the name filter *)

(** A character without a special meaning in a regular expression. *)
Definition plain (c : ascii) : bool :=
  negb (bool_decide
          (c ∈ ["."; "\"; "["; "{"; "("; ")"; "*"; "+"; "?"; "^"; "$"; "|"]%char)).

(** The characters of ['.*?'.join(sp)], for the characters of [sp]. *)
Fixpoint joinedChars (cs : list ascii) : list ascii :=
  match cs with
  | [] => []
  | [c] => [c]
  | c :: cs => c :: "."%char :: "*"%char :: "?"%char :: joinedChars cs
  end.

(** The lazy span [.*?] *)
Definition lazySpan : re.Item := re.mkItem re.AAny re.QStar true.

(** The expression a token of plain characters is compiled to. *)
Fixpoint fuzzyItems (cs : list ascii) : list re.Item :=
  match cs with
  | [] => []
  | [c] => [re.mkItem (re.ALit c) re.QOne false]
  | c :: cs => re.mkItem (re.ALit c) re.QOne false :: lazySpan :: fuzzyItems cs
  end.

(** A text that starts with the characters [cs] in their order, upper or
    lower case, with anything but a line break between one and the next. *)
Fixpoint startsFuzzy (cs : list ascii) (s : list ascii) : Prop :=
  match cs with
  | [] => True
  | c :: cs' =>
      match cs' with
      | [] => ∃ x post, s = x :: post ∧ re.lower c = re.lower x
      | _ :: _ =>
          ∃ x gap rest,
            s = x :: gap ++ rest ∧ re.lower c = re.lower x
            ∧ Forall (λ y, y ≠ "010"%char) gap ∧ startsFuzzy cs' rest
      end
  end.

(** A text that holds the characters [cs] that way somewhere. *)
Definition holdsFuzzy (cs : list ascii) (s : list ascii) : Prop :=
  ∃ pre post, s = pre ++ post ∧ startsFuzzy cs post.

(** * Properties *)

(** ** Python lists *)

Lemma py_getitem_lookup {A} (l : list A) (i : nat) (x : A) :
  l !! i = Some x → py_getitem l (Z.of_nat i) = Ok x.
Proof.
  intros Hl. unfold py_getitem.
  pose proof (lookup_lt_Some _ _ _ Hl) as Hlt. cbv zeta.
  destruct (decide (Z.of_nat i < 0)) as [?|_]; [lia|].
  rewrite decide_True by lia.
  by rewrite Nat2Z.id, Hl.
Qed.

Lemma py_getitem_len {A} (l : list A) : py_getitem l (len l) = Raise IndexError.
Proof.
  unfold py_getitem, len. cbv zeta.
  destruct (decide (Z.of_nat (length l) < 0)) as [?|_]; [lia|].
  by rewrite decide_False by lia.
Qed.

Lemma py_index_lookup `{EqDecision A} (l : list A) (x : A) (i : Z) :
  py_index l x = Ok i → 0 ≤ i ∧ l !! Z.to_nat i = Some x.
Proof.
  revert i. induction l as [|y l IH]; intros i; simpl; [done|].
  destruct (decide (y = x)) as [->|Hne].
  - intros [= <-]. done.
  - destruct (py_index l x) as [j|e] eqn:Hj; simpl; [|done].
    intros [= <-]. destruct (IH j eq_refl) as [Hj0 Hlj].
    split; [lia|].
    replace (Z.to_nat (1 + j)) with (S (Z.to_nat j)) by lia. done.
Qed.

Lemma py_index_NoDup `{EqDecision A} (l : list A) (x : A) (i : nat) :
  NoDup l → l !! i = Some x → py_index l x = Ok (Z.of_nat i).
Proof.
  revert i. induction l as [|y l IH]; intros i Hnd Hl; [done|].
  apply NoDup_cons in Hnd as [Hy Hnd]. simpl.
  destruct i as [|i]; simpl in Hl.
  - injection Hl as ->. by rewrite decide_True.
  - rewrite decide_False.
    + rewrite (IH i Hnd Hl). simpl. f_equal. lia.
    + intros ->. apply Hy. by eapply list_elem_of_lookup_2.
Qed.

Lemma len_app {A} (l k : list A) : len (l ++ k) = len l + len k.
Proof. unfold len. rewrite length_app. lia. Qed.

(** ** The state monad *)

Lemma try_finally_skip {S A} (body : StateExn S A) (w : S) :
  try_finally body (mret ()) w = body w.
Proof. unfold try_finally. by destruct (body w). Qed.

Lemma bind_run {S A B} (m : StateExn S A) (k : A → StateExn S B) (w : S) :
  (m ≫= k) w = match m w with
               | (Ok a, w') => k a w'
               | (Raise e, w') => (Raise e, w')
               end.
Proof. reflexivity. Qed.

Lemma ret_run {S A} (a : A) (w : S) : (mret a : StateExn S A) w = (Ok a, w).
Proof. reflexivity. Qed.

(** ** C2: the children of a combo *)

(** C2.  A combo with N pairs has N+1 children: its pairs in list order at
    the rows 0..N-1 and its progression at row N.  The row at which a new
    child is inserted is N, so that once a pair has been added there the
    pair sits at row N and the progression follows it at row N+1. *)
Theorem combo_children (self : SimplexModel.t) (h : Heap)
  (c : Ref) (o : Combo.t) :
  h !! c = Some (OCombo o) →
  let N := len (Combo.pairs o) in
  SimplexModel.getItemRowCount h (Some c) = Ok (N + 1)
  ∧ SimplexModel.getChildItem self h (Some c) N = Ok (Combo.prog o)
  ∧ (∀ (i : nat) (p : Ref), Combo.pairs o !! i = Some p →
       SimplexModel.getChildItem self h (Some c) (Z.of_nat i) = Ok (Some p))
  ∧ SimplexModel.getItemAppendRow h (Some c) = Ok N
  ∧ (∀ (p : Ref) (o' : Combo.t) (h' : Heap),
       Combo.pairs o' = Combo.pairs o ++ [p] →
       Combo.prog o' = Combo.prog o →
       h' !! c = Some (OCombo o') →
       SimplexModel.getChildItem self h' (Some c) N = Ok (Some p)
       ∧ SimplexModel.getChildItem self h' (Some c) (N + 1) = Ok (Combo.prog o)).
Proof.
  intros Hc. cbv zeta. split_and!.
  - unfold SimplexModel.getItemRowCount. by rewrite Hc.
  - unfold SimplexModel.getChildItem. rewrite Hc.
    rewrite decide_True by done. by destruct (Combo.prog o).
  - intros i p Hp. unfold SimplexModel.getChildItem. rewrite Hc.
    pose proof (lookup_lt_Some _ _ _ Hp) as Hlt.
    rewrite decide_False by (unfold len; lia).
    by rewrite (py_getitem_lookup _ _ _ Hp).
  - unfold SimplexModel.getItemAppendRow. simpl. by rewrite Hc.
  - intros p o' h' Hpairs Hprog Hc'.
    unfold SimplexModel.getChildItem. rewrite Hc', Hpairs, len_app. split.
    + rewrite decide_False by (unfold len; simpl; lia).
      unfold len.
      rewrite (py_getitem_lookup _ (length (Combo.pairs o)) p); [done|].
      rewrite lookup_app_r by lia. by rewrite Nat.sub_diag.
    + rewrite decide_True by (unfold len; simpl; lia).
      rewrite Hprog. by destruct (Combo.prog o).
Qed.

Lemma combo_children_witness :
  SimplexModel.getItemRowCount Rig.heap (Some 21%positive) = Ok 4
  ∧ SimplexModel.getChildItem Rig.model Rig.heap (Some 21%positive) 3
    = Ok (Some 25%positive).
Proof.
  pose proof (combo_children Rig.model Rig.heap 21%positive
    (Combo.mk (Rig.n "smile") (Some 20%positive)
       [22%positive; 23%positive; 24%positive] (Some 25%positive) true)
    ltac:(reflexivity)) as (H1 & H2 & _).
  split; [exact H1 | exact H2].
Defined.

(** ** C10: what [setData] reports *)

Lemma alter_lookup_insert (f : Obj → Obj) (h : Heap) (i : Ref) (o : Obj) :
  h !! i = Some o → alter f i h = <[i := f o]> h.
Proof.
  intros Hi. apply map_eq. intros j.
  rewrite lookup_alter, lookup_insert.
  case_decide; [subst; by rewrite Hi | done].
Qed.

Ltac no_elem H :=
  exfalso;
  repeat (apply elem_of_cons in H as [H|H]; [discriminate H|]);
  apply elem_of_nil in H; exact H.

Lemma isinstance_kind (h : Heap) (i : Ref) (o : Obj) (ks : list Kind) :
  h !! i = Some o → isinstance h (Some i) ks = bool_decide (kindOf o ∈ ks).
Proof. intros Hi. unfold isinstance. simpl. by rewrite Hi. Qed.

(** [setData] answers [True] exactly for an edit of column 0 that renames a
    slider, combo, traversal or shape target, or that checks or unchecks a
    slider, combo or traversal; it never raises. *)
Lemma setData_true_iff (index : QModelIndex) (value : Variant) (role : Role)
  (w : World) :
  (∃ b, (SimplexModel.setData index value role w).1 = Ok b)
  ∧ ((SimplexModel.setData index value role w).1 = Ok true ↔
     isValid index = true ∧ column index = 0
     ∧ ((role = EditRole
         ∧ isinstance (heap w) (internalPointer index)
             [KSlider; KCombo; KTraversal; KProgPair] = true)
        ∨ (role = CheckStateRole
           ∧ isinstance (heap w) (internalPointer index)
               [KSlider; KCombo; KTraversal] = true))).
Proof.
  unfold SimplexModel.setData.
  destruct (isValid index) eqn:Hv; simpl.
  2:{ split; [by eexists|]. split; [done|]. by intros [? _]. }
  rewrite bind_run. simpl.
  destruct role; simpl.
  - split; [by eexists|]. split; [done|]. intros (_ & _ & [[? _]|[? _]]); done.
  - destruct (decide (column index = 0)) as [Hc|Hc].
    + destruct (isinstance (heap w) (internalPointer index)
                  [KSlider; KCombo; KTraversal; KProgPair]) eqn:Hi.
      * destruct (internalPointer index); simpl;
          (split; [by eexists|]); (split; [intros _|done]);
          (split_and!; [done|done|left; done]).
      * split; [by eexists|]. split; [done|].
        intros (_ & _ & [[_ ?]|[? _]]); done.
    + split.
      * destruct (decide (column index = 1)); [|destruct (decide (column index = 2))].
        -- destruct (isinstance _ _ [KSlider]); [|destruct (isinstance _ _ [KComboPair]);
             [|destruct (isinstance _ _ [KTravPair])]];
             destruct (internalPointer index); by eexists.
        -- destruct (isinstance _ _ [KProgPair]);
             destruct (internalPointer index); by eexists.
        -- by eexists.
      * split; [|by intros (_ & ? & _)].
        destruct (decide (column index = 1)); [|destruct (decide (column index = 2))].
        -- destruct (isinstance _ _ [KSlider]); [|destruct (isinstance _ _ [KComboPair]);
             [|destruct (isinstance _ _ [KTravPair])]];
             destruct (internalPointer index); done.
        -- destruct (isinstance _ _ [KProgPair]);
             destruct (internalPointer index); done.
        -- done.
  - destruct (decide (column index = 0)) as [Hc|Hc].
    + destruct (isinstance (heap w) (internalPointer index)
                  [KSlider; KCombo; KTraversal]) eqn:Hi.
      * destruct (internalPointer index); simpl;
          (split; [by eexists|]); (split; [intros _|done]);
          (split_and!; [done|done|right; done]).
      * split; [by eexists|]. split; [done|].
        intros (_ & _ & [[? _]|[_ ?]]); done.
    + split; [by eexists|]. split; [done|]. by intros (_ & ? & _).
  - split; [by eexists|]. split; [done|]. intros (_ & _ & [[? _]|[? _]]); done.
Qed.

(** C10.  An edit (edit role) of column 1 of a slider, combo pair or
    traversal pair, or of column 2 of a shape target, stores the new value
    in the item, answers [False] and emits no signal.  The only calls that
    answer [True] are those on column 0 that rename a slider, combo,
    traversal or shape target, or that check or uncheck a slider, combo or
    traversal. *)
Theorem setData_numeric_edit (index : QModelIndex) (value : Variant)
  (w : World) (item : Ref) (o : Obj) :
  isValid index = true →
  internalPointer index = Some item →
  heap w !! item = Some o →
  (column index = 1 ∧ kindOf o ∈ [KSlider; KComboPair; KTravPair])
  ∨ (column index = 2 ∧ kindOf o = KProgPair) →
  SimplexModel.setData index value EditRole w
  = (Ok false,
     mkWorld (<[item := SimplexModel.set_value value o]> (heap w)) (signals w))
  ∧ value_of (SimplexModel.set_value value o) = Some value
  ∧ (∀ index' value' role' w',
       (SimplexModel.setData index' value' role' w').1 = Ok true ↔
       isValid index' = true ∧ column index' = 0
       ∧ ((role' = EditRole
           ∧ isinstance (heap w') (internalPointer index')
               [KSlider; KCombo; KTraversal; KProgPair] = true)
          ∨ (role' = CheckStateRole
             ∧ isinstance (heap w') (internalPointer index')
                 [KSlider; KCombo; KTraversal] = true))).
Proof.
  intros Hv Hp Hi Hcase. split_and!.
  - unfold SimplexModel.setData. rewrite Hv. simpl. rewrite bind_run. simpl.
    rewrite Hp, !(isinstance_kind _ _ _ _ Hi).
    unfold SimplexModel.assign.
    destruct Hcase as [[Hc Hk]|[Hc Hk]]; rewrite Hc; simpl.
    + destruct o; simpl in Hk; try (no_elem Hk);
        simpl; rewrite bind_run; simpl;
        by rewrite (alter_lookup_insert _ _ _ _ Hi).
    + destruct o; simpl in Hk; try discriminate Hk.
      simpl. rewrite bind_run. simpl.
      by rewrite (alter_lookup_insert _ _ _ _ Hi).
  - destruct Hcase as [[_ Hk]|[_ Hk]]; destruct o; simpl in Hk;
      try discriminate Hk; try (no_elem Hk); done.
  - intros index' value' role' w'. apply setData_true_iff.
Qed.

Lemma setData_numeric_edit_witness :
  SimplexModel.setData (createIndex 0 1 (Some 3%positive)) (VNum 7) EditRole
    Rig.world
  = (Ok false,
     mkWorld (<[3%positive := OSlider (Slider.mk (Rig.n "slider")
                  (Some 2%positive) (Some 5%positive) (VNum 7) true)]> Rig.heap)
       []).
Proof.
  refine (proj1 (setData_numeric_edit (createIndex 0 1 (Some 3%positive))
    (VNum 7) Rig.world 3%positive _ eq_refl eq_refl eq_refl _)).
  left. split; [reflexivity|]. simpl. apply list_elem_of_here.
Defined.

(** ** C3 and C4: the change brackets *)

Section BracketLemmas.
Context `{ContextModel.Ops Self}.
Variable self : Self.

Local Arguments ContextModel.indexFromItem : simpl never.

Ltac run_enter :=
  unfold ContextModel.insertItemManager, ContextModel.removeItemManager,
    ContextModel.moveItemManager, ContextModel.resetModelManager,
    ContextModel.contextmanager,
    ContextModel.insertItemManager_enter, ContextModel.insertItemManager_exit,
    ContextModel.removeItemManager_enter, ContextModel.removeItemManager_exit,
    ContextModel.moveItemManager_enter, ContextModel.moveItemManager_exit,
    ContextModel.resetModelManager_enter, ContextModel.resetModelManager_exit,
    liftRes, emit, when;
  rewrite ?bind_run.

Ltac go := repeat (first [rewrite bind_run | rewrite ret_run]; simpl).

Ltac fired := eexists; split; [|split; reflexivity]; exact I.

(** C3.  An insert whose parent item has no valid index, and a move whose
    item or whose destination parent has none, run the caller's body and
    nothing else: the outcome and the world, signals included, are those of
    the body alone. *)
Theorem unresolved_bracket_is_passthrough {A} (b : Bracket) (body : M A)
  (w : World) :
  unresolved self b (heap w) → runBracket self b body w = body w.
Proof.
  destruct b as [parent row|item|item destPar destRow|]; simpl; try done.
  - intros (parIdx & Hidx & Hv). run_enter.
    rewrite Hidx. simpl. rewrite Hv. go. rewrite Hv.
    apply try_finally_skip.
  - intros (itemIdx & destParIdx & Hi & Hd & Hv). run_enter.
    rewrite Hi. go. rewrite Hd. simpl.
    replace (isValid itemIdx && isValid destParIdx) with false
      by (destruct Hv as [-> | ->]; [done | by rewrite andb_false_r]).
    simpl. apply try_finally_skip.
Qed.

(** C4.  When the part of a bracket that runs before the body has emitted
    its begin signal, the bracket ends with the matching end signal however
    the body ends: the outcome is the body's own, an exception included, and
    the end signal is emitted after everything the body did. *)
Theorem end_signal_always_fires {A} (b : Bracket) (body : M A)
  (w w1 w2 : World) (r : Res A) :
  enterBracket self b w = (Ok (), w1) →
  signals w1 ≠ signals w →
  body w1 = (r, w2) →
  (∃ s, isBegin b s ∧ signals w1 = signals w ++ [s] ∧ heap w1 = heap w)
  ∧ runBracket self b body w
    = (r, mkWorld (heap w2) (signals w2 ++ [endSignal b])).
Proof.
  destruct b as [parent row|item|item destPar destRow|]; simpl.
  - run_enter. go.
    destruct (ContextModel.indexFromItem self (heap w) parent 0) as [parIdx|e];
      go; [|done].
    destruct (isValid parIdx) eqn:Hv; go.
    2:{ intros [= <-]. done. }
    destruct (decide (row = -1)) as [Hr|Hr]; go.
    + destruct (ContextModel.getItemAppendRow self (heap w) parent) as [row'|e];
        go; [|done].
      intros [= <-] _ Hbody. split; [fired|]. go.
      unfold try_finally. rewrite Hbody, Hv. done.
    + intros [= <-] _ Hbody. split; [fired|]. go.
      unfold try_finally. rewrite Hbody, Hv. done.
  - run_enter. go.
    destruct (ContextModel.indexFromItem self (heap w) item 0) as [idx|e];
      go; [|done].
    destruct (isValid idx) eqn:Hv; go.
    2:{ intros [= <-]. done. }
    destruct (ContextModel.parent self (heap w) idx) as [parIdx|e];
      go; [|done].
    intros [= <-] _ Hbody. split; [fired|]. go.
    unfold try_finally. rewrite Hbody, Hv. done.
  - run_enter. go.
    destruct (ContextModel.indexFromItem self (heap w) item 0) as [itemIdx|e];
      go; [|done].
    destruct (ContextModel.indexFromItem self (heap w) destPar 0)
      as [destParIdx|e]; go; [|done].
    destruct (isValid itemIdx && isValid destParIdx) eqn:Hv; go.
    2:{ intros [= <-]. done. }
    destruct (ContextModel.parent self (heap w) itemIdx) as [srcParIdx|e];
      go; [|done].
    destruct (decide (destRow = -1)) as [Hr|Hr]; go.
    + destruct (ContextModel.getItemAppendRow self (heap w) destPar)
        as [row'|e]; go; [|done].
      intros [= <-] _ Hbody. split; [fired|]. go.
      unfold try_finally. rewrite Hbody. done.
    + intros [= <-] _ Hbody. split; [fired|]. go.
      unfold try_finally. rewrite Hbody. done.
  - run_enter. intros [= <-] _ Hbody. split; [fired|]. go.
    unfold try_finally. simpl. rewrite Hbody. done.
Qed.

End BracketLemmas.

Lemma unresolved_bracket_is_passthrough_witness :
  runBracket (H := SimplexModel.contextModel (H := Rig.items)) Rig.model
    (Insert (Some 40%positive) (-1)) Rig.failing Rig.world
  = (Raise ValueError, Rig.world).
Proof.
  apply (unresolved_bracket_is_passthrough
           (H := SimplexModel.contextModel (H := Rig.items)) Rig.model
           (Insert (Some 40%positive) (-1)) Rig.failing Rig.world).
  exists invalidIndex. split; reflexivity.
Defined.

Lemma end_signal_always_fires_witness :
  runBracket (H := SimplexModel.contextModel (H := Rig.items)) Rig.model
    (Insert (Some 21%positive) (-1)) Rig.failing Rig.world
  = (Raise ValueError,
     mkWorld Rig.heap
       [beginInsertRows (createIndex 0 0 (Some 21%positive)) 3 3;
        endInsertRows]).
Proof.
  refine (proj2 (end_signal_always_fires
    (H := SimplexModel.contextModel (H := Rig.items)) Rig.model
    (Insert (Some 21%positive) (-1)) Rig.failing Rig.world
    (mkWorld Rig.heap [beginInsertRows (createIndex 0 0 (Some 21%positive)) 3 3])
    (mkWorld Rig.heap [beginInsertRows (createIndex 0 0 (Some 21%positive)) 3 3])
    (Raise ValueError) _ _ _)).
  - vm_compute. reflexivity.
  - discriminate.
  - reflexivity.
Defined.

(** ** C5: the name filter *)

Section NameFilter.
Context `{InterfaceItems}.
Variable source : SourceModel.
Variable base : SimplexModel.t.
Variable qt_filterAcceptsRow : Z → QModelIndex → bool.
Variable h : Heap.
Variable self : SimplexFilterModel.t.

Lemma checkChildren_direct (fuel : nat) (item : option Ref) (name : Variant) :
  attr_name h item = Ok name →
  SimplexFilterModel.matchFilterString self name = Ok true →
  SimplexFilterModel.matchIsolation self name = true →
  SimplexFilterModel.checkChildren base h self (S fuel) item = Some (Ok true).
Proof. intros Hn Hm Hi. simpl. rewrite Hn. simpl. rewrite Hm. simpl. by rewrite Hi. Qed.

Lemma checkChildren_leaf (fuel : nat) (item : option Ref) (name : Variant)
  (m : bool) :
  attr_name h item = Ok name →
  SimplexFilterModel.matchFilterString self name = Ok m →
  isinstance h item [KProgPair; KComboPair] = true →
  SimplexFilterModel.checkChildren base h self (S fuel) item
  = Some (Ok (m && SimplexFilterModel.matchIsolation self name)).
Proof.
  intros Hn Hm Hk. simpl. rewrite Hn. simpl. rewrite Hm. simpl.
  destruct (m && SimplexFilterModel.matchIsolation self name); [done|].
  unfold isinstance, deref in Hk.
  destruct item as [i|]; simpl in Hk; [|done].
  unfold SimplexModel.getItemRowCount.
  destruct (h !! i) as [o|]; [|done].
  destruct o; simpl in Hk; try done.
Qed.

(** C5, as the code has it.  A row whose item is a shape target, slider,
    combo, combo pair or progression passes the name filter when its name
    matches one of the compiled tokens (or no filter string is set) and is
    in the isolate list (or the isolate list is empty): both tests must
    hold.  For a shape target or a combo pair, which have no children, the
    row passes only then.  With the filter string and the isolate list both
    empty every row passes.  A row that passes is handed to the row filter
    of Qt's proxy. *)
Theorem name_filter_accepts (fuel : nat) (sourceRow : Z)
  (sourceParent sourceIndex : QModelIndex) :
  source_index source h sourceRow 0 sourceParent = Ok sourceIndex →
  let item := source_itemFromIndex source sourceIndex in
  let accepts :=
    SimplexFilterModel.filterAcceptsRow source base qt_filterAcceptsRow h self
      (S fuel) sourceRow sourceParent in
  let passes := Some (Ok (qt_filterAcceptsRow sourceRow sourceParent)) in
  (∀ name,
     attr_name h item = Ok name →
     SimplexFilterModel.matchFilterString self name = Ok true →
     SimplexFilterModel.matchIsolation self name = true →
     accepts = passes)
  ∧ (∀ name m,
       isValid sourceIndex = true →
       SimplexFilterModel.filterString self ≠ ""
       ∨ SimplexFilterModel.isolateList self ≠ [] →
       isinstance h item [KProgPair; KComboPair] = true →
       attr_name h item = Ok name →
       SimplexFilterModel.matchFilterString self name = Ok m →
       accepts = if m && SimplexFilterModel.matchIsolation self name
                 then passes else Some (Ok false))
  ∧ (SimplexFilterModel.filterString self = "" →
     SimplexFilterModel.isolateList self = [] →
     accepts = passes).
Proof.
  intros Hidx item accepts passes. subst accepts.
  unfold SimplexFilterModel.filterAcceptsRow. rewrite Hidx. fold item.
  split_and!.
  - intros name Hn Hm Hi.
    rewrite (checkChildren_direct fuel item name Hn Hm Hi).
    by repeat case_match.
  - intros name m Hv Hset Hk Hn Hm. rewrite Hv.
    replace (bool_decide (SimplexFilterModel.filterString self ≠ "")
             || bool_decide (SimplexFilterModel.isolateList self ≠ []))
      with true.
    2:{ symmetry. apply orb_true_iff.
        destruct Hset; [left|right]; by apply bool_decide_eq_true. }
    replace (isinstance h item
               [KProgPair; KSlider; KCombo; KComboPair; KProgression])
      with true.
    2:{ symmetry. unfold isinstance in *. destruct (deref h item) as [o|]; [|done].
        destruct o; simpl in *; done. }
    rewrite (checkChildren_leaf fuel item name m Hn Hm Hk).
    by destruct (m && SimplexFilterModel.matchIsolation self name).
  - intros Hf Hi. rewrite Hf, Hi. simpl. by destruct (isValid sourceIndex).
Qed.

End NameFilter.

Lemma name_filter_accepts_witness :
  SimplexFilterModel.filterAcceptsRow (simplexSource (H := Rig.items) Rig.model)
    Rig.model Rig.qt_accepts Rig.heap Rig.nameFilter 1 2 Rig.sliderIndex
  = Some (Ok false).
Proof.
  refine (proj1 (proj2 (name_filter_accepts (simplexSource (H := Rig.items) Rig.model)
    Rig.model Rig.qt_accepts Rig.heap Rig.nameFilter 0 2 Rig.sliderIndex
    (createIndex 2 0 (Some 8%positive)) eq_refl))
    (VStr "full") true eq_refl _ eq_refl eq_refl eq_refl).
  left. discriminate.
Defined.

(** C5, as the specification words it, fails: the shape target "full"
    matches the token "full", yet with the isolate list ["half"] its row is
    rejected; and the shape target "half", which is in the isolate list, is
    rejected as well, since it does not match the token. *)
Lemma name_filter_is_not_a_disjunction :
  SimplexFilterModel.set_filterString
    (SimplexFilterModel.mk [] [] [VStr "half"]) "full"
  = Some (Ok (), Rig.nameFilter)
  ∧ Spec.nameAccepted Rig.nameFilter "full" = true
  ∧ SimplexFilterModel.filterAcceptsRow (simplexSource (H := Rig.items) Rig.model)
      Rig.model Rig.qt_accepts Rig.heap Rig.nameFilter 5 2 Rig.sliderIndex
    = Some (Ok false)
  ∧ Spec.nameAccepted Rig.nameFilter "half" = true
  ∧ SimplexFilterModel.filterAcceptsRow (simplexSource (H := Rig.items) Rig.model)
      Rig.model Rig.qt_accepts Rig.heap Rig.nameFilter 5 1 Rig.sliderIndex
    = Some (Ok false).
Proof. split_and!; by vm_compute. Qed.

(** ** C7: the dependency filter *)

Section DependencyFilter.
Context `{InterfaceItems}.
Variable source : SourceModel.
Variable base : SimplexModel.t.
Variable qt_filterAcceptsRow : Z → QModelIndex → bool.
Variable h : Heap.
Variable self : ComboFilterModel.t.

(** C7, as the code has it.  For a combo row, with a set of required
    sliders that is not empty and at least one mode flag set, the flags are
    tried in the order ALL, ANY, ONLY: the ALL test decides when the ALL
    flag is set, otherwise the ANY test when the ANY flag is set, otherwise
    the ONLY test.  A combo that fails the test is rejected, one that
    passes goes on to the name filter; nothing is raised on the way. *)
Theorem dependency_modes_priority (fuel : nat) (sourceRow : Z)
  (sourceParent sourceIndex : QModelIndex) (c : Ref) (o : Combo.t)
  (sliders : list (option Ref)) :
  source_index source h sourceRow 0 sourceParent = Ok sourceIndex →
  isValid sourceIndex = true →
  source_itemFromIndex source sourceIndex = Some c →
  h !! c = Some (OCombo o) →
  mapM (λ i, attr_slider h (Some i)) (Combo.pairs o) = Ok sliders →
  ComboFilterModel.requires self ≠ [] →
  ComboFilterModel.filterRequiresAny self
  || ComboFilterModel.filterRequiresAll self
  || ComboFilterModel.filterRequiresOnly self = true →
  let test :=
    if ComboFilterModel.filterRequiresAll self
    then ComboFilterModel.requiresAll self sliders
    else if ComboFilterModel.filterRequiresAny self
    then ComboFilterModel.requiresAny self sliders
    else ComboFilterModel.requiresOnly self sliders in
  ComboFilterModel.filterAcceptsRow source base qt_filterAcceptsRow h self
    fuel sourceRow sourceParent
  = if test
    then SimplexFilterModel.filterAcceptsRow source base qt_filterAcceptsRow h
           (ComboFilterModel.filter self) fuel sourceRow sourceParent
    else Some (Ok false).
Proof.
  intros Hidx Hv Hitem Hc Hs Hreq Hflags test. subst test.
  unfold ComboFilterModel.filterAcceptsRow. rewrite Hidx, Hv, Hitem.
  assert (ComboFilterModel.hidesShape h (Some c) = Ok false) as ->.
  { unfold ComboFilterModel.hidesShape. simpl. by rewrite Hc. }
  replace (if ComboFilterModel.filterShapes self then Ok false else Ok false)
    with (@Ok bool false) by (by destruct (ComboFilterModel.filterShapes self)).
  unfold ComboFilterModel.hidesCombo. rewrite Hflags. simpl.
  rewrite bool_decide_eq_true_2 by done. simpl. rewrite Hc, Hs. simpl.
  destruct (ComboFilterModel.filterRequiresAll self).
  { by destruct (ComboFilterModel.requiresAll self sliders). }
  destruct (ComboFilterModel.filterRequiresAny self).
  { by destruct (ComboFilterModel.requiresAny self sliders). }
  destruct (ComboFilterModel.filterRequiresOnly self); [|done].
  by destruct (ComboFilterModel.requiresOnly self sliders).
Qed.

End DependencyFilter.

Lemma dependency_modes_priority_witness :
  ComboFilterModel.filterAcceptsRow (simplexSource (H := Rig.items) Rig.model)
    Rig.model Rig.qt_accepts Rig.heap Rig.comboFilter 5 0 Rig.comboGroupIndex
  = Some (Ok false).
Proof.
  refine (dependency_modes_priority (simplexSource (H := Rig.items) Rig.model)
    Rig.model Rig.qt_accepts Rig.heap Rig.comboFilter 5 0 Rig.comboGroupIndex
    (createIndex 0 0 (Some 21%positive)) 21%positive _
    [Some 3%positive; Some 4%positive; Some 14%positive]
    eq_refl eq_refl eq_refl eq_refl eq_refl _ eq_refl).
  discriminate.
Defined.

(** C7, as the specification words it, fails: with the ANY and the ALL flag
    both set, the combo [21] passes the ANY test, which should decide, and
    is rejected all the same. *)
Lemma any_does_not_override_all :
  ComboFilterModel.filterRequiresAny Rig.comboFilter = true
  ∧ Spec.dependencyTest Rig.comboFilter
      [Some 3%positive; Some 4%positive; Some 14%positive] = true
  ∧ SimplexFilterModel.filterAcceptsRow (simplexSource (H := Rig.items) Rig.model)
      Rig.model Rig.qt_accepts Rig.heap
      (ComboFilterModel.filter Rig.comboFilter) 5 0 Rig.comboGroupIndex
    = Some (Ok true)
  ∧ ComboFilterModel.filterAcceptsRow (simplexSource (H := Rig.items) Rig.model)
      Rig.model Rig.qt_accepts Rig.heap Rig.comboFilter 5 0 Rig.comboGroupIndex
    = Some (Ok false).
Proof. split_and!; by vm_compute. Qed.

(** ** C6: compiling the filter string *)

(** What the setter's loop leaves when it ends without an exception: one
    expression for every token, compiled from the token's pattern. *)
Lemma compileTokens_ok (tokens : list string) (regs regs' : list re.Regex) :
  SimplexFilterModel.compileTokens tokens regs = Some (Ok (), regs') →
  ∃ new, regs' = regs ++ new
    ∧ Forall2 (λ sp reg, ∃ pattern,
                 SimplexFilterModel.tokenPattern sp = Ok pattern
                 ∧ re.compile pattern true = Some (Ok reg)) tokens new.
Proof.
  revert regs. induction tokens as [|sp tokens IH]; intros regs; simpl.
  - intros [= <-]. exists []. by rewrite app_nil_r.
  - destruct (SimplexFilterModel.tokenPattern sp) as [pattern|e] eqn:Hp; [|done].
    destruct (re.compile pattern true) as [[reg|e]|] eqn:Hc; [|done|done].
    intros Hrest. destruct (IH _ Hrest) as (new & -> & Hall).
    exists (reg :: new). split; [by rewrite <- app_assoc|].
    constructor; [by exists pattern | done].
Qed.

(** C6 on the code.  The part of the claim the code meets: the setter
    splits the filter string at white space and compiles one case-insensitive
    expression per token; the token "sdr" becomes "s.*?d.*?r", which is
    found in "SlideR" and not in "Slide".  The part it does not meet: the
    token "sl*r" does not start with a star, so its characters are joined
    like those of "sdr"; the pattern "s.*?l.*?*.*?r" has a star right after
    a lazy span and the compiler refuses it.  The setter raises "multiple
    repeat", the proxy is left with the token and no expression, and it
    does not find the token in "slider".  A token that does start with a
    star is compiled as it is and is refused as well, for any rest: a
    leading star has nothing to repeat. *)
Theorem filter_string_star_token :
  let sdr := re.mkRegex
    [re.mkItem (re.ALit "s") re.QOne false; re.mkItem re.AAny re.QStar true;
     re.mkItem (re.ALit "d") re.QOne false; re.mkItem re.AAny re.QStar true;
     re.mkItem (re.ALit "r") re.QOne false] true in
  let jaw := re.mkRegex
    [re.mkItem (re.ALit "j") re.QOne false; re.mkItem re.AAny re.QStar true;
     re.mkItem (re.ALit "a") re.QOne false; re.mkItem re.AAny re.QStar true;
     re.mkItem (re.ALit "w") re.QOne false] true in
  let good := SimplexFilterModel.mk ["sdr"; "jaw"] [sdr; jaw] [] in
  let broken := SimplexFilterModel.mk ["sl*r"] [] [] in
  SimplexFilterModel.tokenPattern "sdr" = Ok "s.*?d.*?r"
  ∧ re.compile "s.*?d.*?r" true = Some (Ok sdr)
  ∧ SimplexFilterModel.set_filterString SimplexFilterModel.init "sdr  jaw"
    = Some (Ok (), good)
  ∧ SimplexFilterModel.matchFilterString good (VStr "SlideR") = Ok true
  ∧ SimplexFilterModel.matchFilterString good (VStr "Slide") = Ok false
  ∧ SimplexFilterModel.tokenPattern "sl*r" = Ok "s.*?l.*?*.*?r"
  ∧ re.compile "s.*?l.*?*.*?r" true = Some (Raise (ReError "multiple repeat"))
  ∧ SimplexFilterModel.set_filterString SimplexFilterModel.init "sl*r"
    = Some (Raise (ReError "multiple repeat"), broken)
  ∧ SimplexFilterModel.matchFilterString broken (VStr "slider") = Ok false
  ∧ ∀ rest,
      SimplexFilterModel.tokenPattern (String "*" rest) = Ok (String "*" rest)
      ∧ re.compile (String "*" rest) true
        = Some (Raise (ReError "nothing to repeat")).
Proof.
  cbv zeta. do 9 (split; [by vm_compute|]).
  intros rest. split; reflexivity.
Qed.

(** ** C1: rows, parents and children *)

(** C1 at the combo [21] of the sample rig, which has three pairs and a
    progression of two shape targets.  The progression is the combo's child
    at row 3 and the combo is its parent, yet its row is reported as 2, the
    number of its own shape targets; the child of its parent at its reported
    row is the third pair, not the progression. *)
Theorem combo_progression_row :
  SimplexModel.getItemRowCount Rig.heap (Some 21%positive) = Ok 4
  ∧ SimplexModel.getChildItem Rig.model Rig.heap (Some 21%positive) 3
    = Ok (Some 25%positive)
  ∧ SimplexModel.getParentItem Rig.heap (Some 25%positive) = Ok (Some 21%positive)
  ∧ SimplexModel.getItemRow (H := Rig.items) Rig.heap (Some 25%positive)
    = Ok (Some 2)
  ∧ SimplexModel.getChildItem Rig.model Rig.heap (Some 21%positive) 2
    = Ok (Some 24%positive).
Proof. split_and!; by vm_compute. Qed.

(** ** C9: the check state of a falloff *)

Section FalloffChecks.
Import FalloffModel.

Local Arguments sliderFalloffs : simpl never.
Local Arguments forEach : simpl never.

Lemma forEach_cons {S A} (x : A) (l : list A) (f : A → StateExn S ()) (st : S) :
  forEach (x :: l) f st
  = match f x st with
    | (Ok _, st') => forEach l f st'
    | (Raise e, st') => (Raise e, st')
    end.
Proof.
  unfold forEach; fold (@forEach S A).
  rewrite bind_run. by destruct (f x st) as [[[]|e] st'].
Qed.

(** The inner loop of [setSliders]: every falloff of the slider gets the
    slider appended to its list, once. *)
Lemma setSliders_inner (slider : Ref) (fos : list Ref) (st : State) :
  NoDup fos →
  ∃ m', forEach fos (λ fo, modify (checks_append fo slider)) st
        = (Ok (), mkState m' (world st))
    ∧ sliders m' = sliders (self st)
    ∧ ∀ fo, default [] (_checks m' !! fo)
            = default [] (_checks (self st) !! fo)
              ++ (if bool_decide (fo ∈ fos) then [slider] else []).
Proof.
  revert st. induction fos as [|f fos IH]; intros st Hnd.
  - exists (self st). split_and!; [by destruct st|done|].
    intros fo. by rewrite app_nil_r.
  - apply NoDup_cons in Hnd as [Hf Hnd].
    rewrite forEach_cons. unfold modify at 1.
    destruct (IH (mkState (checks_append f slider (self st)) (world st)) Hnd)
      as (m' & -> & Hs & Hc).
    exists m'. split_and!; [done|done|].
    intros fo. rewrite Hc. simpl.
    destruct (decide (fo = f)) as [->|Hne].
    + rewrite lookup_insert_eq. simpl.
      rewrite (bool_decide_eq_false_2 _ Hf).
      rewrite bool_decide_eq_true_2 by apply list_elem_of_here.
      by rewrite app_nil_r.
    + rewrite lookup_insert_ne by done.
      f_equal. apply (f_equal (λ b : bool, if b then [slider] else [])).
      apply bool_decide_ext. rewrite elem_of_cons.
      split; [by right|]. by intros [?|?].
Qed.

(** The outer loop: a falloff's list holds the selected sliders that
    reference it, in the order of the selection. *)
Lemma setSliders_outer (l : list Ref) (st : State) :
  (∀ s, s ∈ l → ∃ prog fos,
     sliderFalloffs (heap (world st)) s = Ok (prog, fos) ∧ NoDup fos) →
  ∃ m', forEach l setSliders_body st = (Ok (), mkState m' (world st))
    ∧ sliders m' = sliders (self st)
    ∧ ∀ fo, default [] (_checks m' !! fo)
            = default [] (_checks (self st) !! fo)
              ++ filter (λ s, references (heap (world st)) fo s) l.
Proof.
  revert st. induction l as [|s l IH]; intros st Hl.
  - exists (self st). split_and!; [by destruct st|done|].
    intros fo. by rewrite app_nil_r.
  - destruct st as [m w]. simpl in Hl.
    destruct (Hl s) as (prog & fos & Hs & Hnd); [apply list_elem_of_here|].
    rewrite forEach_cons. unfold setSliders_body at 1.
    rewrite bind_run. unfold slider_falloffs, liftW, liftRes. simpl. rewrite Hs. simpl.
    destruct (setSliders_inner s fos (mkState m w) Hnd) as (m1 & -> & Hs1 & Hc1).
    simpl in *.
    destruct (IH (mkState m1 w)) as (m' & -> & Hs' & Hc').
    { intros s' Hs'. apply Hl. by apply list_elem_of_further. }
    exists m'. split_and!; [done|by rewrite Hs'|].
    intros fo. rewrite Hc', Hc1. simpl. rewrite <- app_assoc. f_equal.
    assert (references (heap w) fo s = bool_decide (fo ∈ fos)) as Href
      by (unfold references; by rewrite Hs).
    rewrite filter_cons, Href.
    destruct (bool_decide (fo ∈ fos));
      [rewrite decide_True by done | rewrite decide_False by (by intros [])];
      done.
Qed.

Lemma filter_all_length {A} (P : A → Prop) `{∀ x, Decision (P x)} (l : list A) :
  length (filter P l) = length l ↔ Forall P l.
Proof.
  induction l as [|x l IH]; [by split; [constructor|]|].
  rewrite filter_cons. pose proof (length_filter P l) as Hle.
  case_decide; simpl.
  - split.
    + intros [=Hlen]. constructor; [done|]. by apply IH.
    + intros Hall. apply Forall_cons in Hall as [_ Hall]. f_equal. by apply IH.
  - split; [lia|]. intros Hall. by apply Forall_cons in Hall as [? _].
Qed.

Lemma filter_none_length {A} (P : A → Prop) `{∀ x, Decision (P x)} (l : list A) :
  length (filter P l) = 0%nat ↔ Forall (λ x, ¬ P x) l.
Proof.
  induction l as [|x l IH]; [by split; [constructor|]|].
  rewrite filter_cons. case_decide; simpl.
  - split; [done|]. intros Hall. by apply Forall_cons in Hall as [? _].
  - rewrite IH. split; [by constructor|]. intros Hall.
    by apply Forall_cons in Hall as [_ ?].
Qed.

End FalloffChecks.

Section FalloffToggle.
Import FalloffModel.

Local Arguments forEach : simpl never.

(** Writing a progression over a progression leaves every [x.prog] as it
    was. *)
Lemma progOf_insert (h : Heap) (r : Ref) (p p' : Progression.t) (s : Ref) :
  h !! r = Some (OProgression p) →
  progOf (<[r := OProgression p']> h) s = progOf h s.
Proof.
  intros Hr. unfold progOf, attr_prog, deref. simpl.
  destruct (decide (r = s)) as [->|Hne].
  - by rewrite lookup_insert_eq, Hr.
  - by rewrite lookup_insert_ne.
Qed.

Lemma progOf_Some (h : Heap) (s r : Ref) :
  progOf h s = Some r ↔ attr_prog h (Some s) = Ok (Some r).
Proof.
  unfold progOf. destruct (attr_prog h (Some s)) as [[r'|]|e]; split; by intros [=->].
Qed.

(** One turn of the loop that checks a falloff. *)
Lemma check_body_run (fo s r : Ref) (p : Progression.t) (m : t) (w : World) :
  progOf (heap w) s = Some r →
  heap w !! r = Some (OProgression p) →
  ∃ m',
    check_body fo s (mkState m w)
    = (Ok (), mkState m'
         (mkWorld
            (if bool_decide (fo ∈ Progression.falloffs p) then heap w
             else <[r := OProgression (Progression_methods.withFalloff p fo)]>
                    (heap w))
            (signals w)))
    ∧ sliders m' = sliders m.
Proof.
  intros Hs Hr. apply progOf_Some in Hs.
  unfold check_body. rewrite bind_run.
  unfold slider_falloffs, liftW, liftRes, sliderFalloffs. simpl.
  rewrite Hs. simpl.
  assert (attr_falloffs (heap w) (Some r) = Ok (Progression.falloffs p)) as ->
    by (unfold attr_falloffs, deref; simpl; by rewrite Hr).
  simpl.
  destruct (decide (fo ∈ Progression.falloffs p)) as [Hin|Hin].
  - rewrite bool_decide_eq_false_2 by (by intros ?).
    rewrite bool_decide_eq_true_2 by done.
    exists m. by destruct w.
  - rewrite bool_decide_eq_true_2 by done.
    rewrite bool_decide_eq_false_2 by done.
    rewrite bind_run. unfold Progression_methods.addFalloff, deref. simpl.
    rewrite Hr. eexists. split; [reflexivity|done].
Qed.

Lemma elem_of_progs_cons (h : Heap) (s : Ref) (l : list Ref) (r x : Ref) :
  progOf h s = Some r →
  x ∈ omap (progOf h) (s :: l) ↔ x = r ∨ x ∈ omap (progOf h) l.
Proof.
  intros Hs. rewrite !list_elem_of_omap. split.
  - intros (y & Hy & Hf). apply elem_of_cons in Hy as [->|Hy].
    + left. congruence.
    + right. by exists y.
  - intros [->|(y & Hy & Hf)].
    + exists s. split; [apply list_elem_of_here|done].
    + exists y. split; [by apply list_elem_of_further|done].
Qed.

Lemma progressionAt_Some (h : Heap) (r : Ref) (p : Progression.t) :
  progressionAt h r = Some p ↔ h !! r = Some (OProgression p).
Proof.
  unfold progressionAt. destruct (h !! r) as [[]|]; split; intros [=]; by subst.
Qed.

(** The loop that checks a falloff: a progression of a selected slider that
    lacks the falloff gets it appended, once; nothing else changes. *)
Lemma check_loop (fo : Ref) (l : list Ref) (m : t) (w : World) :
  (∀ s, s ∈ l → ∃ r p, progOf (heap w) s = Some r
                       ∧ progressionAt (heap w) r = Some p) →
  ∃ m' h1,
    forEach l (check_body fo) (mkState m w)
    = (Ok (), mkState m' (mkWorld h1 (signals w)))
    ∧ sliders m' = sliders m
    ∧ ∀ r, h1 !! r
           = match progressionAt (heap w) r with
             | Some p =>
                 if bool_decide (r ∈ omap (progOf (heap w)) l)
                    && negb (bool_decide (fo ∈ Progression.falloffs p))
                 then Some (OProgression (Progression_methods.withFalloff p fo))
                 else heap w !! r
             | None => heap w !! r
             end.
Proof.
  revert m w. induction l as [|s l IH]; intros m w Hl.
  - exists m, (heap w). split_and!; [by destruct w|done|].
    intros r. by destruct (progressionAt (heap w) r).
  - destruct (Hl s) as (r & p & Hs & Hr); [apply list_elem_of_here|].
    apply progressionAt_Some in Hr.
    rewrite forEach_cons.
    destruct (check_body_run fo s r p m w Hs Hr) as (m1 & -> & Hm1).
    set (h' := if bool_decide (fo ∈ Progression.falloffs p) then heap w
               else <[r := OProgression (Progression_methods.withFalloff p fo)]>
                      (heap w)).
    assert (∀ x, progOf h' x = progOf (heap w) x) as Hprog.
    { intros x. subst h'. case_bool_decide; [done|]. by eapply progOf_insert. }
    assert (omap (progOf h') l = omap (progOf (heap w)) l) as Hprogs.
    { apply list_omap_ext, Forall_Forall2_diag, Forall_forall. intros; apply Hprog. }
    destruct (IH m1 (mkWorld h' (signals w))) as (m' & h1 & -> & Hm' & Hh1).
    { intros s' Hs'. destruct (Hl s') as (r' & p' & Hs'r & Hr');
        [by apply list_elem_of_further|].
      simpl. rewrite Hprog. exists r'. subst h'.
      case_bool_decide; [by exists p'|].
      destruct (decide (r = r')) as [->|Hne].
      - eexists. split; [done|]. apply progressionAt_Some.
        by rewrite lookup_insert_eq.
      - exists p'. split; [done|]. apply progressionAt_Some.
        rewrite lookup_insert_ne by done. by apply progressionAt_Some. }
    exists m', h1. split_and!; [done|by rewrite Hm'|].
    intros x. rewrite Hh1. simpl. rewrite Hprogs.
    rewrite (bool_decide_ext _ _ (elem_of_progs_cons (heap w) s l r x Hs)).
    subst h'. destruct (decide (x = r)) as [->|Hne].
    + rewrite (proj2 (progressionAt_Some _ _ _) Hr).
      rewrite (bool_decide_eq_true_2 (r = r ∨ _)) by (by left).
      case_bool_decide as Hfo; simpl.
      * rewrite (proj2 (progressionAt_Some _ _ _) Hr).
        rewrite (bool_decide_eq_true_2 _ Hfo). by rewrite andb_false_r.
      * rewrite (proj2 (progressionAt_Some _ r _) (lookup_insert_eq _ _ _)).
        simpl.
        rewrite (bool_decide_eq_true_2 (fo ∈ _ ++ [fo]))
          by (apply elem_of_app; right; apply list_elem_of_here).
        by rewrite andb_false_r, lookup_insert_eq.
    + assert (bool_decide (x = r ∨ x ∈ omap (progOf (heap w)) l)
              = bool_decide (x ∈ omap (progOf (heap w)) l)) as ->.
      { apply bool_decide_ext. split; [by intros [?|?]|by right]. }
      case_bool_decide; [done|].
      unfold progressionAt. by rewrite !lookup_insert_ne.
Qed.

End FalloffToggle.

Section FalloffTheorem.
Import FalloffModel.

Local Arguments forEach : simpl never.
Local Arguments sliderFalloffs : simpl never.

(** [buildLine] touches nothing but the display line, also when it
    raises. *)
Lemma buildLine_frame (st : State) :
  ∃ r ln, buildLine st = (r, mkState (set_line ln (self st)) (world st)).
Proof.
  destruct st as [m w]. unfold buildLine. rewrite bind_run. simpl.
  destruct (sliders m) eqn:Hsl.
  - by exists (Ok ()), "".
  - rewrite bind_run. unfold liftW, liftRes. simpl.
    match goal with |- context [match ?c with Ok _ => _ | Raise _ => _ end] =>
      destruct c as [title|e] end; simpl.
    + by exists (Ok ()), title.
    + exists (Raise e), (line m). by destruct m.
Qed.

Lemma sliderFalloffs_of_prog (h : Heap) (s r : Ref) (p : Progression.t) :
  progOf h s = Some r → progressionAt h r = Some p →
  sliderFalloffs h s = Ok (Some r, Progression.falloffs p).
Proof.
  intros Hs Hr. apply progOf_Some in Hs. apply progressionAt_Some in Hr.
  unfold sliderFalloffs. rewrite Hs. simpl.
  unfold attr_falloffs, deref. simpl. by rewrite Hr.
Qed.

(** What [setSliders] leaves: the selection, an untouched heap, and for
    every falloff the selected sliders that reference it. *)
Lemma setSliders_run (sel : list Ref) (st : State) :
  (∀ s, s ∈ sel → ∃ r p, progOf (heap (world st)) s = Some r
                         ∧ progressionAt (heap (world st)) r = Some p
                         ∧ NoDup (Progression.falloffs p)) →
  sliders (self (setSliders sel st).2) = sel
  ∧ heap (world (setSliders sel st).2) = heap (world st)
  ∧ ∀ fo, default [] (_checks (self (setSliders sel st).2) !! fo)
          = filter (λ s, references (heap (world st)) fo s) sel.
Proof.
  intros Hsel. destruct st as [m w]. simpl in Hsel.
  unfold setSliders. rewrite bind_run. unfold liftW at 1, emit at 1. simpl.
  rewrite bind_run. unfold modify at 1. simpl.
  rewrite bind_run.
  edestruct (setSliders_outer sel
    (mkState (mk (simplex m) sel ∅ (line m))
       (mkWorld (heap w) (signals w ++ [beginResetModel]))))
    as (m1 & -> & Hs1 & Hc1).
  { simpl. intros s Hs. destruct (Hsel s Hs) as (r & p & Hp & Hr & Hnd).
    exists (Some r), (Progression.falloffs p).
    split; [by apply sliderFalloffs_of_prog|done]. }
  simpl in *. rewrite bind_run. unfold liftW at 1, emit at 1. simpl.
  match goal with |- context [buildLine ?s] =>
    destruct (buildLine_frame s) as (r & ln & ->) end.
  simpl. split_and!; [done|done|].
  intros fo. by rewrite Hc1, lookup_empty.
Qed.

(** What checking a falloff leaves in the heap. *)
Lemma setData_check_run (fo : Ref) (index : QModelIndex) (st : State) :
  internalPointer index = Some fo →
  (∀ s, s ∈ sliders (self st) →
     ∃ r p, progOf (heap (world st)) s = Some r
            ∧ progressionAt (heap (world st)) r = Some p) →
  ∀ r, heap (world (setData index (VNum Checked) CheckStateRole st).2) !! r
       = match progressionAt (heap (world st)) r with
         | Some p =>
             if bool_decide (r ∈ omap (progOf (heap (world st))) (sliders (self st)))
                && negb (bool_decide (fo ∈ Progression.falloffs p))
             then Some (OProgression (Progression_methods.withFalloff p fo))
             else heap (world st) !! r
         | None => heap (world st) !! r
         end.
Proof.
  intros Hfo Hsel. destruct st as [m w]. simpl in *.
  unfold setData. rewrite Hfo. rewrite bind_run. simpl.
  rewrite bind_run.
  destruct (check_loop fo (sliders m) m w Hsel) as (m' & h1 & -> & Hm' & Hh1).
  rewrite bind_run.
  match goal with |- context [buildLine ?s] =>
    destruct (buildLine_frame s) as ([[]|e] & ln & ->) end; simpl; exact Hh1.
Qed.

End FalloffTheorem.

Section FalloffClaim.
Import FalloffModel.

Lemma progOf_not_progression (h : Heap) (s r : Ref) :
  progOf h s = Some r → progressionAt h s = None.
Proof.
  unfold progOf, progressionAt, attr_prog, deref. simpl.
  by destruct (h !! s) as [[]|].
Qed.

Lemma progOf_same_lookup (h h' : Heap) (s : Ref) :
  h' !! s = h !! s → progOf h' s = progOf h s.
Proof. intros Heq. unfold progOf, attr_prog, deref. simpl. by rewrite Heq. Qed.

(** C9.  Select a list of sliders that is not empty, each with a
    progression that lists a falloff at most once.  Then a falloff is
    checked when every selected slider references it, unchecked when none
    does, and partially checked otherwise.  Setting a falloff to checked
    appends it to the progressions of exactly those selected sliders that
    lack it; a slider that already has it keeps its falloffs as they were,
    and no other object of the heap changes. *)
Theorem falloff_check_state (st : State) (sel : list Ref) (fo : Ref)
  (index : QModelIndex) :
  sel ≠ [] →
  (∀ s, s ∈ sel → ∃ r p, progOf (heap (world st)) s = Some r
                         ∧ progressionAt (heap (world st)) r = Some p
                         ∧ NoDup (Progression.falloffs p)) →
  internalPointer index = Some fo →
  let h := heap (world st) in
  let st1 := (setSliders sel st).2 in
  let st2 := (setData index (VNum Checked) CheckStateRole st1).2 in
  (∀ f,
     ((∀ s, s ∈ sel → references h f s = true) →
      _getCheckState (self st1) f = Checked)
     ∧ ((∀ s, s ∈ sel → references h f s = false) →
        _getCheckState (self st1) f = Unchecked)
     ∧ ((∃ s, s ∈ sel ∧ references h f s = true) →
        (∃ s, s ∈ sel ∧ references h f s = false) →
        _getCheckState (self st1) f = PartiallyChecked))
  ∧ (∀ s r p, s ∈ sel → progOf h s = Some r → progressionAt h r = Some p →
       progOf (heap (world st2)) s = Some r
       ∧ progressionAt (heap (world st2)) r
         = Some (if bool_decide (fo ∈ Progression.falloffs p) then p
                 else Progression_methods.withFalloff p fo))
  ∧ (∀ r, r ∉ omap (progOf h) sel → heap (world st2) !! r = h !! r).
Proof.
  intros Hne Hsel Hfo h st1 st2.
  destruct (setSliders_run sel st Hsel) as (Hs1 & Hh1 & Hc1).
  fold st1 in Hs1, Hh1, Hc1. fold h in Hh1, Hc1.
  assert (∀ s, s ∈ sliders (self st1) →
            ∃ r p, progOf (heap (world st1)) s = Some r
                   ∧ progressionAt (heap (world st1)) r = Some p) as Hsel1.
  { rewrite Hs1, Hh1. intros s Hs.
    destruct (Hsel s Hs) as (r & p & ? & ? & _). by exists r, p. }
  pose proof (setData_check_run fo index st1 Hfo Hsel1) as Hrun.
  fold st2 in Hrun. rewrite Hs1, Hh1 in Hrun.
  assert (0 < length sel)%nat as Hpos by (destruct sel; [done|simpl; lia]).
  split_and!.
  - intros f. unfold _getCheckState. rewrite Hc1, Hs1. unfold len.
    pose proof (filter_all_length (λ s, references h f s) sel) as Hall.
    pose proof (filter_none_length (λ s, references h f s) sel) as Hnone.
    pose proof (length_filter (λ s, references h f s) sel) as Hle.
    split_and!.
    + intros Href. rewrite decide_True; [done|]. f_equal. apply Hall.
      apply Forall_forall. intros s Hs. by rewrite (Href s Hs).
    + intros Href.
      assert (length (filter (λ s, references h f s) sel) = 0%nat) as ->.
      { apply Hnone. apply Forall_forall. intros s Hs.
        rewrite (Href s Hs). by intros []. }
      rewrite decide_False by lia. by rewrite decide_True.
    + intros (s1 & Hs1in & Hr1) (s2 & Hs2in & Hr2).
      rewrite decide_False.
      2:{ intros Heq. apply Nat2Z.inj, Hall in Heq.
          rewrite Forall_forall in Heq. specialize (Heq s2 Hs2in).
          by rewrite Hr2 in Heq. }
      rewrite decide_False; [done|].
      intros Heq. apply (Nat2Z.inj _ 0%nat), Hnone in Heq.
      rewrite Forall_forall in Heq. apply (Heq s1 Hs1in). by rewrite Hr1.
  - intros s r p Hs Hp Hr. split.
    + rewrite <- Hp. apply progOf_same_lookup.
      rewrite Hrun. by rewrite (progOf_not_progression h s r Hp).
    + apply progressionAt_Some. rewrite Hrun, Hr.
      rewrite bool_decide_eq_true_2
        by (apply list_elem_of_omap; by exists s).
      simpl. case_bool_decide; simpl; [by apply progressionAt_Some|done].
  - intros r Hr. rewrite Hrun.
    destruct (progressionAt h r); [|done].
    by rewrite (bool_decide_eq_false_2 _ Hr).
Qed.

End FalloffClaim.

Lemma falloff_check_state_witness :
  FalloffModel._getCheckState
    (FalloffModel.self
       (FalloffModel.setSliders [3%positive; 4%positive; 14%positive]
          (FalloffModel.mkState (FalloffModel.init (Some 1%positive)) Rig.world)).2)
    12%positive
  = PartiallyChecked.
Proof.
  refine (proj2 (proj2 (proj1 (falloff_check_state
    (FalloffModel.mkState (FalloffModel.init (Some 1%positive)) Rig.world)
    [3%positive; 4%positive; 14%positive] 12%positive
    (createIndex 1 0 (Some 12%positive)) _ _ eq_refl) 12%positive)) _ _).
  - discriminate.
  - intros s Hs.
    apply elem_of_cons in Hs as [->|Hs];
      [|apply elem_of_cons in Hs as [->|Hs];
        [|apply elem_of_cons in Hs as [->|Hs]; [|by apply elem_of_nil in Hs]]].
    + exists 5%positive. eexists. split_and!; [reflexivity|reflexivity|].
      apply NoDup_singleton.
    + exists 9%positive. eexists. split_and!; [reflexivity|reflexivity|].
      apply NoDup_nil_2.
    + exists 15%positive. eexists. split_and!; [reflexivity|reflexivity|].
      apply NoDup_singleton.
  - exists 3%positive. split; [apply list_elem_of_here|reflexivity].
  - exists 4%positive. split; [|reflexivity].
    apply list_elem_of_further, list_elem_of_here.
Defined.

(** ** C8: coercing a group to the type two levels below it *)

Section CoerceDown.
Context `{InterfaceItems}.
Variable model : SimplexModel.t.
Variable h : Heap.
Variable t : Z.

Local Arguments indexDepth : simpl never.
Local Arguments childIndexes : simpl never.

Lemma descendLoop_nil (fuel : nat) (ds : list QModelIndex) :
  descendLoop model h fuel t [] ds = Some (Ok ds).
Proof. by destruct fuel. Qed.

Lemma descendLoop_snoc (fuel : nat) (q ds : list QModelIndex) (x : QModelIndex) :
  descendLoop model h (S fuel) t (q ++ [x]) ds
  = match descendStep model h t q ds x with
    | Raise e => Some (Raise e)
    | Ok (q', ds') => descendLoop model h fuel t q' ds'
    end.
Proof. simpl. by rewrite reverse_snoc, reverse_involutive. Qed.

Lemma descendStep_settled (q ds : list QModelIndex) (x : QModelIndex) :
  settled h t x →
  descendStep model h t q ds x
  = Ok (q, ds ++ filter (λ y, atDepth h t y) [x]).
Proof.
  intros (d & Hd & Hle). unfold descendStep. rewrite Hd. simpl.
  rewrite decide_False by lia.
  rewrite filter_cons, filter_nil. unfold atDepth. rewrite Hd.
  destruct (decide (d = t)) as [->|Hne].
  - rewrite bool_decide_eq_true_2 by done. by rewrite decide_True.
  - rewrite bool_decide_eq_false_2 by done.
    rewrite decide_False by (by intros []). by rewrite app_nil_r.
Qed.

(** Settled indexes at the end of the queue are popped one by one, last
    one first; those at the target depth are collected. *)
Lemma descendLoop_settled (leaves q ds : list QModelIndex) (fuel : nat) :
  Forall (settled h t) leaves →
  descendLoop model h (length leaves + fuel) t (q ++ leaves) ds
  = descendLoop model h fuel t q
      (ds ++ filter (λ y, atDepth h t y) (reverse leaves)).
Proof.
  revert ds. induction leaves as [|x leaves IH] using rev_ind; intros ds Hall.
  - simpl. by rewrite !app_nil_r.
  - rewrite Forall_app, Forall_singleton in Hall. destruct Hall as [Hall Hx].
    rewrite length_app, app_assoc. simpl.
    replace (length leaves + 1 + fuel)%nat with (S (length leaves + fuel)) by lia.
    rewrite descendLoop_snoc, (descendStep_settled _ _ _ Hx).
    rewrite (IH _ Hall), reverse_snoc.
    by rewrite <- app_assoc, <- filter_app.
Qed.

Lemma descendStep_lastStep (q ds : list QModelIndex) (x : QModelIndex) :
  lastStep model h t x →
  descendStep model h t q ds x = Ok (q ++ kids model h x, ds).
Proof.
  intros [(d & Hd & Hlt) (cs & Hcs & _)]. unfold descendStep, kids.
  rewrite Hd. simpl. rewrite decide_True by done. by rewrite Hcs.
Qed.

Lemma lastStep_kids (x : QModelIndex) :
  lastStep model h t x → Forall (settled h t) (kids model h x).
Proof. intros [_ (cs & Hcs & Hall)]. unfold kids. by rewrite Hcs. Qed.

(** Indexes one step above the target at the end of the queue: each is
    popped, its children are queued and popped in turn. *)
Lemma descendLoop_lastStep (ns q ds : list QModelIndex) (fuel : nat) :
  Forall (lastStep model h t) ns →
  descendLoop model h (length ns + length (ns ≫= kids model h) + fuel) t
    (q ++ ns) ds
  = descendLoop model h fuel t q
      (ds ++ (reverse ns ≫= λ n,
                filter (λ y, atDepth h t y) (reverse (kids model h n)))).
Proof.
  revert ds. induction ns as [|n ns IH] using rev_ind; intros ds Hall.
  - simpl. by rewrite !app_nil_r.
  - rewrite Forall_app, Forall_singleton in Hall. destruct Hall as [Hall Hn].
    rewrite length_app, app_assoc, bind_app, length_app. simpl.
    rewrite app_nil_r.
    replace (length ns + 1 + (length (ns ≫= kids model h)
               + length (kids model h n)) + fuel)%nat
      with (S (length (kids model h n)
               + (length ns + length (ns ≫= kids model h) + fuel))) by lia.
    rewrite descendLoop_snoc, (descendStep_lastStep _ _ _ Hn).
    rewrite (descendLoop_settled _ _ _ _ (lastStep_kids _ Hn)).
    rewrite (IH _ Hall), reverse_snoc. simpl.
    by rewrite <- app_assoc.
Qed.

Lemma remove_dups_NoDup `{EqDecision A} (l : list A) :
  NoDup l → remove_dups l = l.
Proof.
  induction 1 as [|x l Hx Hnd IH]; [done|]. simpl.
  destruct (decide_rel (∈) x l); [done|by rewrite IH].
Qed.

End CoerceDown.

Section CoerceGroup.
Context `{InterfaceItems}.
Variable model : SimplexModel.t.
Variable h : Heap.

Local Arguments indexDepth : simpl never.
Local Arguments childIndexes : simpl never.
Local Arguments descendLoop : simpl never.

(** What the descent collects from the children [ns] of the start index:
    their children at the target depth, last child first. *)
Lemma coerceIndexToChildType_two_levels (typ : Kind) (gidx : QModelIndex)
  (ns : list QModelIndex) (extra : nat) :
  (∃ d, indexDepth h gidx = Ok d ∧ d < classDepth typ) →
  childIndexes model h gidx = Ok ns →
  Forall (lastStep model h (classDepth typ)) ns →
  coerceIndexToChildType model h
    (S (length ns + length (ns ≫= kids model h) + extra)) [gidx] typ
  = Some (Ok (list_set
       (reverse ns ≫= λ n,
          filter (λ y, atDepth h (classDepth typ) y)
            (reverse (kids model h n))))).
Proof.
  intros (d & Hd & Hlt) Hns Hall.
  unfold coerceIndexToChildType. cbn [coerceIndexToChildType_loop].
  rewrite Hd. rewrite decide_True by done.
  change [gidx] with ([] ++ [gidx]) at 1.
  rewrite descendLoop_snoc. unfold descendStep. rewrite Hd. simpl.
  rewrite decide_True by done. rewrite Hns. simpl.
  rewrite <- (app_nil_l ns) at 3.
  rewrite (descendLoop_lastStep model h (classDepth typ) ns [] [] extra Hall).
  by rewrite descendLoop_nil.
Qed.

(** Coercing one index to a type two levels below it: when the index lies
    above the target depth, its children do too and their children do not,
    then with enough fuel the result holds the children's children at the
    target depth, each of them once and nothing else. *)
Theorem coerce_two_levels_down (typ : Kind) (gidx : QModelIndex)
  (ns : list QModelIndex) (extra : nat) :
  (∃ d, indexDepth h gidx = Ok d ∧ d < classDepth typ) →
  childIndexes model h gidx = Ok ns →
  Forall (lastStep model h (classDepth typ)) ns →
  ∃ out,
    coerceIndexToType model h
      (S (length ns + length (ns ≫= kids model h) + extra)) [gidx] typ
    = Some (Ok out)
    ∧ NoDup out
    ∧ ∀ x, x ∈ out ↔ atDepth h (classDepth typ) x = true
                     ∧ ∃ n, n ∈ ns ∧ x ∈ kids model h n.
Proof.
  intros Hg Hns Hall. unfold coerceIndexToType.
  destruct Hg as (d & Hd & Hlt). cbn [classify]. rewrite Hd. simpl.
  rewrite decide_True by done. simpl.
  rewrite (coerceIndexToChildType_two_levels typ gidx ns extra) by eauto.
  unfold coerceIndexToParentType. simpl.
  eexists. split; [reflexivity|]. split; [apply NoDup_remove_dups|].
  intros x. unfold list_set. rewrite app_nil_r, !elem_of_remove_dups.
  rewrite list_elem_of_bind. split.
  - intros (n & Hx & Hn). apply list_elem_of_filter in Hx as [Hx1 Hx2].
    split; [by apply Is_true_true|].
    exists n. by rewrite <- elem_of_reverse, <- (elem_of_reverse x).
  - intros (Hx1 & n & Hn & Hx). exists n. split; [|by apply elem_of_reverse].
    apply list_elem_of_filter. split; [by apply Is_true_true|].
    by apply elem_of_reverse.
Qed.

End CoerceGroup.

Lemma coerce_two_levels_down_witness :
  ∃ out,
    coerceIndexToType (H := Rig.items) Rig.model Rig.heap 8
      [createIndex 0 0 (Some 2%positive)] KProgPair = Some (Ok out)
    ∧ NoDup out.
Proof.
  destruct (coerce_two_levels_down (H := Rig.items) Rig.model Rig.heap KProgPair
    (createIndex 0 0 (Some 2%positive))
    [createIndex 0 0 (Some 3%positive); createIndex 1 0 (Some 4%positive)] 0)
    as (out & Hout & Hnd & _).
  - exists 1. split; [reflexivity|]. vm_compute. reflexivity.
  - reflexivity.
  - repeat constructor.
    + exists 4. split; [reflexivity|]. vm_compute. reflexivity.
    + eexists. split; [reflexivity|].
      repeat constructor; (exists 8; split; [reflexivity|]; vm_compute; discriminate).
    + exists 4. split; [reflexivity|]. vm_compute. reflexivity.
    + eexists. split; [reflexivity|].
      repeat constructor; (exists 8; split; [reflexivity|]; vm_compute; discriminate).
  - exists out. split; [exact Hout|exact Hnd].
Defined.

(** The group of the sample rig with two sliders of three and of two shape
    targets yields five indexes. *)
Lemma coerce_group_to_shape_targets :
  length <$> (coerceIndexToType (H := Rig.items) Rig.model Rig.heap 8
                [createIndex 0 0 (Some 2%positive)] KProgPair
              ≫= λ r, match r with Ok out => Some out | Raise _ => None end)
  = Some 5%nat.
Proof. by vm_compute. Qed.

(** ** C8: a group selection coerced two levels down *)

Section CoerceGroupSelection.
Context `{InterfaceItems}.
Variable model : SimplexModel.t.
Variable h : Heap.

Local Arguments indexDepth : simpl never.
Local Arguments childIndexes : simpl never.
Local Arguments descendLoop : simpl never.

(** C8.  The selection is one index of a Group, and the target type lies two
    levels below it: the group is above the target depth, so are the
    group's children [ns], and the children of those are not.  Then, with
    enough fuel for the loop, [coerceIndexToType] returns a list that holds
    each index once, and holds exactly the indexes at the target depth
    among the children of the group's children.  When these grandchildren
    are all at the target depth and pairwise different, the result has as
    many indexes as there are grandchildren: 3 + 2 = 5 for a group of two
    sliders with three and two shape targets. *)
Theorem coerce_group_selection (typ : Kind) (gidx : QModelIndex) (g : Ref)
  (G : Group.t) (ns : list QModelIndex) (extra : nat) :
  hasModel gidx = true →
  internalPointer gidx = Some g →
  h !! g = Some (OGroup G) →
  classDepth KGroup < classDepth typ →
  childIndexes model h gidx = Ok ns →
  Forall (lastStep model h (classDepth typ)) ns →
  ∃ out,
    coerceIndexToType model h
      (S (length ns + length (ns ≫= kids model h) + extra)) [gidx] typ
    = Some (Ok out)
    ∧ NoDup out
    ∧ (∀ x, x ∈ out ↔ atDepth h (classDepth typ) x = true
                      ∧ ∃ n, n ∈ ns ∧ x ∈ kids model h n)
    ∧ (NoDup (ns ≫= kids model h) →
       Forall (λ x, atDepth h (classDepth typ) x = true) (ns ≫= kids model h) →
       out ≡ₚ ns ≫= kids model h
       ∧ length out = sum_list (length ∘ kids model h <$> ns)).
Proof.
  intros Hm Hp Hg Hlt Hns Hall.
  assert (Hd : indexDepth h gidx = Ok (classDepth KGroup)).
  { unfold indexDepth, itemOf, ContextModel.itemFromIndex. rewrite Hm, Hp.
    simpl. unfold depthOf, deref. simpl. by rewrite Hg. }
  unfold coerceIndexToType. cbn [classify]. rewrite Hd. simpl.
  rewrite decide_True by done. simpl.
  rewrite (coerceIndexToChildType_two_levels model h typ gidx ns extra)
    by eauto.
  unfold coerceIndexToParentType. simpl.
  eexists. split; [reflexivity|].
  assert (Hmem : ∀ x,
    x ∈ list_set
          (list_set
             (reverse ns ≫= λ n,
                filter (λ y, atDepth h (classDepth typ) y)
                  (reverse (kids model h n))) ++ [])
    ↔ atDepth h (classDepth typ) x = true
      ∧ ∃ n, n ∈ ns ∧ x ∈ kids model h n).
  { intros x. unfold list_set. rewrite app_nil_r, !elem_of_remove_dups.
    rewrite list_elem_of_bind. split.
    - intros (n & Hx & Hn). apply list_elem_of_filter in Hx as [Hx1 Hx2].
      split; [by apply Is_true_true|].
      exists n. by rewrite <- elem_of_reverse, <- (elem_of_reverse x).
    - intros (Hx1 & n & Hn & Hx). exists n. split; [|by apply elem_of_reverse].
      apply list_elem_of_filter. split; [by apply Is_true_true|].
      by apply elem_of_reverse. }
  split; [apply NoDup_remove_dups|]. split; [exact Hmem|].
  intros Hnd Hdepth.
  assert (Hperm :
    list_set
      (list_set
         (reverse ns ≫= λ n,
            filter (λ y, atDepth h (classDepth typ) y)
              (reverse (kids model h n))) ++ [])
    ≡ₚ ns ≫= kids model h).
  { apply NoDup_Permutation; [apply NoDup_remove_dups|exact Hnd|].
    intros x. rewrite Hmem, list_elem_of_bind. split.
    - intros (_ & n & Hn & Hx). eauto.
    - intros (n & Hx & Hn). split; [|eauto].
      rewrite Forall_forall in Hdepth. apply Hdepth.
      apply list_elem_of_bind. eauto. }
  split; [exact Hperm|].
  rewrite Hperm. clear. induction ns as [|n l IH]; [done|].
  by rewrite bind_cons, length_app, fmap_cons, IH.
Qed.

End CoerceGroupSelection.

Lemma coerce_group_selection_witness :
  ∃ out,
    coerceIndexToType (H := Rig.items) Rig.model Rig.heap 8
      [createIndex 0 0 (Some 2%positive)] KProgPair = Some (Ok out)
    ∧ length out = 5%nat.
Proof.
  destruct (coerce_group_selection (H := Rig.items) Rig.model Rig.heap
    KProgPair (createIndex 0 0 (Some 2%positive)) 2%positive
    (Group.mk (VStr "Sliders") KSlider (Some 1%positive) [3%positive; 4%positive])
    [createIndex 0 0 (Some 3%positive); createIndex 1 0 (Some 4%positive)] 0)
    as (out & Hout & _ & _ & Hlen).
  - reflexivity.
  - reflexivity.
  - reflexivity.
  - vm_compute. reflexivity.
  - reflexivity.
  - repeat constructor.
    + exists 4. split; [reflexivity|]. vm_compute. reflexivity.
    + eexists. split; [reflexivity|].
      repeat constructor; (exists 8; split; [reflexivity|]; vm_compute; discriminate).
    + exists 4. split; [reflexivity|]. vm_compute. reflexivity.
    + eexists. split; [reflexivity|].
      repeat constructor; (exists 8; split; [reflexivity|]; vm_compute; discriminate).
  - exists out. split; [exact Hout|].
    apply Hlen.
    + apply (bool_decide_unpack _ (dec := NoDup_dec _)). vm_compute. exact I.
    + repeat constructor.
Defined.

(** * Further properties of the tree model *)

Section Navigator.
Context `{InterfaceItems}.
Variable self : SimplexModel.t.
Variable h : Heap.

Lemma py_index_cases `{EqDecision A} (l : list A) (x : A) :
  (∃ i, py_index l x = Ok i ∧ 0 ≤ i) ∨ py_index l x = Raise ValueError.
Proof.
  induction l as [|y l IH]; simpl; [by right|].
  destruct (decide (y = x)); [left; by exists 0|].
  destruct IH as [(i & -> & Hi)| ->]; simpl; [|by right].
  left. exists (1 + i). split; [done|lia].
Qed.

Lemma row_of_index (ls : Res (list Ref)) (i : Ref) :
  (ls = Raise AttributeError ∨ ∃ l, ls = Ok l) →
  ∃ r, SimplexModel.except_Value_Attribute (l ← ls; Some <$> py_index l i) = Ok r
       ∧ ∀ z, r = Some z → 0 ≤ z.
Proof.
  intros [->|(l & ->)]; simpl; [by exists None|].
  destruct (py_index_cases l i) as [(z & -> & Hz)| ->]; simpl.
  - exists (Some z). split; [done|]. by intros ? [= <-].
  - by exists None.
Qed.

Lemma attr_items_cases (x : option Ref) :
  attr_items h x = Raise AttributeError ∨ ∃ l, attr_items h x = Ok l.
Proof. unfold attr_items. destruct (deref h x) as [[]|]; eauto. Qed.

Lemma attr_pairs_cases (x : option Ref) :
  attr_pairs h x = Raise AttributeError ∨ ∃ l, attr_pairs h x = Ok l.
Proof. unfold attr_pairs. destruct (deref h x) as [[]|]; eauto. Qed.

Lemma attr_allGroups_cases (x : option Ref) :
  attr_allGroups h x = Raise AttributeError ∨ ∃ l, attr_allGroups h x = Ok l.
Proof. unfold attr_allGroups. destruct (deref h x) as [[]|]; eauto. Qed.

Lemma getItemRow_cases (item : option Ref) :
  ∃ r, SimplexModel.getItemRow h item = Ok r
       ∧ (isinstance h item [KTravPair] = false → ∀ z, r = Some z → 0 ≤ z).
Proof.
  unfold SimplexModel.getItemRow.
  destruct item as [i|]; [|by exists None].
  destruct (h !! i) as [o|] eqn:Hi; [|by exists None].
  destruct o; try (by exists None).
  - exists (Some 0). split; [done|]. by intros _ z [= <-].
  - destruct (row_of_index _ i (attr_allGroups_cases (Group.simplex o)))
      as (r & -> & Hr). exists r. split; [done|]. by intros _.
  - destruct (row_of_index _ i (attr_items_cases (Slider.group o)))
      as (r & -> & Hr). exists r. split; [done|]. by intros _.
  - destruct (row_of_index _ i (attr_items_cases (Combo.group o)))
      as (r & -> & Hr). exists r. split; [done|]. by intros _.
  - destruct (row_of_index _ i (attr_items_cases (Traversal.group o)))
      as (r & -> & Hr). exists r. split; [done|]. by intros _.
  - destruct (row_of_index _ i (attr_pairs_cases (ComboPair.combo o)))
      as (r & -> & Hr). exists r. split; [done|]. by intros _.
  - eexists. split; [reflexivity|].
    unfold isinstance, deref. simpl. rewrite Hi. simpl. intros Hk.
    vm_compute in Hk. discriminate Hk.
  - simpl.
    destruct (isinstance h (Progression.controller o) [KSlider]);
      [|destruct (isinstance h (Progression.controller o) [KCombo]);
        [|destruct (isinstance h (Progression.controller o) [KTraversal])]];
      eexists; (split; [reflexivity|]); intros _ z [= <-]; unfold len; lia.
  - destruct (row_of_index _ i (attr_pairs_cases (ProgPair.prog o)))
      as (r & -> & Hr). exists r. split; [done|]. by intros _.
Qed.

(** [getItemRow] never raises: a lookup that fails gives no row.  The row it
    gives is never negative, save for a traversal pair, whose row is what
    [usageIndex] answers. *)
Theorem getItemRow_never_raises (item : option Ref) :
  ∃ r, SimplexModel.getItemRow h item = Ok r
       ∧ (isinstance h item [KTravPair] = false → ∀ z, r = Some z → 0 ≤ z).
Proof. apply getItemRow_cases. Qed.

(** An item's index leads back to the item: [indexFromItem] never raises,
    a valid index it returns points to the item and has the column asked
    for, and (for an item that is no traversal pair, and a column that is
    not negative) the index is valid exactly when the item has a row. *)
Theorem indexFromItem_roundtrip (item : option Ref) (col : Z) :
  ∃ idx, ContextModel.indexFromItem self h item col = Ok idx
    ∧ (isValid idx = true →
       ContextModel.itemFromIndex idx = item ∧ column idx = col)
    ∧ (isinstance h item [KTravPair] = false → 0 ≤ col →
       (isValid idx = true ↔ SimplexModel.getItemRow h item ≠ Ok None)).
Proof.
  unfold ContextModel.indexFromItem. simpl.
  destruct (getItemRow_cases item) as (r & Hr & Hpos). rewrite Hr. simpl.
  destruct r as [z|].
  - eexists. split; [reflexivity|]. split; [done|].
    intros Hk Hcol. specialize (Hpos Hk z eq_refl).
    unfold isValid. simpl.
    rewrite !bool_decide_eq_true_2 by done. done.
  - exists invalidIndex. split; [done|]. split; [done|].
    intros _ _. split; [done|]. by intros [].
Qed.

Lemma except_getitem_subscript (l : list Ref) (row : Z) :
  SimplexModel.except_IndexError (Some <$> py_getitem l row)
  = Ok (subscript l row).
Proof.
  unfold py_getitem, subscript, len. cbv zeta.
  destruct (decide (row < 0)) as [Hneg|Hpos].
  - rewrite (decide_False (P := 0 ≤ row < _)) by lia.
    destruct (decide (0 ≤ Z.of_nat (length l) + row < Z.of_nat (length l)))
      as [Hin|Hout].
    + rewrite decide_True by lia.
      destruct (l !! Z.to_nat (Z.of_nat (length l) + row)) eqn:E; [done|].
      apply lookup_ge_None in E. lia.
    + by rewrite decide_False by lia.
  - destruct (decide (0 ≤ row < Z.of_nat (length l))) as [Hin|Hout].
    + destruct (l !! Z.to_nat row) eqn:E; [done|].
      apply lookup_ge_None in E. lia.
    + by rewrite decide_False by lia.
Qed.

(** The children of the simplex, of a group and of a progression are the
    elements of one list.  [getChildItem] answers the element a Python
    subscript addresses: a row from 0 up to the length gives that child, a
    negative row down to minus the length counts from the end, and any other
    row gives [None] and no exception. *)
Theorem getChildItem_subscript (p : Ref) (l : list Ref) (row : Z) :
  childList h p = Some l →
  SimplexModel.getChildItem self h (Some p) row = Ok (subscript l row).
Proof.
  unfold childList, SimplexModel.getChildItem.
  destruct (h !! p) as [[]|]; intros [= <-]; apply except_getitem_subscript.
Qed.

(** The items of a group: when a group lists its items once each and the
    item at position [i] names the group as its group, then the item is the
    group's child at row [i], the group is its parent and [i] is its row;
    and the parent of the item's index is the group's index. *)
Theorem group_child_roundtrip (g c : Ref) (G : Group.t) (o : Obj) (i : nat) :
  h !! g = Some (OGroup G) →
  NoDup (Group.items G) →
  Group.items G !! i = Some c →
  h !! c = Some o →
  group_of o = Some (Some g) →
  SimplexModel.getChildItem self h (Some g) (Z.of_nat i) = Ok (Some c)
  ∧ SimplexModel.getParentItem h (Some c) = Ok (Some g)
  ∧ SimplexModel.getItemRow h (Some c) = Ok (Some (Z.of_nat i))
  ∧ ∀ j col, SimplexModel.getItemRow h (Some g) = Ok (Some j) → 0 ≤ col →
      SimplexModel.parent h (createIndex (Z.of_nat i) col (Some c))
      = Ok (createIndex j 0 (Some g)).
Proof.
  intros Hg Hnd Hi Hc Ho.
  assert (SimplexModel.getParentItem h (Some c) = Ok (Some g)) as Hpar.
  { unfold SimplexModel.getParentItem, deref. simpl. rewrite Hc.
    destruct o; simpl in Ho; try done; by injection Ho as ->. }
  split_and!.
  - unfold SimplexModel.getChildItem. rewrite Hg.
    by rewrite (py_getitem_lookup _ _ _ Hi).
  - done.
  - unfold SimplexModel.getItemRow. rewrite Hc.
    destruct o; simpl in Ho; try done; injection Ho as ->;
      unfold attr_items, deref; simpl; rewrite Hg; simpl;
      by rewrite (py_index_NoDup _ _ _ Hnd Hi).
  - intros j col Hj Hcol. unfold SimplexModel.parent, isValid. simpl.
    rewrite !bool_decide_eq_true_2 by lia. simpl.
    rewrite Hpar. simpl. by rewrite Hj.
Qed.

(** The shape targets of a slider hang under the slider itself: for a
    slider whose progression names it as controller and lists its targets
    once each, the target at position [i] is the slider's child at row [i],
    its parent is the slider, not the progression, and its row is [i]. *)
Theorem slider_shape_roundtrip (s p c : Ref) (S : Slider.t)
  (P : Progression.t) (C : ProgPair.t) (i : nat) :
  h !! s = Some (OSlider S) →
  Slider.prog S = Some p →
  h !! p = Some (OProgression P) →
  Progression.controller P = Some s →
  NoDup (Progression.pairs P) →
  Progression.pairs P !! i = Some c →
  h !! c = Some (OProgPair C) →
  ProgPair.prog C = Some p →
  SimplexModel.getItemRowCount h (Some s) = Ok (len (Progression.pairs P))
  ∧ SimplexModel.getChildItem self h (Some s) (Z.of_nat i) = Ok (Some c)
  ∧ SimplexModel.getParentItem h (Some c) = Ok (Some s)
  ∧ SimplexModel.getItemRow h (Some c) = Ok (Some (Z.of_nat i)).
Proof.
  intros Hs Hprog Hp Hctrl Hnd Hi Hc Hcp.
  assert (attr_pairs h (Some p) = Ok (Progression.pairs P)) as Hpairs
    by (unfold attr_pairs, deref; simpl; by rewrite Hp).
  split_and!.
  - unfold SimplexModel.getItemRowCount. by rewrite Hs, Hprog, Hpairs.
  - unfold SimplexModel.getChildItem. rewrite Hs, Hprog, Hpairs. simpl.
    by rewrite (py_getitem_lookup _ _ _ Hi).
  - unfold SimplexModel.getParentItem, deref. simpl. rewrite Hc, Hcp.
    unfold attr_controller, deref. simpl. rewrite Hp, Hctrl. simpl.
    unfold isinstance, deref. simpl. by rewrite Hs.
  - unfold SimplexModel.getItemRow. rewrite Hc, Hcp, Hpairs. simpl.
    by rewrite (py_index_NoDup _ _ _ Hnd Hi).
Qed.

End Navigator.

Lemma getChildItem_subscript_witness :
  SimplexModel.getChildItem Rig.model Rig.heap (Some 2%positive) (-1)
  = Ok (Some 4%positive)
  ∧ SimplexModel.getChildItem Rig.model Rig.heap (Some 2%positive) 2 = Ok None.
Proof.
  split.
  - exact (getChildItem_subscript Rig.model Rig.heap 2%positive
             [3%positive; 4%positive] (-1) eq_refl).
  - exact (getChildItem_subscript Rig.model Rig.heap 2%positive
             [3%positive; 4%positive] 2 eq_refl).
Defined.

Lemma group_child_roundtrip_witness :
  SimplexModel.getItemRow (H := Rig.items) Rig.heap (Some 4%positive)
  = Ok (Some 1).
Proof.
  refine (proj1 (proj2 (proj2 (group_child_roundtrip (H := Rig.items)
    Rig.model Rig.heap 2%positive 4%positive _ _ 1 eq_refl _ eq_refl eq_refl
    eq_refl)))).
  apply NoDup_cons. split; [|apply NoDup_singleton].
  intros Hin. apply list_elem_of_singleton in Hin. discriminate Hin.
Defined.

Lemma slider_shape_roundtrip_witness :
  SimplexModel.getParentItem Rig.heap (Some 7%positive) = Ok (Some 3%positive).
Proof.
  refine (proj1 (proj2 (proj2 (slider_shape_roundtrip (H := Rig.items)
    Rig.model Rig.heap 3%positive 5%positive 7%positive _ _ _ 1
    eq_refl eq_refl eq_refl eq_refl _ eq_refl eq_refl eq_refl)))).
  apply (bool_decide_unpack _). by vm_compute.
Defined.

(** * Further properties of the change brackets *)

Section RemoveBracket.
Context `{ContextModel.Ops Self}.
Variable self : Self.

Local Arguments ContextModel.indexFromItem : simpl never.

(** The remove bracket resolves the item before the body runs.  For an item
    without a valid index it is the body alone; for an item with one it
    announces the item's row under the parent of the item's index, both as
    they are before the body runs, and ends with the end signal whatever
    the body does. *)
Theorem removeItemManager_runs {A} (item : option Ref) (body : M A) (w : World)
  (idx : QModelIndex) :
  ContextModel.indexFromItem self (heap w) item 0 = Ok idx →
  (isValid idx = false →
   ContextModel.removeItemManager self item body w = body w)
  ∧ (∀ parIdx r w2,
       isValid idx = true →
       ContextModel.parent self (heap w) idx = Ok parIdx →
       body (mkWorld (heap w)
               (signals w ++ [beginRemoveRows parIdx (row idx) (row idx)]))
       = (r, w2) →
       ContextModel.removeItemManager self item body w
       = (r, mkWorld (heap w2) (signals w2 ++ [endRemoveRows]))).
Proof.
  intros Hidx.
  unfold ContextModel.removeItemManager, ContextModel.contextmanager,
    ContextModel.removeItemManager_enter, ContextModel.removeItemManager_exit,
    liftRes, emit, when.
  split.
  - intros Hv. rewrite !bind_run, Hidx. simpl. rewrite Hv.
    rewrite !bind_run. simpl. rewrite Hv. apply try_finally_skip.
  - intros parIdx r w2 Hv Hpar Hbody.
    rewrite !bind_run, Hidx. simpl. rewrite Hv.
    rewrite !bind_run, Hpar. simpl. rewrite Hv.
    unfold try_finally. by rewrite Hbody.
Qed.

End RemoveBracket.

Lemma removeItemManager_runs_witness :
  ContextModel.removeItemManager
    (H := SimplexModel.contextModel (H := Rig.items)) Rig.model
    (Some 4%positive) Rig.failing Rig.world
  = (Raise ValueError,
     mkWorld Rig.heap
       [beginRemoveRows (createIndex 0 0 (Some 2%positive)) 1 1; endRemoveRows]).
Proof.
  refine (proj2 (removeItemManager_runs
    (H := SimplexModel.contextModel (H := Rig.items)) Rig.model
    (Some 4%positive) Rig.failing Rig.world (createIndex 1 0 (Some 4%positive))
    eq_refl) (createIndex 0 0 (Some 2%positive)) (Raise ValueError) _
    eq_refl eq_refl eq_refl).
Defined.

Lemma attr_falloffs_cases (h : Heap) (x : option Ref) :
  attr_falloffs h x = Raise AttributeError ∨ ∃ l, attr_falloffs h x = Ok l.
Proof. unfold attr_falloffs. destruct (deref h x) as [[]|]; eauto. Qed.

Lemma insert_invalid_parent `{ContextModel.Ops Self} (self : Self) {A}
  (parent : option Ref) (row : Z) (body : M A) (w : World) :
  ContextModel.indexFromItem self (heap w) parent 0 = Ok invalidIndex →
  ContextModel.insertItemManager self parent row body w = body w.
Proof.
  intros Hidx.
  unfold ContextModel.insertItemManager, ContextModel.contextmanager,
    ContextModel.insertItemManager_enter, ContextModel.insertItemManager_exit,
    liftRes, emit, when.
  rewrite !bind_run, Hidx. simpl. apply try_finally_skip.
Qed.

(** In the three flat models a row sits under no item: the parent handed to
    the insert bracket is [None].  [None] has no row in these models, so the
    bracket announces nothing: it is the body alone. *)
Theorem flat_insert_never_signals {A} (h : Heap) (signals0 : list Signal)
  (row : Z) (body : M A) :
  let w := mkWorld h signals0 in
  (∀ self : FalloffModel.t,
     ContextModel.insertItemManager self None row body w = body w)
  ∧ (∀ self : FalloffDataModel.t,
       ContextModel.insertItemManager self None row body w = body w)
  ∧ (∀ self : SliderGroupModel.t,
       (∃ groups, attr_sliderGroups h (SliderGroupModel.simplex self) = Ok groups) →
       ContextModel.insertItemManager self None row body w = body w).
Proof.
  intros w. split_and!.
  - intros self. apply insert_invalid_parent.
    unfold ContextModel.indexFromItem. simpl.
    unfold FalloffModelRows.getItemRow.
    by destruct (attr_falloffs_cases h (FalloffModel.simplex self))
      as [->|(fos & ->)].
  - intros self. apply insert_invalid_parent.
    unfold ContextModel.indexFromItem. simpl.
    unfold FalloffDataModel.getItemRow.
    by destruct (attr_falloffs_cases h (FalloffDataModel.simplex self))
      as [->|(fos & ->)].
  - intros self (groups & Hg). apply insert_invalid_parent.
    unfold ContextModel.indexFromItem. simpl.
    unfold SliderGroupModel.getItemRow. by rewrite Hg.
Qed.

Lemma flat_insert_never_signals_witness :
  ContextModel.insertItemManager (SliderGroupModel.mk (Some 1%positive))
    None (-1) Rig.failing Rig.world
  = (Raise ValueError, Rig.world).
Proof.
  refine (proj2 (proj2 (flat_insert_never_signals Rig.heap [] (-1) Rig.failing))
    (SliderGroupModel.mk (Some 1%positive)) _).
  eexists. reflexivity.
Defined.

(** * Cells: data, flags and batched updates *)

Section Cells.
Import SimplexModelCells.

Lemma isinstance_alter (f : Obj → Obj) (h : Heap) (i : Ref) (o : Obj)
  (ks : list Kind) :
  h !! i = Some o →
  isinstance (alter f i h) (Some i) ks = bool_decide (kindOf (f o) ∈ ks).
Proof.
  intros Hi. unfold isinstance, deref. simpl.
  by rewrite lookup_alter_eq, Hi.
Qed.

Lemma deref_alter (f : Obj → Obj) (h : Heap) (i : Ref) (o : Obj) :
  h !! i = Some o → deref (alter f i h) (Some i) = Some (f o).
Proof. intros Hi. unfold deref. simpl. by rewrite lookup_alter_eq, Hi. Qed.

Lemma attr_name_alter (f : Obj → Obj) (h : Heap) (i : Ref) (o : Obj) :
  h !! i = Some o →
  attr_name (alter f i h) (Some i) = attr_name (<[i := f o]> h) (Some i).
Proof.
  intros Hi. unfold attr_name, deref. simpl.
  by rewrite lookup_alter_eq, lookup_insert_eq, Hi.
Qed.

Ltac run_setData Hv Hp Hi :=
  unfold SimplexModel.setData; rewrite Hv; simpl; rewrite bind_run; simpl;
  rewrite Hp, !(isinstance_kind _ _ _ _ Hi); unfold SimplexModel.assign.

(** What [setData] stores, [data] reads back.  After an edit of the name
    (column 0 of a slider, combo, traversal or shape target) or of the value
    (column 1 of a slider, combo pair or traversal pair, column 2 of a shape
    target), [data] answers the new value for the edit and the display
    role. *)
Theorem setData_then_data (index : QModelIndex) (value : Variant) (w : World)
  (item : Ref) (o : Obj) :
  isValid index = true →
  internalPointer index = Some item →
  heap w !! item = Some o →
  (column index = 0 ∧ kindOf o ∈ [KSlider; KCombo; KTraversal; KProgPair])
  ∨ (column index = 1 ∧ kindOf o ∈ [KSlider; KComboPair; KTravPair])
  ∨ (column index = 2 ∧ kindOf o = KProgPair) →
  let w' := (SimplexModel.setData index value EditRole w).2 in
  data (heap w') index EditRole = Some value
  ∧ data (heap w') index DisplayRole = Some value.
Proof.
  intros Hv Hp Hi Hcase. cbv zeta. run_setData Hv Hp Hi.
  unfold data. rewrite Hv, Hp. simpl. unfold getItemData.
  destruct Hcase as [[Hc Hk]|[[Hc Hk]|[Hc Hk]]]; rewrite Hc; simpl;
    destruct o; simpl in Hk; try (no_elem Hk); try discriminate Hk;
    simpl; rewrite ?bind_run; simpl;
    rewrite ?(isinstance_alter _ _ _ _ _ Hi), ?(deref_alter _ _ _ _ Hi),
      ?(attr_name_alter _ _ _ _ Hi);
    unfold attr_name, deref; simpl; rewrite ?lookup_insert_eq.
  all: try done.
  all: by rewrite lookup_alter_eq, Hi.
Qed.

(** A check-state edit of column 0 of a slider, combo or traversal is read
    back as checked when the value given was [Qt.Checked], and as unchecked
    for any other value. *)
Theorem setData_then_checkState (index : QModelIndex) (value : Variant)
  (w : World) (item : Ref) (o : Obj) :
  isValid index = true →
  internalPointer index = Some item →
  heap w !! item = Some o →
  column index = 0 →
  kindOf o ∈ [KSlider; KCombo; KTraversal] →
  let w' := (SimplexModel.setData index value CheckStateRole w).2 in
  data (heap w') index CheckStateRole
  = Some (VNum (if bool_decide (value = VNum Checked) then Checked
                else Unchecked)).
Proof.
  intros Hv Hp Hi Hc Hk. cbv zeta. run_setData Hv Hp Hi.
  unfold data. rewrite Hv, Hp. simpl. unfold getItemData.
  rewrite Hc. simpl.
  destruct o; simpl in Hk; try (no_elem Hk);
    simpl; rewrite ?bind_run; simpl;
    rewrite ?(isinstance_alter _ _ _ _ _ Hi), ?(deref_alter _ _ _ _ Hi);
    simpl.
  all: try done.
  all: unfold deref; simpl; rewrite lookup_alter_eq, Hi; simpl.
  all: done.
Qed.

(** The capabilities [flags] grants: every index is enabled; an index is
    selectable and editable exactly when it is valid; it can be checked
    exactly when it is valid, in column 0 and on a slider, combo or
    traversal. *)
Theorem flags_capabilities (h : Heap) (index : QModelIndex) :
  Z.land (flags h index) ItemIsEnabled = ItemIsEnabled
  ∧ (Z.land (flags h index) ItemIsSelectable ≠ 0 ↔ isValid index = true)
  ∧ (Z.land (flags h index) ItemIsEditable ≠ 0 ↔ isValid index = true)
  ∧ (Z.land (flags h index) ItemIsUserCheckable ≠ 0 ↔
     isValid index = true ∧ column index = 0
     ∧ isinstance h (internalPointer index) [KSlider; KCombo; KTraversal]
       = true).
Proof.
  unfold flags. destruct (isValid index); simpl.
  2:{ split_and!; [done|..]; (split; [by intros []|]); try done.
      by intros [? _]. }
  destruct (decide (column index = 0)) as [Hc|Hc].
  - rewrite bool_decide_eq_true_2 by done. simpl.
    destruct (isinstance h (internalPointer index) [KSlider; KCombo; KTraversal]);
      split_and!; try done; try (split; [done|by intros [? [? ?]]]).
  - rewrite bool_decide_eq_false_2 by done. simpl.
    split_and!; try done. split; [by intros []|]. by intros (_ & ? & _).
Qed.

Lemma isinstance_exclusive (h : Heap) (x : option Ref) (k1 k2 : Kind) :
  k1 ≠ k2 → isinstance h x [k1] = true → isinstance h x [k2] = false.
Proof.
  unfold isinstance. destruct (deref h x) as [o|]; [|done].
  intros Hne H1. apply bool_decide_eq_true in H1.
  apply list_elem_of_singleton in H1.
  apply bool_decide_eq_false. rewrite list_elem_of_singleton. congruence.
Qed.

Lemma sortPairs_filter (h : Heap) (l s p c : list (option Ref * Variant)) :
  sortPairs h l s p c
  = (s ++ filter (λ i, isinstance h i.1 [KSlider]) l,
     p ++ filter (λ i, isinstance h i.1 [KProgPair]) l,
     c ++ filter (λ i, isinstance h i.1 [KComboPair]) l).
Proof.
  revert s p c. induction l as [|i l IH]; intros s p c.
  - by rewrite !filter_nil, !app_nil_r.
  - cbn [sortPairs]. rewrite !filter_cons.
    destruct (isinstance h i.1 [KSlider]) eqn:Hs.
    { rewrite (isinstance_exclusive h i.1 KSlider KProgPair) by done.
      rewrite (isinstance_exclusive h i.1 KSlider KComboPair) by done.
      rewrite IH. rewrite decide_True by done.
      rewrite !decide_False by (by intros []). by rewrite <- app_assoc. }
    destruct (isinstance h i.1 [KProgPair]) eqn:Hp.
    { rewrite (isinstance_exclusive h i.1 KProgPair KComboPair) by done.
      rewrite IH. rewrite decide_False by (by intros []).
      rewrite decide_True by done.
      rewrite decide_False by (by intros []). by rewrite <- app_assoc. }
    destruct (isinstance h i.1 [KComboPair]) eqn:Hc.
    { rewrite IH. rewrite !decide_False by (by intros []).
      rewrite decide_True by done. by rewrite <- app_assoc. }
    rewrite IH. by rewrite !decide_False by (by intros []).
Qed.

(** [updateTickValues] makes at most one call per kind of item, in the
    order shapes, sliders, combos.  A call carries all the pairs of its
    kind, in the order they came in; a kind without pairs gets no call, and
    pairs of any other kind are dropped. *)
Theorem updateTickValues_batches (h : Heap)
  (updatePairs : list (option Ref * Variant)) :
  let batch k := filter (λ i, isinstance h i.1 [k]) updatePairs in
  let call (f : list (option Ref) → list Variant → SimplexCall) b :=
    match b with
    | [] => []
    | _ => [f (fst <$> b) (snd <$> b)]
    end in
  updateTickValues h updatePairs
  = call setShapesValues (batch KProgPair)
    ++ call setSlidersWeights (batch KSlider)
    ++ call setCombosValues (batch KComboPair)
  ∧ (length (updateTickValues h updatePairs) ≤ 3)%nat.
Proof.
  cbv zeta. unfold updateTickValues.
  rewrite sortPairs_filter. simpl.
  split; [done|].
  rewrite !length_app.
  repeat match goal with |- context [match ?b with [] => _ | _ => _ end] =>
    destruct b end; simpl; lia.
Qed.

End Cells.

Lemma setData_then_data_witness :
  SimplexModelCells.data
    (heap (SimplexModel.setData (createIndex 0 1 (Some 3%positive)) (VNum 7)
             EditRole Rig.world).2)
    (createIndex 0 1 (Some 3%positive)) EditRole
  = Some (VNum 7).
Proof.
  refine (proj1 (setData_then_data (createIndex 0 1 (Some 3%positive)) (VNum 7)
    Rig.world 3%positive _ eq_refl eq_refl eq_refl _)).
  right. left. split; [reflexivity|]. simpl. apply list_elem_of_here.
Defined.

Lemma setData_then_checkState_witness :
  SimplexModelCells.data
    (heap (SimplexModel.setData (createIndex 0 0 (Some 3%positive)) (VNum 0)
             CheckStateRole Rig.world).2)
    (createIndex 0 0 (Some 3%positive)) CheckStateRole
  = Some (VNum Unchecked).
Proof.
  refine (setData_then_checkState (createIndex 0 0 (Some 3%positive)) (VNum 0)
    Rig.world 3%positive _ eq_refl eq_refl eq_refl eq_refl _).
  simpl. apply list_elem_of_here.
Defined.

(** * The expressions the name filter compiles *)

Section Fuzzy.

Local Open Scope char_scope.

Lemma joined_pattern (sp : string) :
  list_ascii_of_string (py_join ".*?" (chars sp))
  = joinedChars (list_ascii_of_string sp).
Proof.
  induction sp as [|c s IH]; [done|].
  destruct s as [|c2 s2]; [done|].
  transitivity (c :: "." :: "*" :: "?"
                :: list_ascii_of_string (py_join ".*?" (chars (String c2 s2)))).
  - reflexivity.
  - by rewrite IH.
Qed.

Lemma plain_not_in (c : ascii) :
  plain c = true →
  c ≠ "." ∧ c ≠ "*" ∧ c ≠ "+" ∧ c ≠ "?" ∧ re.unsupported c = false.
Proof.
  unfold plain, re.unsupported. intros Hp.
  apply negb_true_iff, bool_decide_eq_false in Hp.
  rewrite !not_elem_of_cons in Hp.
  destruct Hp as (?&?&?&?&?&?&?&?&?&?&?&?&_).
  split_and!; try done.
  apply bool_decide_eq_false. rewrite !not_elem_of_cons.
  split_and!; try done. apply not_elem_of_nil.
Qed.

Lemma parse_plain (c : ascii) (rest : list ascii) (acc : list re.Item) :
  plain c = true →
  re.parse (c :: rest) acc
  = re.parse rest (re.mkItem (re.ALit c) re.QOne false :: acc).
Proof.
  intros Hp. destruct (plain_not_in c Hp) as (H1 & H2 & H3 & H4 & H5).
  cbn [re.parse]. unfold re.repeat_of.
  rewrite !decide_False by done. by rewrite H5.
Qed.

Lemma parse_span (rest : list ascii) (acc : list re.Item) (it : re.Item) :
  re.is_repeat it = false →
  re.parse ("." :: "*" :: "?" :: rest) (it :: acc)
  = re.parse rest (lazySpan :: it :: acc).
Proof. done. Qed.

(** Reading ['.*?'.join(sp)] for a token of plain characters. *)
Lemma parse_joined (cs : list ascii) (acc : list re.Item) :
  Forall (λ c, plain c = true) cs →
  re.parse (joinedChars cs) acc = Some (Ok (reverse acc ++ fuzzyItems cs)).
Proof.
  revert acc. induction cs as [|c cs IH]; intros acc Hall.
  - simpl. by rewrite app_nil_r.
  - apply Forall_cons in Hall as [Hc Hall].
    destruct cs as [|c2 cs'].
    + simpl joinedChars. rewrite parse_plain by done. simpl.
      by rewrite reverse_cons.
    + change (joinedChars (c :: c2 :: cs'))
        with (c :: "." :: "*" :: "?" :: joinedChars (c2 :: cs')).
      rewrite parse_plain by done. rewrite parse_span by done.
      rewrite (IH _ Hall). rewrite !reverse_cons, <- !app_assoc. done.
Qed.

(** A repeat character after plain characters follows a lazy span. *)
Lemma parse_joined_repeat (pre : list ascii) (q : ascii) (rest : list ascii)
  (acc : list re.Item) :
  pre ≠ [] →
  Forall (λ c, plain c = true) pre →
  q ∈ ["*"; "+"; "?"] →
  re.parse (joinedChars (pre ++ q :: rest)) acc
  = Some (Raise (ReError "multiple repeat")).
Proof.
  intros Hne Hall Hq. revert acc.
  induction pre as [|c pre IH]; intros acc; [done|].
  apply Forall_cons in Hall as [Hc Hall].
  assert (∃ y ys, pre ++ q :: rest = y :: ys) as (y & ys & Heq)
    by (destruct pre; simpl; eauto).
  change ((c :: pre) ++ q :: rest) with (c :: (pre ++ q :: rest)).
  rewrite Heq.
  change (joinedChars (c :: y :: ys))
    with (c :: "." :: "*" :: "?" :: joinedChars (y :: ys)).
  rewrite parse_plain by done. rewrite parse_span by done.
  rewrite <- Heq. destruct pre as [|c' pre'].
  - simpl app.
    assert (∃ tail, joinedChars (q :: rest) = q :: tail) as (tail & ->)
      by (destruct rest; simpl; eauto).
    cbn [re.parse].
    assert (∃ r, re.repeat_of q = Some r) as (r & ->).
    { unfold re.repeat_of.
      apply elem_of_cons in Hq as [->|Hq]; [by eexists|].
      apply elem_of_cons in Hq as [->|Hq]; [by eexists|].
      apply list_elem_of_singleton in Hq as ->. by eexists. }
    done.
  - by apply IH.
Qed.

Lemma match_here_span (ic : bool) (p : list re.Item) (s : list ascii) :
  re.match_here ic (lazySpan :: p) s = true ↔
  ∃ gap rest, s = gap ++ rest ∧ Forall (λ y, y ≠ "010") gap
              ∧ re.match_here ic p rest = true.
Proof.
  induction s as [|x s IH].
  - cbn. rewrite orb_false_r. split.
    + intros Hm. by exists [], [].
    + intros (gap & rest & Heq & _ & Hm).
      symmetry in Heq. apply app_eq_nil in Heq as [-> ->]. done.
  - change (re.match_here ic (lazySpan :: p) (x :: s))
      with (re.match_here ic p (x :: s)
            || (negb (bool_decide (x = "010"))
                && re.match_here ic (lazySpan :: p) s)).
    rewrite orb_true_iff, andb_true_iff, IH, negb_true_iff,
      bool_decide_eq_false. split.
    + intros [Hm|[Hx (gap & rest & -> & Hgap & Hm)]].
      * by exists [], (x :: s).
      * exists (x :: gap), rest. split_and!; [done| |done].
        by constructor.
    + intros (gap & rest & Heq & Hgap & Hm).
      destruct gap as [|y gap].
      * left. simpl in Heq. by subst.
      * right. simpl in Heq. injection Heq as <- ->.
        apply Forall_cons in Hgap as [Hy Hgap].
        split; [done|]. by exists gap, rest.
Qed.

Lemma match_here_lit (c : ascii) (p : list re.Item) (s : list ascii) :
  re.match_here true (re.mkItem (re.ALit c) re.QOne false :: p) s = true ↔
  ∃ x s', s = x :: s' ∧ re.lower c = re.lower x ∧ re.match_here true p s' = true.
Proof.
  destruct s as [|x s'].
  - split; [done|]. by intros (? & ? & ? & _).
  - change (re.match_here true (re.mkItem (re.ALit c) re.QOne false :: p)
              (x :: s'))
      with (bool_decide (re.lower c = re.lower x) && re.match_here true p s').
    rewrite andb_true_iff, bool_decide_eq_true. split.
    + intros [? ?]. by exists x, s'.
    + by intros (? & ? & [= <- <-] & ? & ?).
Qed.

Lemma match_here_fuzzy (cs : list ascii) (s : list ascii) :
  re.match_here true (fuzzyItems cs) s = true ↔ startsFuzzy cs s.
Proof.
  revert s. induction cs as [|c cs IH]; intros s; [done|].
  destruct cs as [|c2 cs'].
  - change (fuzzyItems [c]) with [re.mkItem (re.ALit c) re.QOne false].
    rewrite match_here_lit. simpl. split.
    + intros (x & s' & -> & Hc & _). by exists x, s'.
    + intros (x & post & -> & Hc). by exists x, post.
  - change (fuzzyItems (c :: c2 :: cs'))
      with (re.mkItem (re.ALit c) re.QOne false :: lazySpan
            :: fuzzyItems (c2 :: cs')).
    rewrite match_here_lit.
    change (startsFuzzy (c :: c2 :: cs') s)
      with (∃ x gap rest,
              s = x :: gap ++ rest ∧ re.lower c = re.lower x
              ∧ Forall (λ y, y ≠ "010") gap ∧ startsFuzzy (c2 :: cs') rest).
    split.
    + intros (x & s' & -> & Hc & Hm).
      apply match_here_span in Hm as (gap & rest & -> & Hgap & Hm).
      exists x, gap, rest. split_and!; try done. by apply IH.
    + intros (x & gap & rest & -> & Hc & Hgap & Hm).
      exists x, (gap ++ rest). split_and!; try done.
      apply match_here_span. exists gap, rest. split_and!; try done.
      by apply IH.
Qed.

Lemma search_from_spec (ic : bool) (p : list re.Item) (s : list ascii) :
  re.search_from ic p s = true ↔
  ∃ pre post, s = pre ++ post ∧ re.match_here ic p post = true.
Proof.
  induction s as [|x s IH].
  - cbn [re.search_from]. rewrite orb_false_r. split.
    + intros Hm. by exists [], [].
    + intros (pre & post & Heq & Hm).
      symmetry in Heq. apply app_eq_nil in Heq as [-> ->]. done.
  - cbn [re.search_from]. rewrite orb_true_iff, IH. split.
    + intros [Hm|(pre & post & -> & Hm)].
      * by exists [], (x :: s).
      * by exists (x :: pre), post.
    + intros (pre & post & Heq & Hm). destruct pre as [|y pre].
      * left. simpl in Heq. by subst.
      * right. simpl in Heq. injection Heq as <- ->. by exists pre, post.
Qed.

(** A token of plain characters always compiles, and the expression is
    found in exactly the names that hold the token's characters in their
    order, in upper or lower case, with no line break between the first and
    the last of them. *)
Theorem fuzzy_token_matches (sp : string) :
  sp ≠ EmptyString →
  Forall (λ c, plain c = true) (list_ascii_of_string sp) →
  ∃ pattern reg,
    SimplexFilterModel.tokenPattern sp = Ok pattern
    ∧ re.compile pattern true = Some (Ok reg)
    ∧ ∀ name, re.search reg name = true ↔
              holdsFuzzy (list_ascii_of_string sp) (list_ascii_of_string name).
Proof.
  intros Hne Hall.
  exists (py_join ".*?" (chars sp)),
    (re.mkRegex (fuzzyItems (list_ascii_of_string sp)) true).
  split_and!.
  - destruct sp as [|c s]; [done|]. unfold SimplexFilterModel.tokenPattern.
    simpl in Hall. apply Forall_cons in Hall as [Hc _].
    destruct (plain_not_in c Hc) as (_ & Hstar & _).
    by rewrite decide_False.
  - unfold re.compile. rewrite joined_pattern, (parse_joined _ [] Hall). done.
  - intros name. unfold re.search. simpl. rewrite search_from_spec.
    unfold holdsFuzzy. split.
    + intros (pre & post & Heq & Hm). exists pre, post.
      split; [done|]. by apply match_here_fuzzy.
    + intros (pre & post & Heq & Hm). exists pre, post.
      split; [done|]. by apply match_here_fuzzy.
Qed.

(** A token with a repeat character cannot be compiled.  A token that
    starts with a star is compiled as it is, and a leading star has nothing
    to repeat; a star, plus or question mark after plain characters comes
    right after the lazy span the setter has put in front of it.  The setter
    raises, the proxy keeps the tokens and no expression, and from then on
    no name matches the filter string. *)
Theorem repeat_token_breaks_filter (self : SimplexFilterModel.t) (val : string)
  (sp : string) (tokens : list string) :
  py_split val = sp :: tokens →
  (∃ rest, sp = String "*" rest)
  ∨ (∃ pre q rest,
       list_ascii_of_string sp = pre ++ q :: rest ∧ pre ≠ []
       ∧ Forall (λ c, plain c = true) pre ∧ q ∈ ["*"; "+"; "?"]) →
  ∃ msg,
    let left := SimplexFilterModel.mk (sp :: tokens) []
                  (SimplexFilterModel.isolateList self) in
    SimplexFilterModel.set_filterString self val
    = Some (Raise (ReError msg), left)
    ∧ ∀ name, SimplexFilterModel.matchFilterString left name = Ok false.
Proof.
  intros Hsplit Hbad.
  assert (∃ pattern msg,
            SimplexFilterModel.tokenPattern sp = Ok pattern
            ∧ re.compile pattern true = Some (Raise (ReError msg)))
    as (pattern & msg & Hp & Hc).
  { destruct Hbad as [(rest & ->)|(pre & q & rest & Hsp & Hne & Hall & Hq)].
    - by exists (String "*" rest), "nothing to repeat"%string.
    - exists (py_join ".*?" (chars sp)), "multiple repeat"%string. split.
      + destruct sp as [|c s]; [by destruct pre|].
        unfold SimplexFilterModel.tokenPattern.
        destruct pre as [|c' pre']; [done|]. simpl in Hsp.
        injection Hsp as -> _. apply Forall_cons in Hall as [Hc _].
        destruct (plain_not_in c' Hc) as (_ & Hstar & _).
        by rewrite decide_False.
      + unfold re.compile.
        by rewrite joined_pattern, Hsp, (parse_joined_repeat pre q rest []). }
  exists msg. cbv zeta. split; [|done].
  unfold SimplexFilterModel.set_filterString. rewrite Hsplit.
  cbn [SimplexFilterModel.compileTokens]. by rewrite Hp, Hc.
Qed.

End Fuzzy.

Lemma fuzzy_token_matches_witness :
  ∃ pattern reg,
    SimplexFilterModel.tokenPattern "sdr" = Ok pattern
    ∧ re.compile pattern true = Some (Ok reg)
    ∧ re.search reg "SlideR" = true.
Proof.
  destruct (fuzzy_token_matches "sdr") as (pattern & reg & Hp & Hc & Hs).
  - discriminate.
  - repeat constructor.
  - exists pattern, reg. split; [exact Hp|]. split; [exact Hc|].
    apply Hs. exists [], (list_ascii_of_string "SlideR").
    split; [reflexivity|].
    exists "S"%char, (list_ascii_of_string "li"), (list_ascii_of_string "deR").
    split; [reflexivity|]. split; [reflexivity|].
    split; [repeat constructor; discriminate|].
    exists "d"%char, (list_ascii_of_string "e"), (list_ascii_of_string "R").
    split; [reflexivity|]. split; [reflexivity|].
    split; [repeat constructor; discriminate|].
    exists "R"%char, []. split; reflexivity.
Defined.

Lemma repeat_token_breaks_filter_witness :
  ∃ msg,
    SimplexFilterModel.set_filterString SimplexFilterModel.init "sl*r jaw"
    = Some (Raise (ReError msg),
            SimplexFilterModel.mk ["sl*r"; "jaw"] [] []).
Proof.
  destruct (repeat_token_breaks_filter SimplexFilterModel.init "sl*r jaw"
              "sl*r" ["jaw"] eq_refl) as (msg & Hset & _).
  - right. exists (list_ascii_of_string "sl"), "*"%char, (list_ascii_of_string "r").
    split; [reflexivity|]. split; [discriminate|].
    split; [repeat constructor|]. apply list_elem_of_here.
  - exists msg. exact Hset.
Defined.

(** * Further properties of the filter proxies *)

Section FirstChild.
Context `{InterfaceItems}.
Variable base : SimplexModel.t.
Variable h : Heap.
Variable self : SimplexFilterModel.t.

Lemma range_len_cons {A} (x : A) (l : list A) :
  range (len (x :: l)) = 0 :: (Z.of_nat <$> seq 1 (length l)).
Proof. unfold range, len. by rewrite Nat2Z.id. Qed.

(** Of the shape targets of a slider only the first is asked.  A slider
    passes the name test when its own name passes or the name of its first
    shape target does; the names of the other shape targets play no part. *)
Theorem slider_first_shape_decides (fuel : nat) (s p c : Ref) (S0 : Slider.t)
  (P : Progression.t) (C : ProgPair.t) (others : list Ref) (ms mc : bool) :
  h !! s = Some (OSlider S0) →
  Slider.prog S0 = Some p →
  h !! p = Some (OProgression P) →
  Progression.pairs P = c :: others →
  h !! c = Some (OProgPair C) →
  SimplexFilterModel.matchFilterString self (Slider.name S0) = Ok ms →
  SimplexFilterModel.matchFilterString self (ProgPair.name C) = Ok mc →
  SimplexFilterModel.checkChildren base h self (S (S fuel)) (Some s)
  = Some (Ok ((ms && SimplexFilterModel.matchIsolation self (Slider.name S0))
              || (mc && SimplexFilterModel.matchIsolation self (ProgPair.name C)))).
Proof.
  intros Hs Hprog Hp Hpairs Hc Hms Hmc.
  assert (attr_name h (Some s) = Ok (Slider.name S0)) as Hns
    by (unfold attr_name, deref; simpl; by rewrite Hs).
  assert (attr_name h (Some c) = Ok (ProgPair.name C)) as Hnc
    by (unfold attr_name, deref; simpl; by rewrite Hc).
  assert (attr_pairs h (Some p) = Ok (c :: others)) as Hps
    by (unfold attr_pairs, deref; simpl; by rewrite Hp, Hpairs).
  cbn [SimplexFilterModel.checkChildren]. rewrite Hns. simpl. rewrite Hms. simpl.
  destruct (ms && SimplexFilterModel.matchIsolation self (Slider.name S0));
    [done|].
  unfold SimplexModel.getItemRowCount. rewrite Hs, Hprog, Hps. simpl.
  rewrite range_len_cons. cbn [SimplexFilterModel.firstChild].
  unfold SimplexModel.getChildItem. rewrite Hs, Hprog, Hps. simpl.
  rewrite Hnc. simpl. rewrite Hmc. simpl.
  destruct (mc && SimplexFilterModel.matchIsolation self (ProgPair.name C));
    [done|].
  unfold SimplexModel.getItemRowCount. by rewrite Hc.
Qed.

End FirstChild.

Lemma slider_first_shape_decides_witness :
  SimplexFilterModel.checkChildren Rig.model Rig.heap Rig.nameFilter 2
    (Some 3%positive)
  = Some (Ok false).
Proof.
  exact (slider_first_shape_decides Rig.model Rig.heap Rig.nameFilter 0
    3%positive 5%positive 6%positive _ _ _ [7%positive; 8%positive] false false
    eq_refl eq_refl eq_refl eq_refl eq_refl eq_refl eq_refl).
Defined.

Section KindProxies.
Variable source : SourceModel.
Variable qt_filterAcceptsRow : Z → QModelIndex → bool.
Variable h : Heap.

(** The slider, combo and traversal proxies hide the groups of the other
    two kinds and nothing else: a row is rejected by the proxy itself
    exactly when it resolves to a valid index of a group whose type is not
    the proxy's; every other row gets the verdict of Qt's row filter. *)
Theorem kind_proxies_hide_other_groups (kind : Kind) (sourceRow : Z)
  (sourceParent sourceIndex : QModelIndex) :
  source_index source h sourceRow 0 sourceParent = Ok sourceIndex →
  let foreign :=
    isValid sourceIndex = true
    ∧ ∃ g G, source_itemFromIndex source sourceIndex = Some g
             ∧ h !! g = Some (OGroup G) ∧ Group.groupType G ≠ kind in
  (foreign →
   kindProxy_filterAcceptsRow source qt_filterAcceptsRow h kind sourceRow
     sourceParent = Ok false)
  ∧ (¬ foreign →
     kindProxy_filterAcceptsRow source qt_filterAcceptsRow h kind sourceRow
       sourceParent = Ok (qt_filterAcceptsRow sourceRow sourceParent))
  ∧ SliderModel.filterAcceptsRow source qt_filterAcceptsRow h
    = kindProxy_filterAcceptsRow source qt_filterAcceptsRow h KSlider
  ∧ ComboModel.filterAcceptsRow source qt_filterAcceptsRow h
    = kindProxy_filterAcceptsRow source qt_filterAcceptsRow h KCombo
  ∧ TraversalModel.filterAcceptsRow source qt_filterAcceptsRow h
    = kindProxy_filterAcceptsRow source qt_filterAcceptsRow h KTraversal.
Proof.
  intros Hidx foreign. unfold kindProxy_filterAcceptsRow. rewrite Hidx. simpl.
  split_and!; try done.
  - intros (Hv & g & G & Hitem & Hg & Hne). rewrite Hv, Hitem.
    unfold deref. simpl. rewrite Hg. simpl. by rewrite decide_True.
  - intros Hnot. destruct (isValid sourceIndex) eqn:Hv; [|done].
    destruct (source_itemFromIndex source sourceIndex) as [g|] eqn:Hitem;
      [|done].
    unfold deref. simpl. destruct (h !! g) as [o|] eqn:Hg; [|done].
    destruct o; try done. simpl.
    destruct (decide (Group.groupType o ≠ kind)) as [Hne|]; [|done].
    exfalso. apply Hnot. split; [done|]. by exists g, o.
Qed.

End KindProxies.

Lemma kind_proxies_hide_other_groups_witness :
  SliderModel.filterAcceptsRow (simplexSource (H := Rig.items) Rig.model)
    Rig.qt_accepts Rig.heap 2 (createIndex 0 0 (Some 1%positive))
  = Ok false.
Proof.
  refine (proj1 (kind_proxies_hide_other_groups
    (simplexSource (H := Rig.items) Rig.model) Rig.qt_accepts Rig.heap KSlider
    2 (createIndex 0 0 (Some 1%positive)) (createIndex 2 0 (Some 20%positive))
    eq_refl) _).
  split; [reflexivity|]. eexists 20%positive, _.
  split; [reflexivity|]. split; [reflexivity|]. discriminate.
Defined.

Section TrivialShapes.
Context `{InterfaceItems}.
Variable base : SimplexModel.t.
Variable qt_filterAcceptsRow : Z → QModelIndex → bool.
Variable h : Heap.
Variable self : SliderFilterModel.t.

(** With [doFilter] set, a slider that has one or two shape targets shows
    none of them: every row under the slider's index is rejected. *)
Theorem small_slider_shows_no_shapes (fuel : nat) (s p : Ref) (S0 : Slider.t)
  (P : Progression.t) (sourceParent : QModelIndex) (i : nat) (c : Ref)
  (C : ProgPair.t) :
  SliderFilterModel.doFilter self = true →
  internalPointer sourceParent = Some s →
  h !! s = Some (OSlider S0) →
  Slider.prog S0 = Some p →
  h !! p = Some (OProgression P) →
  len (Progression.pairs P) ≤ 2 →
  Progression.pairs P !! i = Some c →
  h !! c = Some (OProgPair C) →
  ProgPair.prog C = Some p →
  SliderFilterModel.filterAcceptsRow (simplexSource base) base
    qt_filterAcceptsRow h self fuel (Z.of_nat i) sourceParent
  = Some (Ok false).
Proof.
  intros Hdo Hpar Hs Hprog Hp Hlen Hi Hc Hcp.
  assert (attr_pairs h (Some p) = Ok (Progression.pairs P)) as Hps
    by (unfold attr_pairs, deref; simpl; by rewrite Hp).
  unfold SliderFilterModel.filterAcceptsRow, simplexSource. simpl.
  unfold SimplexModel.index, SimplexModel.getChildItem.
  rewrite Hpar, Hs, Hprog, Hps. simpl.
  rewrite (py_getitem_lookup _ _ _ Hi). simpl.
  assert (isValid (createIndex (Z.of_nat i) 0 (Some c)) = true) as ->.
  { unfold isValid. simpl. rewrite bool_decide_eq_true_2 by lia. done. }
  rewrite Hdo. simpl.
  unfold SliderFilterModel.hidesShape, ContextModel.itemFromIndex, deref. simpl.
  rewrite Hc, Hcp, Hps. simpl. by rewrite decide_True.
Qed.

End TrivialShapes.

Lemma small_slider_shows_no_shapes_witness :
  SliderFilterModel.filterAcceptsRow (simplexSource (H := Rig.items) Rig.model)
    Rig.model Rig.qt_accepts Rig.heap SliderFilterModel.init 3 1
    (createIndex 1 0 (Some 4%positive))
  = Some (Ok false).
Proof.
  refine (small_slider_shows_no_shapes (H := Rig.items) Rig.model
    Rig.qt_accepts Rig.heap SliderFilterModel.init 3 4%positive 9%positive _ _
    (createIndex 1 0 (Some 4%positive)) 1 11%positive _
    eq_refl eq_refl eq_refl eq_refl eq_refl _ eq_refl eq_refl eq_refl).
  vm_compute. discriminate.
Defined.

(** * The flat models *)

Section FlatModels.
Variable h : Heap.

Lemma py_getitem_beyond {A} (l : list A) (row : Z) :
  len l ≤ row → py_getitem l row = Raise IndexError.
Proof.
  intros Hge. unfold py_getitem, len in *. cbv zeta.
  destruct (decide (row < 0)); [lia|].
  by rewrite decide_False by lia.
Qed.

(** The falloff list keeps row 0 for a header: the falloff at position [i]
    has row [i+1], and the index of row [i+1] points back to it.  Row 0 and
    the rows below it give an index with no item, a row past the last
    falloff gives the invalid index, and there are as many rows as falloffs
    plus one. *)
Theorem falloff_rows (self : FalloffModel.t) (fos : list Ref) (i : nat)
  (fo : Ref) (column : Z) (parIndex : QModelIndex) :
  attr_falloffs h (FalloffModel.simplex self) = Ok fos →
  NoDup fos →
  fos !! i = Some fo →
  FalloffModelRows.getItemRow self h (Some fo) = Ok (Some (Z.of_nat i + 1))
  ∧ FalloffModelRows.index self h (Z.of_nat i + 1) column parIndex
    = Ok (createIndex (Z.of_nat i + 1) column (Some fo))
  ∧ FalloffModelRows.rowCount self h parIndex = Ok (len fos + 1)
  ∧ (∀ row, row ≤ 0 →
       FalloffModelRows.index self h row column parIndex
       = Ok (createIndex row column None))
  ∧ (∀ row, len fos < row →
       FalloffModelRows.index self h row column parIndex = Ok invalidIndex)
  ∧ (∀ other, other ∉ fos →
       FalloffModelRows.getItemRow self h (Some other) = Ok None).
Proof.
  intros Hfos Hnd Hi. split_and!.
  - unfold FalloffModelRows.getItemRow. rewrite Hfos. simpl.
    by rewrite (py_index_NoDup _ _ _ Hnd Hi).
  - unfold FalloffModelRows.index. rewrite decide_False by lia.
    rewrite Hfos. simpl.
    replace (Z.of_nat i + 1 - 1) with (Z.of_nat i) by lia.
    by rewrite (py_getitem_lookup _ _ _ Hi).
  - unfold FalloffModelRows.rowCount. by rewrite Hfos.
  - intros row Hrow. unfold FalloffModelRows.index. by rewrite decide_True.
  - intros row Hrow. unfold FalloffModelRows.index.
    rewrite decide_False by (unfold len in *; lia). rewrite Hfos. simpl.
    by rewrite py_getitem_beyond by lia.
  - intros other Hother. unfold FalloffModelRows.getItemRow. rewrite Hfos. simpl.
    destruct (py_index_cases fos other) as [(z & Hz & Hpos)| ->]; [|done].
    apply py_index_lookup in Hz as [_ Hz].
    exfalso. apply Hother. by eapply list_elem_of_lookup_2.
Qed.

(** The slider group list is laid out the same way, over the slider groups
    of the simplex; its append row is the row count. *)
Theorem slider_group_rows (self : SliderGroupModel.t) (groups : list Ref)
  (i : nat) (g : Ref) (column : Z) (parIndex : QModelIndex) :
  attr_sliderGroups h (SliderGroupModel.simplex self) = Ok groups →
  NoDup groups →
  groups !! i = Some g →
  SliderGroupModel.getItemRow self h (Some g) = Ok (Some (Z.of_nat i + 1))
  ∧ SliderGroupModel.index self h (Z.of_nat i + 1) column parIndex
    = Ok (createIndex (Z.of_nat i + 1) column (Some g))
  ∧ SliderGroupModel.rowCount self h parIndex = Ok (len groups + 1)
  ∧ SliderGroupModel.getItemAppendRow self h None = Ok (len groups + 1)
  ∧ (∀ row, len groups < row →
       SliderGroupModel.index self h row column parIndex = Ok invalidIndex).
Proof.
  intros Hgs Hnd Hi. split_and!.
  - unfold SliderGroupModel.getItemRow. rewrite Hgs. simpl.
    by rewrite (py_index_NoDup _ _ _ Hnd Hi).
  - unfold SliderGroupModel.index. rewrite decide_False by lia.
    rewrite Hgs. simpl.
    replace (Z.of_nat i + 1 - 1) with (Z.of_nat i) by lia.
    by rewrite (py_getitem_lookup _ _ _ Hi).
  - unfold SliderGroupModel.rowCount. by rewrite Hgs.
  - unfold SliderGroupModel.getItemAppendRow. by rewrite Hgs.
  - intros row Hrow. unfold SliderGroupModel.index.
    rewrite decide_False by (unfold len in *; lia). rewrite Hgs. simpl.
    by rewrite py_getitem_beyond by lia.
Qed.

(** The falloff table has no header row: the falloff at position [i] has
    row [i].  Unlike the tree model it guards against negative rows: a
    negative row gives the invalid index and never a falloff counted from
    the end. *)
Theorem falloff_data_rows (self : FalloffDataModel.t) (fos : list Ref)
  (i : nat) (fo : Ref) (column : Z) (parIndex : QModelIndex) :
  attr_falloffs h (FalloffDataModel.simplex self) = Ok fos →
  NoDup fos →
  fos !! i = Some fo →
  FalloffDataModel.getItemRow self h (Some fo) = Ok (Some (Z.of_nat i))
  ∧ FalloffDataModel.index self h (Z.of_nat i) column parIndex
    = Ok (createIndex (Z.of_nat i) column (Some fo))
  ∧ FalloffDataModel.rowCount self h parIndex = Ok (len fos)
  ∧ FalloffDataModel.getItemAppendRow self h None = Ok (len fos)
  ∧ (∀ row, row < 0 ∨ len fos ≤ row →
       FalloffDataModel.index self h row column parIndex = Ok invalidIndex).
Proof.
  intros Hfos Hnd Hi. split_and!.
  - unfold FalloffDataModel.getItemRow. rewrite Hfos. simpl.
    by rewrite (py_index_NoDup _ _ _ Hnd Hi).
  - unfold FalloffDataModel.index. rewrite decide_False by lia.
    rewrite Hfos. simpl. by rewrite (py_getitem_lookup _ _ _ Hi).
  - unfold FalloffDataModel.rowCount. by rewrite Hfos.
  - unfold FalloffDataModel.getItemAppendRow. by rewrite Hfos.
  - intros row [Hrow|Hrow]; unfold FalloffDataModel.index.
    + by rewrite decide_True.
    + rewrite decide_False by (unfold len in *; lia). rewrite Hfos. simpl.
      by rewrite py_getitem_beyond.
Qed.

(** A falloff model without a simplex is empty and raises nothing: no rows,
    append row 0, no row for any item and the invalid index for every row
    above 0. *)
Theorem falloff_model_without_simplex (self : FalloffModel.t)
  (item : option Ref) (row column : Z) (parIndex : QModelIndex) :
  FalloffModel.simplex self = None →
  FalloffModelRows.rowCount self h parIndex = Ok 0
  ∧ FalloffModelRows.getItemAppendRow self h item = Ok 0
  ∧ FalloffModelRows.getItemRow self h item = Ok None
  ∧ (0 < row →
     FalloffModelRows.index self h row column parIndex = Ok invalidIndex).
Proof.
  intros Hnone.
  unfold FalloffModelRows.rowCount, FalloffModelRows.getItemAppendRow,
    FalloffModelRows.getItemRow, FalloffModelRows.index.
  rewrite Hnone. simpl. split_and!; try done.
  intros Hrow. by rewrite decide_False by lia.
Qed.

End FlatModels.

Lemma falloff_rows_witness :
  FalloffModelRows.getItemRow (FalloffModel.init (Some 1%positive)) Rig.heap
    (Some 13%positive)
  = Ok (Some 2).
Proof.
  refine (proj1 (falloff_rows Rig.heap (FalloffModel.init (Some 1%positive))
    [12%positive; 13%positive] 1 13%positive 0 invalidIndex eq_refl _ eq_refl)).
  apply (bool_decide_unpack _). by vm_compute.
Defined.

Lemma slider_group_rows_witness :
  SliderGroupModel.index (SliderGroupModel.mk (Some 1%positive)) Rig.heap 2 0
    invalidIndex
  = Ok (createIndex 2 0 (Some 30%positive)).
Proof.
  refine (proj1 (proj2 (slider_group_rows Rig.heap
    (SliderGroupModel.mk (Some 1%positive)) [2%positive; 30%positive] 1
    30%positive 0 invalidIndex eq_refl _ eq_refl))).
  apply (bool_decide_unpack _). by vm_compute.
Defined.

Lemma falloff_data_rows_witness :
  FalloffDataModel.index (FalloffDataModel.mk (Some 1%positive)) Rig.heap (-1) 0
    invalidIndex
  = Ok invalidIndex.
Proof.
  refine (proj2 (proj2 (proj2 (proj2 (falloff_data_rows Rig.heap
    (FalloffDataModel.mk (Some 1%positive)) [12%positive; 13%positive] 0
    12%positive 0 invalidIndex eq_refl _ eq_refl)))) (-1) _).
  - apply (bool_decide_unpack _). by vm_compute.
  - left. reflexivity.
Defined.

Lemma falloff_model_without_simplex_witness :
  FalloffModelRows.rowCount (FalloffModel.init None) Rig.heap invalidIndex = Ok 0.
Proof.
  exact (proj1 (falloff_model_without_simplex Rig.heap (FalloffModel.init None)
    None 1 0 invalidIndex eq_refl)).
Defined.
